(** * Timestock inventory: stock ledger and order fulfilment

    A shallow embedding of the datastore functions of [backend/database.py]
    that maintain the bill of materials, the stock ledger and the orders:
    [add_product_materials], [get_product_materials_by_product_id],
    [update_order_status], [stock_materials] and [create_order_transaction].

    Tables are lists of rows in insertion order.  An [INSERT] appends a row,
    an [UPDATE ... WHERE] maps over the rows, a [SELECT ... WHERE] filters
    them, [fetchone] takes the first row of the answer.  Quantities, stock
    levels and prices are Python numbers; they are modelled as exact integers
    ([Z]).  Timestamps ([date_created]) are left out of the rows. *)

From Stdlib Require Import List String Ascii ZArith Bool Lia DecimalString DecimalNat.
Import ListNotations.
Open Scope string_scope.
Open Scope Z_scope.

(** ** Rows of the tables the functions read and write *)

Record product_material := {
  pm_product_id : string;
  pm_material_id : string;
  pm_used_quantity : Z;
  pm_unit_cost : Z }.

Record material := {
  m_id : string;
  m_item_id : string;
  m_unit_measurement : string;
  m_material_cost : Z;
  m_current_stock : Z;
  m_supplier_id : option string }.

Record item := {
  i_id : string;
  i_item_name : string }.

Record product := {
  p_id : string;
  p_unit_price : Z }.

Record customer := {
  c_id : string;
  c_firstname : string;
  c_lastname : string;
  c_contact_number : string;
  c_email : string;
  c_address : string }.

Record supplier := {
  s_id : string;
  s_firstname : string;
  s_lastname : string;
  s_contact_name : string;
  s_contact_number : string;
  s_email : string;
  s_address : string }.

Record stock_type := {
  stt_id : string;
  stt_type_code : string }.

Record stock_transaction := {
  st_id : string;
  st_stock_type_id : string;
  st_supplier_id : string;
  st_admin_id : option string;
  st_employee_id : option string }.

Record stock_transaction_item := {
  sti_stock_transaction_id : string;
  sti_material_id : string;
  sti_quantity : Z }.

Record order_transaction := {
  ot_id : string;
  ot_customer_id : string;
  ot_status_id : string;
  ot_admin_id : option string;
  ot_total_amount : Z }.

Record order_item := {
  oi_order_id : string;
  oi_product_id : string;
  oi_quantity : Z;
  oi_unit_price : Z }.

Record order_status := {
  os_id : string;
  os_status_code : string }.

(** ** The database: one list per table *)

Record DB := {
  product_materials : list product_material;
  materials : list material;
  items : list item;
  products : list product;
  customers : list customer;
  suppliers : list supplier;
  stock_types : list stock_type;
  stock_transactions : list stock_transaction;
  stock_transaction_items : list stock_transaction_item;
  order_transactions : list order_transaction;
  order_items : list order_item;
  order_statuses : list order_status }.

Definition with_product_materials (f : list product_material -> list product_material) (d : DB) : DB :=
  {| product_materials := f (product_materials d); materials := materials d;
     items := items d; products := products d; customers := customers d;
     suppliers := suppliers d; stock_types := stock_types d;
     stock_transactions := stock_transactions d;
     stock_transaction_items := stock_transaction_items d;
     order_transactions := order_transactions d; order_items := order_items d;
     order_statuses := order_statuses d |}.

Definition with_materials (f : list material -> list material) (d : DB) : DB :=
  {| product_materials := product_materials d; materials := f (materials d);
     items := items d; products := products d; customers := customers d;
     suppliers := suppliers d; stock_types := stock_types d;
     stock_transactions := stock_transactions d;
     stock_transaction_items := stock_transaction_items d;
     order_transactions := order_transactions d; order_items := order_items d;
     order_statuses := order_statuses d |}.

Definition with_customers (f : list customer -> list customer) (d : DB) : DB :=
  {| product_materials := product_materials d; materials := materials d;
     items := items d; products := products d; customers := f (customers d);
     suppliers := suppliers d; stock_types := stock_types d;
     stock_transactions := stock_transactions d;
     stock_transaction_items := stock_transaction_items d;
     order_transactions := order_transactions d; order_items := order_items d;
     order_statuses := order_statuses d |}.

Definition with_suppliers (f : list supplier -> list supplier) (d : DB) : DB :=
  {| product_materials := product_materials d; materials := materials d;
     items := items d; products := products d; customers := customers d;
     suppliers := f (suppliers d); stock_types := stock_types d;
     stock_transactions := stock_transactions d;
     stock_transaction_items := stock_transaction_items d;
     order_transactions := order_transactions d; order_items := order_items d;
     order_statuses := order_statuses d |}.

Definition with_stock_transactions (f : list stock_transaction -> list stock_transaction) (d : DB) : DB :=
  {| product_materials := product_materials d; materials := materials d;
     items := items d; products := products d; customers := customers d;
     suppliers := suppliers d; stock_types := stock_types d;
     stock_transactions := f (stock_transactions d);
     stock_transaction_items := stock_transaction_items d;
     order_transactions := order_transactions d; order_items := order_items d;
     order_statuses := order_statuses d |}.

Definition with_stock_transaction_items (f : list stock_transaction_item -> list stock_transaction_item) (d : DB) : DB :=
  {| product_materials := product_materials d; materials := materials d;
     items := items d; products := products d; customers := customers d;
     suppliers := suppliers d; stock_types := stock_types d;
     stock_transactions := stock_transactions d;
     stock_transaction_items := f (stock_transaction_items d);
     order_transactions := order_transactions d; order_items := order_items d;
     order_statuses := order_statuses d |}.

Definition with_order_transactions (f : list order_transaction -> list order_transaction) (d : DB) : DB :=
  {| product_materials := product_materials d; materials := materials d;
     items := items d; products := products d; customers := customers d;
     suppliers := suppliers d; stock_types := stock_types d;
     stock_transactions := stock_transactions d;
     stock_transaction_items := stock_transaction_items d;
     order_transactions := f (order_transactions d); order_items := order_items d;
     order_statuses := order_statuses d |}.

Definition with_order_items (f : list order_item -> list order_item) (d : DB) : DB :=
  {| product_materials := product_materials d; materials := materials d;
     items := items d; products := products d; customers := customers d;
     suppliers := suppliers d; stock_types := stock_types d;
     stock_transactions := stock_transactions d;
     stock_transaction_items := stock_transaction_items d;
     order_transactions := order_transactions d; order_items := f (order_items d);
     order_statuses := order_statuses d |}.

(** [INSERT INTO t VALUES row] *)
Definition insert {R : Type} (row : R) (t : list R) : list R := t ++ [row].

(** [UPDATE t SET ... WHERE cond] *)
Definition update_where {R : Type} (cond : R -> bool) (set : R -> R) (t : list R) : list R :=
  map (fun r => if cond r then set r else r) t.

(** [SELECT ... WHERE cond] followed by [fetchone()] *)
Definition fetchone {R : Type} (cond : R -> bool) (t : list R) : option R :=
  find cond t.

(** ** The connection

    [con] is one DuckDB connection shared by all functions.  Outside an
    explicit transaction it is in autocommit mode: each statement is applied
    to the committed database at once.  [BEGIN] opens a transaction, whose
    statements work on a private copy until [COMMIT] publishes the copy or
    [ROLLBACK] drops it.  [id_counter] counts the identifiers the datastore has
    handed out for [RETURNING id]; it is not transactional. *)

Record Conn := {
  committed : DB;
  active : option DB;
  id_counter : nat }.

(** A connection with no transaction in flight. *)
Definition Idle (d : DB) (n : nat) : Conn :=
  {| committed := d; active := None; id_counter := n |}.

(** The database as the connection's own statements see it. *)
Definition view (c : Conn) : DB :=
  match active c with Some w => w | None => committed c end.

(** The identifier counter moves on; it is never rolled back. *)
Definition advance (c : Conn) : Conn :=
  {| committed := committed c; active := active c; id_counter := S (id_counter c) |}.

Definition apply_stmt (f : DB -> DB) (c : Conn) : Conn :=
  match active c with
  | Some w => {| committed := committed c; active := Some (f w); id_counter := id_counter c |}
  | None => {| committed := f (committed c); active := None; id_counter := id_counter c |}
  end.

(** ** Exceptions and the state-and-error monad of the functions *)

Inductive exn :=
| ValueError (msg : string)
| HTTPException (status_code : Z) (detail : string)
| TransactionError (msg : string).

Inductive result (A : Type) :=
| Ok (a : A)
| Raise (e : exn).
Arguments Ok {A} a.
Arguments Raise {A} e.

Definition M (A : Type) : Type := Conn -> result A * Conn.

Definition ret {A} (a : A) : M A := fun c => (Ok a, c).

Definition bind {A B} (m : M A) (k : A -> M B) : M B :=
  fun c => match m c with
           | (Ok a, c') => k a c'
           | (Raise e, c') => (Raise e, c')
           end.

Definition raise {A} (e : exn) : M A := fun c => (Raise e, c).

Declare Scope db_scope.
Delimit Scope db_scope with db.
Notation "x <- m ;; k" := (bind m (fun x => k))
  (at level 100, m at next level, right associativity) : db_scope.
Notation "m ;; k" := (bind m (fun _ => k))
  (at level 100, right associativity) : db_scope.
Open Scope db_scope.

(** A [SELECT]: reads the view, changes nothing. *)
Definition query {A} (q : DB -> A) : M A := fun c => (Ok (q (view c)), c).

(** An [INSERT], [UPDATE] or [DELETE] without a result. *)
Definition execute (f : DB -> DB) : M unit := fun c => (Ok tt, apply_stmt f c).

(** [con.execute("BEGIN")] *)
Definition sql_begin : M unit :=
  fun c => match active c with
           | None => (Ok tt, {| committed := committed c; active := Some (committed c); id_counter := id_counter c |})
           | Some _ => (Raise (TransactionError "cannot start a transaction within a transaction"), c)
           end.

(** [con.commit()]: a no-op in autocommit mode, [COMMIT] otherwise. *)
Definition con_commit : M unit :=
  fun c => match active c with
           | Some w => (Ok tt, {| committed := w; active := None; id_counter := id_counter c |})
           | None => (Ok tt, c)
           end.

(** [con.rollback()] and [con.execute("ROLLBACK")] *)
Definition sql_rollback : M unit :=
  fun c => match active c with
           | Some _ => (Ok tt, {| committed := committed c; active := None; id_counter := id_counter c |})
           | None => (Raise (TransactionError "cannot rollback - no transaction is active"), c)
           end.

(** [try: m  except Exception as e: h e] *)
Definition try_except {A} (m : M A) (h : exn -> M A) : M A :=
  fun c => match m c with
           | (Ok a, c') => (Ok a, c')
           | (Raise e, c') => h e c'
           end.

(** [for x in xs: body x] *)
Fixpoint for_each {X} (xs : list X) (body : X -> M unit) : M unit :=
  match xs with
  | [] => ret tt
  | x :: rest => body x ;; for_each rest body
  end.

(** A [for] loop that updates a local variable. *)
Fixpoint for_fold {X S} (xs : list X) (acc : S) (body : X -> S -> M S) : M S :=
  match xs with
  | [] => ret acc
  | x :: rest => acc' <- body x acc ;; for_fold rest acc' body
  end.

(** ** Python values *)

(** Truthiness of an optional identifier: [None] and [''] are falsy.
    [truthy_id] keeps the identifier exactly when [not x] is false. *)
Definition truthy_id (x : option string) : option string :=
  match x with
  | Some s => if String.eqb s "" then None else Some s
  | None => None
  end.

Definition is_some {A} (x : option A) : bool :=
  match x with Some _ => true | None => false end.

(** [str(n)] for an integer. *)
Definition py_str (n : Z) : string := NilZero.string_of_int (Z.to_int n).

(** A [dict] with string keys: insertion-ordered, assignment to a present key
    replaces its value in place. *)
Definition pydict (V : Type) : Type := list (string * V).

Fixpoint dict_set {V} (k : string) (v : V) (d : pydict V) : pydict V :=
  match d with
  | [] => [(k, v)]
  | (k', v') :: rest => if String.eqb k' k then (k, v) :: rest else (k', v') :: dict_set k v rest
  end.

Fixpoint dict_get {V} (k : string) (d : pydict V) : option V :=
  match d with
  | [] => None
  | (k', v') :: rest => if String.eqb k' k then Some v' else dict_get k rest
  end.

(** [d[k][field] op= ...] on a present key. *)
Definition dict_adjust {V} (k : string) (f : V -> V) (d : pydict V) : pydict V :=
  map (fun kv => if String.eqb (fst kv) k then (fst kv, f (snd kv)) else kv) d.

Definition dict_values {V} (d : pydict V) : list V := map snd d.

Definition newline : string := String (ascii_of_nat 10) "".

(** [sep.join(xs)] *)
Fixpoint join (sep : string) (xs : list string) : string :=
  match xs with
  | [] => ""
  | [x] => x
  | x :: rest => x ++ sep ++ join sep rest
  end.

(** ** Arguments and replies of the functions (the Python dicts) *)

Record bom_input := {
  bi_material_id : string;
  bi_used_quantity : Z;
  bi_unit_cost : option Z }.

Record bom_data := {
  bd_product_id : string;
  bd_materials : list bom_input }.

Record bom_view := {
  bv_material_id : string;
  bv_item_name : string;
  bv_unit_measurement : string;
  bv_used_quantity : Z;
  bv_unit_cost : Z }.

(** What [update_order_status] returns: the dict [{"error": msg}] or the
    dict [{"success": True}].  Both are return values, not exceptions. *)
Inductive status_reply :=
| StatusError (msg : string)
| StatusSuccess.

Record supplier_input := {
  si_contact_name : string;
  si_contact_number : string;
  si_email : string;
  si_firstname : string;
  si_lastname : string;
  si_address : string }.

Record stock_line := {
  sl_material_id : string;
  sl_quantity : Z }.

Record stock_data := {
  sd_supplier_id : option string;
  sd_supplier : option supplier_input;
  sd_stock_type_id : option string;
  sd_admin_id : option string;
  sd_employee_id : option string;
  sd_items : list stock_line }.

Record stock_reply := {
  sr_transaction_id : string;
  sr_message : string }.

Record customer_input := {
  ci_firstname : string;
  ci_lastname : string;
  ci_contact_number : string;
  ci_email : string;
  ci_address : string }.

Record order_line := {
  ol_product_id : string;
  ol_quantity : Z }.

Record order_data := {
  od_customer_id : option string;
  od_customer : option customer_input;
  od_status_id : string;
  od_admin_id : option string;
  od_items : list order_line }.

Record order_reply := {
  or_transaction_id : string;
  or_message : string }.

(** One value of the [material_requirements] dict. *)
Record requirement := {
  r_needed : Z;
  r_available : Z;
  r_item_name : string;
  r_unit : string }.

Definition set_current_stock (s : Z) (m : material) : material :=
  {| m_id := m_id m; m_item_id := m_item_id m;
     m_unit_measurement := m_unit_measurement m;
     m_material_cost := m_material_cost m; m_current_stock := s;
     m_supplier_id := m_supplier_id m |}.

Definition set_status_id (s : string) (t : order_transaction) : order_transaction :=
  {| ot_id := ot_id t; ot_customer_id := ot_customer_id t; ot_status_id := s;
     ot_admin_id := ot_admin_id t; ot_total_amount := ot_total_amount t |}.

Definition set_total_amount (a : Z) (t : order_transaction) : order_transaction :=
  {| ot_id := ot_id t; ot_customer_id := ot_customer_id t;
     ot_status_id := ot_status_id t; ot_admin_id := ot_admin_id t;
     ot_total_amount := a |}.

Definition set_needed (n : Z) (v : requirement) : requirement :=
  {| r_needed := n; r_available := r_available v; r_item_name := r_item_name v;
     r_unit := r_unit v |}.

(** ** Queries *)

(** [SELECT 1 FROM product_materials WHERE product_id = ? AND material_id = ?] *)
Definition bom_line_exists (product_id material_id : string) (d : DB) : bool :=
  is_some (fetchone (fun r => String.eqb (pm_product_id r) product_id
                              && String.eqb (pm_material_id r) material_id)
                    (product_materials d)).

(** [SELECT ... FROM materials WHERE id = ?] *)
Definition material_by_id (material_id : string) (d : DB) : option material :=
  fetchone (fun m => String.eqb (m_id m) material_id) (materials d).

(** [SELECT id FROM order_statuses WHERE status_code = ?] *)
Definition status_by_code (status_code : string) (d : DB) : option order_status :=
  fetchone (fun s => String.eqb (os_status_code s) status_code) (order_statuses d).

(** [SELECT id FROM order_transactions WHERE id = ?] *)
Definition order_by_id (transaction_id : string) (d : DB) : option order_transaction :=
  fetchone (fun t => String.eqb (ot_id t) transaction_id) (order_transactions d).



(** [SELECT unit_price FROM products WHERE id = ?] *)
Definition product_by_id (product_id : string) (d : DB) : option product :=
  fetchone (fun p => String.eqb (p_id p) product_id) (products d).

(** The rows of [product_materials] of one product. *)
Definition bom_of (product_id : string) (d : DB) : list product_material :=
  filter (fun pm => String.eqb (pm_product_id pm) product_id) (product_materials d).

(** [product_materials pm JOIN materials m ON pm.material_id = m.id
     JOIN items i ON m.item_id = i.id WHERE pm.product_id = ?] *)
Definition bom_join {R} (product_id : string) (row : product_material -> material -> item -> R) (d : DB) : list R :=
  flat_map (fun pm =>
    flat_map (fun m =>
      map (row pm m)
          (filter (fun i => String.eqb (i_id i) (m_item_id m)) (items d)))
      (filter (fun m => String.eqb (m_id m) (pm_material_id pm)) (materials d)))
    (bom_of product_id d).

(** The pre-check of [create_order_transaction], one joined row at a time:
    the dict entry of the material is assigned afresh, then its [needed] is
    incremented. *)
Definition note_requirement (quantity : Z) (material_requirements : pydict requirement)
    (row : string * Z * Z * string * string) : pydict requirement :=
  let '(material_id, used_qty, current_stock, item_name, unit_) := row in
  let total_needed := used_qty * quantity in
  let material_requirements :=
    dict_set material_id
      {| r_needed := 0; r_available := current_stock; r_item_name := item_name;
         r_unit := unit_ |} material_requirements in
  dict_adjust material_id (fun v => set_needed (r_needed v + total_needed) v)
    material_requirements.

(** The entries the comprehension of [lacking_materials] keeps. *)
Definition lacking_entries (material_requirements : pydict requirement) : list requirement :=
  filter (fun v => Z.gtb (r_needed v) (r_available v)) (dict_values material_requirements).

Definition format_lacking (v : requirement) : string :=
  r_item_name v ++ " (Need: " ++ py_str (r_needed v) ++ " " ++ r_unit v
  ++ ", Available: " ++ py_str (r_available v) ++ " " ++ r_unit v ++ ")".

Definition lacking_materials (material_requirements : pydict requirement) : list string :=
  map format_lacking (lacking_entries material_requirements).

Definition formatted_message (lacking : list string) : string :=
  "Insufficient material stock for the following materials:" ++ newline ++ newline
  ++ join newline (map (fun item => "• " ++ item) lacking).

(** ** The stock ledger read as a signed sum

    A ledger entry is a row of [stock_transaction_items] joined with its
    header in [stock_transactions].  [create_order_transaction] writes its
    consumption headers under the stock type ['STT002']; this is the only
    mark of direction a ledger row carries, every other type is a receipt. *)

Definition is_consumption (t : stock_transaction) : bool :=
  String.eqb (st_stock_type_id t) "STT002".

Definition signed (t : stock_transaction) (quantity : Z) : Z :=
  if is_consumption t then - quantity else quantity.

Definition zsum (l : list Z) : Z := fold_right Z.add 0 l.

(** What one item row contributes: its quantity, signed by each header it
    joins with. *)
Definition item_effect (d : DB) (it : stock_transaction_item) : Z :=
  zsum (map (fun t => signed t (sti_quantity it))
            (filter (fun t => String.eqb (st_id t) (sti_stock_transaction_id it))
                    (stock_transactions d))).

(** Sum of the receipts minus sum of the consumptions of one material. *)
Definition ledger_balance (d : DB) (material_id : string) : Z :=
  zsum (map (item_effect d)
            (filter (fun it => String.eqb (sti_material_id it) material_id)
                    (stock_transaction_items d))).

(** The ledger-counter invariant. *)
Definition ledger_consistent (d : DB) : Prop :=
  forall m, In m (materials d) -> m_current_stock m = ledger_balance d (m_id m).

(** ** Specifications of effectful code

    [triple P m Q E]: from a connection satisfying [P], [m] either returns
    [a] in a connection satisfying [Q a], or raises in one satisfying [E]. *)
Definition triple {A} (P : Conn -> Prop) (m : M A) (Q : A -> Conn -> Prop) (E : Conn -> Prop) : Prop :=
  forall c, P c ->
    match m c with
    | (Ok a, c') => Q a c'
    | (Raise _, c') => E c'
    end.

(** Inside a transaction opened on the committed database [d0]. *)
Definition in_transaction (d0 : DB) (c : Conn) : Prop :=
  committed c = d0 /\ active c <> None.

(** An outcome that is an exception. *)
Definition raises {A} (out : result A * Conn) : Prop :=
  exists e, fst out = Raise e.

(** The demand the specification asks the admission check to compare with
    the stock of a material: the sum of [used_quantity * quantity] over all
    order lines and all BOM rows of their products that name the material. *)
Definition aggregated_needed (d : DB) (items_in : list order_line) (material_id : string) : Z :=
  zsum (flat_map (fun line =>
          map (fun pm => pm_used_quantity pm * ol_quantity line)
              (filter (fun pm => String.eqb (pm_material_id pm) material_id)
                      (bom_of (ol_product_id line) d)))
        items_in).

(** ** Catalogue maintenance: more statements *)

Definition with_items (f : list item -> list item) (d : DB) : DB :=
  {| product_materials := product_materials d; materials := materials d;
     items := f (items d); products := products d; customers := customers d;
     suppliers := suppliers d; stock_types := stock_types d;
     stock_transactions := stock_transactions d;
     stock_transaction_items := stock_transaction_items d;
     order_transactions := order_transactions d; order_items := order_items d;
     order_statuses := order_statuses d |}.

(** [DELETE FROM t WHERE cond] *)
Definition delete_where {R : Type} (cond : R -> bool) (t : list R) : list R :=
  filter (fun r => negb (cond r)) t.

(** The [rowcount] of an [UPDATE] or [DELETE ... WHERE cond]: the number of
    rows the statement touched. *)
Definition rowcount {R : Type} (cond : R -> bool) (t : list R) : nat :=
  List.length (filter cond t).

(** A statement whose [rowcount] the caller reads. *)
Definition execute_rowcount (count : DB -> nat) (f : DB -> DB) : M nat :=
  fun c => (Ok (count (view c)), apply_stmt f c).

(** The dict [{"success": ..., "message": ...}] several functions return. *)
Record crud_reply := {
  success : bool;
  message : string }.

(** [str(e)] *)
Definition exn_str (e : exn) : string :=
  match e with
  | ValueError msg => msg
  | HTTPException status_code detail => py_str status_code ++ ": " ++ detail
  | TransactionError msg => msg
  end.

(** [WHERE product_id = ? AND material_id = ?] *)
Definition bom_pair (product_id material_id : string) (r : product_material) : bool :=
  String.eqb (pm_product_id r) product_id && String.eqb (pm_material_id r) material_id.

Definition set_bom_values (used_quantity unit_cost : Z) (r : product_material) : product_material :=
  {| pm_product_id := pm_product_id r; pm_material_id := pm_material_id r;
     pm_used_quantity := used_quantity; pm_unit_cost := unit_cost |}.

Definition update_product_material (product_id material_id : string)
    (used_quantity unit_cost : Z) : M unit :=
  result <- execute_rowcount
    (fun d => rowcount (bom_pair product_id material_id) (product_materials d))
    (with_product_materials
       (update_where (bom_pair product_id material_id)
                     (set_bom_values used_quantity unit_cost))) ;;
  if Nat.eqb result 0
  then raise (ValueError "No matching product-material found to update.")
  else con_commit.

Definition delete_product_material (product_id material_id : string) : M unit :=
  result <- execute_rowcount
    (fun d => rowcount (bom_pair product_id material_id) (product_materials d))
    (with_product_materials (delete_where (bom_pair product_id material_id))) ;;
  if Nat.eqb result 0
  then raise (ValueError "No matching product-material found to delete.")
  else con_commit.

Definition delete_material (material_id : string) : M crud_reply :=
  try_except
    (row <- query (material_by_id material_id) ;;
     match row with
     | None => ret {| success := false; message := "Material not found." |}
     | Some m =>
         let item_id := m_item_id m in
         execute (with_product_materials
           (delete_where (fun r => String.eqb (pm_material_id r) material_id))) ;;
         execute (with_stock_transaction_items
           (delete_where (fun it => String.eqb (sti_material_id it) material_id))) ;;
         execute (with_materials (delete_where (fun m => String.eqb (m_id m) material_id))) ;;
         execute (with_items (delete_where (fun i => String.eqb (i_id i) item_id))) ;;
         con_commit ;;
         ret {| success := true;
                message := "Material and corresponding item deleted successfully." |}
     end)
    (fun e => ret {| success := false; message := exn_str e |}).

Definition delete_customer (id : string) : M unit :=
  execute (with_customers (delete_where (fun c => String.eqb (c_id c) id))).

Definition delete_supplier (id : string) : M unit :=
  execute (with_suppliers (delete_where (fun s => String.eqb (s_id s) id))).

(** ** The rows the pre-check of an order reads *)

(** The rows the pre-check loop of [create_order_transaction] goes through,
    in order, each with the quantity of its order line. *)
Definition joined_rows (d : DB) (items_in : list order_line)
    : list (Z * (string * Z * Z * string * string)) :=
  flat_map (fun line =>
    map (pair (ol_quantity line))
        (bom_join (ol_product_id line) (fun pm m i =>
           (pm_material_id pm, pm_used_quantity pm, m_current_stock m, i_item_name i,
            m_unit_measurement m)) d)) items_in.

Definition row_material (entry : Z * (string * Z * Z * string * string)) : string :=
  let '(_, (material_id, _, _, _, _)) := entry in material_id.

(** The dict entry one joined row alone gives rise to. *)
Definition requirement_of (entry : Z * (string * Z * Z * string * string)) : requirement :=
  let '(quantity, (_, used_qty, current_stock, item_name, unit_)) := entry in
  {| r_needed := used_qty * quantity; r_available := current_stock;
     r_item_name := item_name; r_unit := unit_ |}.

(** The last of the rows that names the material. *)
Definition last_row_for (material_id : string)
    (rows : list (Z * (string * Z * Z * string * string))) :=
  find (fun entry => String.eqb (row_material entry) material_id) (rev rows).

(** ** Bills of materials grouped by product *)

(** A row of the data frame [get_product_materials_grouped] reads. *)
Record grouped_row := {
  gr_product_id : string; gr_product_name : string;
  gr_material_id : string; gr_material_name : string;
  gr_used_quantity : Z; gr_unit_cost : Z; gr_line_cost : Z }.

Record grouped_material := {
  gm_material_id : string; gm_material_name : string;
  gm_used_quantity : Z; gm_unit_cost : Z; gm_line_cost : Z }.

Record grouped_product := {
  gp_product_id : option string; gp_product_name : option string;
  gp_materials : list grouped_material }.

(** [d[k]] on a [defaultdict]: a missing key is first given the default. *)
Definition dict_default {V} (k : string) (default : V) (d : pydict V) : pydict V :=
  match dict_get k d with
  | Some _ => d
  | None => dict_set k default d
  end.

Definition grouped_material_of (row : grouped_row) : grouped_material :=
  {| gm_material_id := gr_material_id row; gm_material_name := gr_material_name row;
     gm_used_quantity := gr_used_quantity row; gm_unit_cost := gr_unit_cost row;
     gm_line_cost := gr_line_cost row |}.

(** The body of the loop of [get_product_materials_grouped]. *)
Definition group_row (grouped : pydict grouped_product) (row : grouped_row)
    : pydict grouped_product :=
  let default := {| gp_product_id := None; gp_product_name := None; gp_materials := [] |} in
  let prod_id := gr_product_id row in
  let grouped :=
    dict_adjust prod_id
      (fun g => {| gp_product_id := Some prod_id; gp_product_name := gp_product_name g;
                   gp_materials := gp_materials g |})
      (dict_default prod_id default grouped) in
  let grouped :=
    dict_adjust prod_id
      (fun g => {| gp_product_id := gp_product_id g;
                   gp_product_name := Some (gr_product_name row);
                   gp_materials := gp_materials g |})
      (dict_default prod_id default grouped) in
  dict_adjust prod_id
    (fun g => {| gp_product_id := gp_product_id g; gp_product_name := gp_product_name g;
                 gp_materials := (gp_materials g ++ [grouped_material_of row])%list |})
    (dict_default prod_id default grouped).

(** [get_product_materials_grouped], given the rows [df] its query
    fetched. *)
Definition get_product_materials_grouped (df : list grouped_row) : list grouped_product :=
  dict_values (fold_left group_row df []).

(** The rows of one product. *)
Definition rows_of_product (product_id : string) (df : list grouped_row) : list grouped_row :=
  filter (fun row => String.eqb (gr_product_id row) product_id) df.

(** ** A small shop, for the examples

    Products A and B are both made of material M (2 and 3 units); product P
    has no bill of materials.  M has 4 units in stock, received under R1. *)

Definition demo_id (n : nat) : string :=
  "T" ++ NilEmpty.string_of_uint (Nat.to_uint n).

(** The strings of the examples are already stripped and capitalised. *)
Definition as_is (s : string) : string := s.

Definition bom_row (product_id material_id : string) (used : Z) : product_material :=
  {| pm_product_id := product_id; pm_material_id := material_id;
     pm_used_quantity := used; pm_unit_cost := 1 |}.

Definition material_row (id item_id : string) (stock : Z) : material :=
  {| m_id := id; m_item_id := item_id; m_unit_measurement := "pcs";
     m_material_cost := 1; m_current_stock := stock; m_supplier_id := Some "S1" |}.

Definition shop : DB :=
  {| product_materials := [bom_row "A" "M" 2; bom_row "B" "M" 3];
     materials := [material_row "M" "IM" 4];
     items := [{| i_id := "IM"; i_item_name := "Steel" |}];
     products := [{| p_id := "A"; p_unit_price := 10 |}; {| p_id := "B"; p_unit_price := 20 |};
                  {| p_id := "P"; p_unit_price := 7 |}];
     customers := [];
     suppliers := [];
     stock_types := [{| stt_id := "STT001"; stt_type_code := "STT001" |};
                     {| stt_id := "STT002"; stt_type_code := "STT002" |}];
     stock_transactions :=
       [{| st_id := "R1"; st_stock_type_id := "STT001"; st_supplier_id := "S1";
           st_admin_id := Some "ADM1"; st_employee_id := None |}];
     stock_transaction_items :=
       [{| sti_stock_transaction_id := "R1"; sti_material_id := "M"; sti_quantity := 4 |}];
     order_transactions :=
       [{| ot_id := "O1"; ot_customer_id := "C1"; ot_status_id := "OS1";
           ot_admin_id := Some "ADM1"; ot_total_amount := 10 |}];
     order_items :=
       [{| oi_order_id := "O1"; oi_product_id := "A"; oi_quantity := 1; oi_unit_price := 10 |}];
     order_statuses := [{| os_id := "OS1"; os_status_code := "PENDING" |};
                        {| os_id := "OS2"; os_status_code := "DONE" |}] |}.

(** The same shop where B also needs 10 units of material N, of which there
    are none. *)
Definition shop_two : DB :=
  with_materials (insert (material_row "N" "IN" 0))
    (with_product_materials (insert (bom_row "B" "N" 10))
       {| product_materials := product_materials shop; materials := materials shop;
          items := insert {| i_id := "IN"; i_item_name := "Glue" |} (items shop);
          products := products shop; customers := customers shop;
          suppliers := suppliers shop; stock_types := stock_types shop;
          stock_transactions := stock_transactions shop;
          stock_transaction_items := stock_transaction_items shop;
          order_transactions := order_transactions shop;
          order_items := order_items shop; order_statuses := order_statuses shop |}).

Definition order_of (customer_id : option string) (customer : option customer_input)
    (lines : list order_line) : order_data :=
  {| od_customer_id := customer_id; od_customer := customer; od_status_id := "OS1";
     od_admin_id := Some "ADM1"; od_items := lines |}.

(** One A and one B, for a known customer. *)
Definition order_a_and_b : order_data :=
  order_of (Some "C1") None
    [{| ol_product_id := "A"; ol_quantity := 1 |}; {| ol_product_id := "B"; ol_quantity := 1 |}].

(** Three A, more than the stock allows, for a walk-in customer. *)
Definition order_walk_in : order_data :=
  order_of None
    (Some {| ci_firstname := "Ana"; ci_lastname := "Cruz"; ci_contact_number := "0917";
             ci_email := "ana@example.com"; ci_address := "Davao" |})
    [{| ol_product_id := "A"; ol_quantity := 3 |}].

(** Two P, the product without a bill of materials. *)
Definition order_p : order_data :=
  order_of (Some "C1") None [{| ol_product_id := "P"; ol_quantity := 2 |}].

(** Minus one A. *)
Definition order_minus_one : order_data :=
  order_of (Some "C1") None [{| ol_product_id := "A"; ol_quantity := -1 |}].

Definition receipt_of (stock_type_id admin_id employee_id : option string)
    (lines : list stock_line) : stock_data :=
  {| sd_supplier_id := Some "S1"; sd_supplier := None; sd_stock_type_id := stock_type_id;
     sd_admin_id := admin_id; sd_employee_id := employee_id; sd_items := lines |}.

Definition five_of_m : list stock_line := [{| sl_material_id := "M"; sl_quantity := 5 |}].

Definition p_needs_m : bom_input :=
  {| bi_material_id := "M"; bi_used_quantity := 2; bi_unit_cost := None |}.

Definition p_needs_unknown : bom_input :=
  {| bi_material_id := "X"; bi_used_quantity := 1; bi_unit_cost := None |}.

(** One A, which the stock covers, for a known customer. *)
Definition order_one_a : order_data :=
  order_of (Some "C1") None [{| ol_product_id := "A"; ol_quantity := 1 |}].

Definition ana : customer_input :=
  {| ci_firstname := "Ana"; ci_lastname := "Cruz"; ci_contact_number := "0917";
     ci_email := "ana@example.com"; ci_address := "Davao" |}.

(** One A for a walk-in customer. *)
Definition order_walk_in_one : order_data :=
  order_of None (Some ana) [{| ol_product_id := "A"; ol_quantity := 1 |}].

(** An order that names no customer at all. *)
Definition order_nobody : order_data :=
  order_of None None [{| ol_product_id := "A"; ol_quantity := 1 |}].

Definition acme : supplier_input :=
  {| si_contact_name := "Acme"; si_contact_number := "0918"; si_email := "acme@example.com";
     si_firstname := "Al"; si_lastname := "Reyes"; si_address := "Cebu" |}.

(** Five of M from a supplier the shop does not know yet. *)
Definition receipt_from_acme (admin_id : option string) : stock_data :=
  {| sd_supplier_id := None; sd_supplier := Some acme; sd_stock_type_id := None;
     sd_admin_id := admin_id; sd_employee_id := None; sd_items := five_of_m |}.

(** A receipt that names no supplier. *)
Definition receipt_from_nobody : stock_data :=
  {| sd_supplier_id := None; sd_supplier := None; sd_stock_type_id := None;
     sd_admin_id := Some "ADM1"; sd_employee_id := None; sd_items := five_of_m |}.

(** Rows as the query of [get_product_materials_grouped] fetches them: two
    of product A around one of product B. *)
Definition frame_row (product_id product_name material_id : string) : grouped_row :=
  {| gr_product_id := product_id; gr_product_name := product_name;
     gr_material_id := material_id; gr_material_name := "Steel";
     gr_used_quantity := 2; gr_unit_cost := 1; gr_line_cost := 2 |}.

Definition frame : list grouped_row :=
  [frame_row "A" "Door" "M"; frame_row "B" "Window" "M"; frame_row "A" "Door" "N"].

Section Timestock.

(** The datastore's default for a generated key ([RETURNING id]); the schema
    is not part of the source.  [gen_id k] is the identifier handed out when
    the counter stands at [k]. *)
Variable gen_id : nat -> string.

(** Python's [str.strip] and [str.title], and SQL's [LOWER]. *)
Variables py_strip py_title sql_lower : string -> string.

(** [INSERT ... RETURNING id] followed by [fetchone()[0]] *)
Definition insert_returning_id (mk : string -> DB -> DB) : M string :=
  fun c => let id := gen_id (id_counter c) in
           (Ok id, advance (apply_stmt (mk id) c)).

(** ** Bill of materials *)

(** The body of the loop of [add_product_materials]. *)
Definition add_product_material (product_id : string) (material : bom_input) : M unit :=
  let material_id := bi_material_id material in
  let used_quantity := bi_used_quantity material in
  existing <- query (bom_line_exists product_id material_id) ;;
  if (existing : bool) then ret tt
  else
    unit_cost <-
      match bi_unit_cost material with
      | Some cost => ret cost
      | None =>
          result <- query (material_by_id material_id) ;;
          match result with
          | None => raise (ValueError ("Material with ID '" ++ material_id ++ "' not found."))
          | Some m => ret (m_material_cost m)
          end
      end ;;
    execute (with_product_materials (insert
      {| pm_product_id := product_id; pm_material_id := material_id;
         pm_used_quantity := used_quantity; pm_unit_cost := unit_cost |})).

Definition add_product_materials (data : bom_data) : M unit :=
  let product_id := bd_product_id data in
  let materials_in := bd_materials data in
  for_each materials_in (add_product_material product_id) ;;
  con_commit.

Definition get_product_materials_by_product_id (product_id : string) : M (list bom_view) :=
  query (bom_join product_id (fun pm m i =>
    {| bv_material_id := pm_material_id pm; bv_item_name := i_item_name i;
       bv_unit_measurement := m_unit_measurement m;
       bv_used_quantity := pm_used_quantity pm; bv_unit_cost := pm_unit_cost pm |})).

(** ** Order status *)

Definition update_order_status (transaction_id new_status_code : string) : M status_reply :=
  status_row <- query (status_by_code new_status_code) ;;
  match status_row with
  | None => ret (StatusError "Status code not found.")
  | Some status =>
      txn_row <- query (order_by_id transaction_id) ;;
      match txn_row with
      | None => ret (StatusError "Transaction ID not found.")
      | Some _ =>
          execute (with_order_transactions
            (update_where (fun t => String.eqb (ot_id t) transaction_id)
                          (set_status_id (os_id status)))) ;;
          ret StatusSuccess
      end
  end.

(** ** Stock receiving *)

(** Step 0 of [stock_materials]: create or identify the supplier. *)
Definition resolve_supplier (data : stock_data) : M string :=
  match truthy_id (sd_supplier_id data), sd_supplier data with
  | Some given, _ => ret given
  | None, Some supplier =>
      let contact_name := py_title (py_strip (si_contact_name supplier)) in
      let contact_number := py_strip (si_contact_number supplier) in
      let email := py_strip (si_email supplier) in
      let firstname := py_title (py_strip (si_firstname supplier)) in
      let lastname := py_title (py_strip (si_lastname supplier)) in
      let address := py_title (py_strip (si_address supplier)) in
      existing <- query (fun d =>
        fetchone (fun s => String.eqb (sql_lower (s_contact_name s)) (sql_lower contact_name))
                 (suppliers d)) ;;
      match existing with
      | Some _ =>
          raise (ValueError ("Supplier with contact name '" ++ contact_name ++ "' already exists."))
      | None =>
          insert_returning_id (fun id => with_suppliers (insert
            {| s_id := id; s_firstname := firstname; s_lastname := lastname;
               s_contact_name := contact_name; s_contact_number := contact_number;
               s_email := email; s_address := address |}))
      end
  | None, None =>
      raise (ValueError "Either supplier_id or supplier details must be provided.")
  end.

(** Step 1: determine [stock_type_id]. *)
Definition resolve_stock_type (data : stock_data) : M string :=
  match truthy_id (sd_stock_type_id data) with
  | Some given => ret given
  | None =>
      result <- query (fun d =>
        fetchone (fun t => String.eqb (stt_type_code t) "STT001") (stock_types d)) ;;
      match result with
      | None => raise (ValueError "Stock type 'STT001' not found in stock_types table.")
      | Some t => ret (stt_id t)
      end
  end.

(** Step 3: one ledger item and one increment per line. *)
Definition receive_lines (stock_transaction_id : string) (items_in : list stock_line) : M unit :=
  for_each items_in (fun item =>
    let material_id := sl_material_id item in
    let quantity := sl_quantity item in
    execute (with_stock_transaction_items (insert
      {| sti_stock_transaction_id := stock_transaction_id;
         sti_material_id := material_id; sti_quantity := quantity |})) ;;
    execute (with_materials
      (update_where (fun m => String.eqb (m_id m) material_id)
                    (fun m => set_current_stock (m_current_stock m + quantity) m)))).

(** The body of the [try] block of [stock_materials], after [BEGIN]. *)
Definition stock_body (data : stock_data) : M stock_reply :=
  let items_in := sd_items data in
  supplier_id <- resolve_supplier data ;;
  stock_type_id <- resolve_stock_type data ;;
  let admin_id := sd_admin_id data in
  let employee_id := sd_employee_id data in
  (if negb (is_some (truthy_id admin_id)) && negb (is_some (truthy_id employee_id))
   then raise (ValueError "Either admin_id or employee_id must be provided.")
   else ret tt) ;;
  stock_transaction_id <- insert_returning_id (fun id => with_stock_transactions (insert
    {| st_id := id; st_stock_type_id := stock_type_id; st_supplier_id := supplier_id;
       st_admin_id := admin_id; st_employee_id := employee_id |})) ;;
  receive_lines stock_transaction_id items_in ;;
  con_commit ;;
  ret {| sr_transaction_id := stock_transaction_id;
         sr_message := "Materials successfully stocked." |}.

Definition stock_materials (data : stock_data) : M stock_reply :=
  try_except
    (sql_begin ;; stock_body data)
    (fun e => sql_rollback ;; raise e).

(** ** Order fulfilment *)

(** Step 1 of [create_order_transaction]: the loop that fills
    [material_requirements]. *)
Definition precheck (items_in : list order_line) : M (pydict requirement) :=
  for_fold items_in [] (fun item material_requirements =>
    let product_id := ol_product_id item in
    let quantity := ol_quantity item in
    rows <- query (bom_join product_id (fun pm m i =>
      (pm_material_id pm, pm_used_quantity pm, m_current_stock m, i_item_name i,
       m_unit_measurement m))) ;;
    ret (fold_left (note_requirement quantity) rows material_requirements)).

(** The body of the inner loop of step 3: one ledger entry and one decrement
    for a material of the product of an order line. *)
Definition consume_material (admin_id : option string) (quantity : Z)
    (pm : product_material) : M unit :=
  let material_id := pm_material_id pm in
  let used_qty := pm_used_quantity pm in
  let total_used := used_qty * quantity in
  supplier <- query (material_by_id material_id) ;;
  match supplier with
  | None => raise (ValueError ("No supplier found for material ID " ++ material_id ++ "."))
  | Some m =>
      match truthy_id (m_supplier_id m) with
      | None => raise (ValueError ("No supplier found for material ID " ++ material_id ++ "."))
      | Some supplier_id =>
          stock_transaction_id <- insert_returning_id (fun id => with_stock_transactions (insert
            {| st_id := id; st_stock_type_id := "STT002"; st_supplier_id := supplier_id;
               st_admin_id := admin_id; st_employee_id := None |})) ;;
          execute (with_stock_transaction_items (insert
            {| sti_stock_transaction_id := stock_transaction_id;
               sti_material_id := material_id; sti_quantity := total_used |})) ;;
          execute (with_materials
            (update_where (fun m => String.eqb (m_id m) material_id)
                          (fun m => set_current_stock (m_current_stock m - total_used) m)))
      end
  end.

Definition consume_materials (admin_id : option string) (quantity : Z)
    (rows : list product_material) : M unit :=
  for_each rows (consume_material admin_id quantity).

(** The body of the loop of step 3, over the order lines; the local
    [total_amount] is the accumulator. *)
Definition process_order_item (transaction_id : string) (admin_id : option string)
    (item : order_line) (total_amount : Z) : M Z :=
  let product_id := ol_product_id item in
  let quantity := ol_quantity item in
  unit_price <- query (product_by_id product_id) ;;
  match unit_price with
  | None => raise (ValueError ("Product ID " ++ product_id ++ " not found."))
  | Some p =>
      let unit_price := p_unit_price p in
      let line_total := quantity * unit_price in
      let total_amount := total_amount + line_total in
      rows <- query (bom_of product_id) ;;
      consume_materials admin_id quantity rows ;;
      execute (with_order_items (insert
        {| oi_order_id := transaction_id; oi_product_id := product_id;
           oi_quantity := quantity; oi_unit_price := unit_price |})) ;;
      ret total_amount
  end.

Definition process_order_items (transaction_id : string) (admin_id : option string)
    (items_in : list order_line) (total_amount : Z) : M Z :=
  for_fold items_in total_amount (process_order_item transaction_id admin_id).

(** The body of the [try] block, after [BEGIN]. *)
Definition order_body (data : order_data) (customer_id : string) : M order_reply :=
  let items_in := od_items data in
  material_requirements <- precheck items_in ;;
  let lacking := lacking_materials material_requirements in
  match lacking with
  | _ :: _ => raise (HTTPException 400 (formatted_message lacking))
  | [] =>
      transaction_id <- insert_returning_id (fun id => with_order_transactions (insert
        {| ot_id := id; ot_customer_id := customer_id; ot_status_id := od_status_id data;
           ot_admin_id := od_admin_id data; ot_total_amount := 0 |})) ;;
      total_amount <- process_order_items transaction_id (od_admin_id data) items_in 0 ;;
      execute (with_order_transactions
        (update_where (fun t => String.eqb (ot_id t) transaction_id)
                      (set_total_amount total_amount))) ;;
      con_commit ;;
      ret {| or_transaction_id := transaction_id;
             or_message := "Order successfully placed." |}
  end.

(** Step 0 of [create_order_transaction]: create a new customer if needed. *)
Definition resolve_customer (data : order_data) : M string :=
  match truthy_id (od_customer_id data), od_customer data with
  | Some given, _ => ret given
  | None, Some customer_data =>
      insert_returning_id (fun id => with_customers (insert
        {| c_id := id;
           c_firstname := py_title (py_strip (ci_firstname customer_data));
           c_lastname := py_title (py_strip (ci_lastname customer_data));
           c_contact_number := py_strip (ci_contact_number customer_data);
           c_email := py_strip (ci_email customer_data);
           c_address := py_title (py_strip (ci_address customer_data)) |}))
  | None, None =>
      raise (ValueError "Either customer_id or customer data must be provided.")
  end.

Definition create_order_transaction (data : order_data) : M order_reply :=
  customer_id <- resolve_customer data ;;
  try_except
    (sql_begin ;; order_body data customer_id)
    (fun e => sql_rollback ;; raise e).


(** Identifiers still to be handed out do not occur in the ledger. *)
Definition ids_fresh (d : DB) (n : nat) : Prop :=
  forall k, (n <= k)%nat ->
    ~ In (gen_id k) (map st_id (stock_transactions d)) /\
    ~ In (gen_id k) (map sti_stock_transaction_id (stock_transaction_items d)).

(** The stock type [stock_materials] records: the caller's, or the one whose
    code is ['STT001']. *)
Definition recorded_stock_type (data : stock_data) (d : DB) : option string :=
  match truthy_id (sd_stock_type_id data) with
  | Some given => Some given
  | None => option_map stt_id
              (fetchone (fun t => String.eqb (stt_type_code t) "STT001") (stock_types d))
  end.

(** The header [t] is the one row of [stock_transactions] with identifier
    [tid]. *)
Definition unique_header (d : DB) (tid : string) (t : stock_transaction) : Prop :=
  filter (fun t' => String.eqb (st_id t') tid) (stock_transactions d) = [t].

(** What holds of the connection at every statement of a transaction opened
    on [d0]: nothing is committed, unused identifiers stay unused. *)
Definition txn_state (d0 : DB) (c : Conn) : Prop :=
  in_transaction d0 c /\ ids_fresh d0 (id_counter c).

(** The loop invariant of both ledger writers: the working copy satisfies the
    ledger-counter invariant. *)
Definition ledger_inv (d0 : DB) (c : Conn) : Prop :=
  txn_state d0 c /\ ledger_consistent (view c) /\ ids_fresh (view c) (id_counter c).

(** The same once the header of a receipt has been inserted. *)
Definition receipt_inv (d0 : DB) (tid : string) (t : stock_transaction) (c : Conn) : Prop :=
  ledger_inv d0 c /\ unique_header (view c) tid t /\ is_consumption t = false
  /\ exists k, (k < id_counter c)%nat /\ tid = gen_id k.

(** A quiescent connection whose committed database satisfies the
    invariant. *)
Definition quiescent_consistent (c : Conn) : Prop :=
  active c = None /\ ledger_consistent (committed c) /\ ids_fresh (committed c) (id_counter c).

(** What one pass of the loop of [stock_materials] does to the database. *)
Definition receive_line (stock_transaction_id : string) (d : DB) (item : stock_line) : DB :=
  with_materials
    (update_where (fun m => String.eqb (m_id m) (sl_material_id item))
                  (fun m => set_current_stock (m_current_stock m + sl_quantity item) m))
    (with_stock_transaction_items (insert
       {| sti_stock_transaction_id := stock_transaction_id;
          sti_material_id := sl_material_id item; sti_quantity := sl_quantity item |}) d).

(** The quantity the lines of one receipt carry for a material. *)
Definition received_quantity (material_id : string) (items_in : list stock_line) : Z :=
  zsum (map sl_quantity
            (filter (fun item => String.eqb (sl_material_id item) material_id) items_in)).

(** What one pass of the inner loop of [create_order_transaction] does to
    the database, [id] being the identifier handed out for the header. *)
Definition consume_line (id supplier_id : string) (admin_id : option string)
    (material_id : string) (total_used : Z) (d : DB) : DB :=
  with_materials
    (update_where (fun m => String.eqb (m_id m) material_id)
                  (fun m => set_current_stock (m_current_stock m - total_used) m))
    (with_stock_transaction_items (insert
       {| sti_stock_transaction_id := id; sti_material_id := material_id;
          sti_quantity := total_used |})
       (with_stock_transactions (insert
          {| st_id := id; st_stock_type_id := "STT002"; st_supplier_id := supplier_id;
             st_admin_id := admin_id; st_employee_id := None |}) d)).

(** The row of [order_items] written for an order line whose product is [p]. *)
Definition order_item_of (transaction_id : string) (d : DB) (line : order_line) : order_item :=
  {| oi_order_id := transaction_id; oi_product_id := ol_product_id line;
     oi_quantity := ol_quantity line;
     oi_unit_price := match product_by_id (ol_product_id line) d with
                      | Some p => p_unit_price p
                      | None => 0
                      end |}.

(** ** Customers and suppliers *)

Section Contacts.

(** Python's [str.lower]. *)
Variable py_lower : string -> string.

Definition add_customer (data : customer_input) : M crud_reply :=
  let firstname := py_title (py_strip (ci_firstname data)) in
  let lastname := py_title (py_strip (ci_lastname data)) in
  let email := py_lower (py_strip (ci_email data)) in
  let address := py_strip (ci_address data) in
  let contact_number := py_strip (ci_contact_number data) in
  existing <- query (fun d =>
    fetchone (fun c => String.eqb (c_firstname c) firstname
                       && String.eqb (c_lastname c) lastname
                       && (String.eqb (c_contact_number c) contact_number
                           || String.eqb (c_email c) email))
             (customers d)) ;;
  match existing with
  | Some _ => ret {| success := false; message := "Customer already exists." |}
  | None =>
      insert_returning_id (fun id => with_customers (insert
        {| c_id := id; c_firstname := firstname; c_lastname := lastname;
           c_contact_number := contact_number; c_email := email;
           c_address := address |})) ;;
      ret {| success := true; message := "Customer added successfully." |}
  end.

Definition update_customer (id : string) (data : customer_input) : M unit :=
  let firstname := py_title (py_strip (ci_firstname data)) in
  let lastname := py_title (py_strip (ci_lastname data)) in
  let email := py_lower (py_strip (ci_email data)) in
  let address := py_strip (ci_address data) in
  let contact_number := py_strip (ci_contact_number data) in
  execute (with_customers
    (update_where (fun c => String.eqb (c_id c) id)
       (fun c => {| c_id := c_id c; c_firstname := firstname; c_lastname := lastname;
                    c_contact_number := contact_number; c_email := email;
                    c_address := address |}))).

Definition add_supplier (data : supplier_input) : M crud_reply :=
  let firstname := py_title (py_strip (si_firstname data)) in
  let lastname := py_title (py_strip (si_lastname data)) in
  let contact_name := py_title (py_strip (si_contact_name data)) in
  let contact_number := py_strip (si_contact_number data) in
  let email := py_lower (py_strip (si_email data)) in
  let address := py_strip (si_address data) in
  existing <- query (fun d =>
    fetchone (fun s => String.eqb (s_firstname s) firstname
                       && String.eqb (s_lastname s) lastname
                       && (String.eqb (s_contact_number s) contact_number
                           || String.eqb (s_email s) email))
             (suppliers d)) ;;
  match existing with
  | Some _ => ret {| success := false; message := "Supplier already exists." |}
  | None =>
      insert_returning_id (fun id => with_suppliers (insert
        {| s_id := id; s_firstname := firstname; s_lastname := lastname;
           s_contact_name := contact_name; s_contact_number := contact_number;
           s_email := email; s_address := address |})) ;;
      ret {| success := true; message := "Supplier added successfully." |}
  end.

Definition update_supplier (id : string) (data : supplier_input) : M unit :=
  let firstname := py_title (py_strip (si_firstname data)) in
  let lastname := py_title (py_strip (si_lastname data)) in
  let contact_name := py_title (py_strip (si_contact_name data)) in
  let contact_number := py_strip (si_contact_number data) in
  let email := py_lower (py_strip (si_email data)) in
  let address := py_strip (si_address data) in
  execute (with_suppliers
    (update_where (fun s => String.eqb (s_id s) id)
       (fun s => {| s_id := s_id s; s_firstname := firstname; s_lastname := lastname;
                    s_contact_name := contact_name; s_contact_number := contact_number;
                    s_email := email; s_address := address |}))).

End Contacts.

(** ** Order fulfilment in closed form *)

(** What the pre-check loop of [create_order_transaction] leaves in
    [material_requirements], starting from [acc]. *)
Definition requirements_from (d : DB) (items_in : list order_line)
    (acc : pydict requirement) : pydict requirement :=
  fold_left (fun reqs line =>
    fold_left (note_requirement (ol_quantity line))
      (bom_join (ol_product_id line) (fun pm m i =>
         (pm_material_id pm, pm_used_quantity pm, m_current_stock m, i_item_name i,
          m_unit_measurement m)) d)
      reqs) items_in acc.

(** The supplier the consumption step records for a material, when it finds
    one: [supplier[0]] of [SELECT supplier_id FROM materials WHERE id = ?]. *)
Definition supplier_of (material_id : string) (d : DB) : option string :=
  match material_by_id material_id d with
  | Some m => truthy_id (m_supplier_id m)
  | None => None
  end.

(** The BOM rows an order goes through, line by line. *)
Definition order_rows (d : DB) (items_in : list order_line) : list product_material :=
  flat_map (fun line => bom_of (ol_product_id line) d) items_in.

(** The price of a product, as step 3 reads it. *)
Definition unit_price_of (product_id : string) (d : DB) : Z :=
  match product_by_id product_id d with
  | Some p => p_unit_price p
  | None => 0
  end.

(** The sum of [quantity * unit_price] over the lines. *)
Definition order_total (d : DB) (items_in : list order_line) : Z :=
  zsum (map (fun line => ol_quantity line * unit_price_of (ol_product_id line) d) items_in).

(** The database after the inner loop over the BOM [rows] of one line, the
    identifier counter standing at [k] when the loop starts. *)
Fixpoint consume_rows (admin_id : option string) (quantity : Z)
    (rows : list product_material) (k : nat) (d : DB) : DB :=
  match rows with
  | [] => d
  | pm :: rest =>
      consume_rows admin_id quantity rest (S k)
        (consume_line (gen_id k)
           (match supplier_of (pm_material_id pm) d with Some s => s | None => "" end)
           admin_id (pm_material_id pm) (pm_used_quantity pm * quantity) d)
  end.

(** The database after the loop over the order lines. *)
Fixpoint process_lines (transaction_id : string) (admin_id : option string)
    (items_in : list order_line) (k : nat) (d : DB) : DB :=
  match items_in with
  | [] => d
  | line :: rest =>
      let rows := bom_of (ol_product_id line) d in
      process_lines transaction_id admin_id rest (k + List.length rows)
        (with_order_items (insert (order_item_of transaction_id d line))
           (consume_rows admin_id (ol_quantity line) rows k d))
  end.

(** A connection after statements with the net effect [f] that drew [j]
    identifiers. *)
Definition run_conn (f : DB -> DB) (j : nat) (c : Conn) : Conn :=
  {| committed := committed (apply_stmt f c); active := active (apply_stmt f c);
     id_counter := id_counter c + j |}.

(** The ledger of [d'] is the ledger of [d] followed by one consumption
    header and one item per entry of [demand] (material, quantity), each
    item under its own header. *)
Definition ledger_grown (d d' : DB) (demand : list (string * Z)) : Prop :=
  exists headers entries,
    stock_transactions d' = (stock_transactions d ++ headers)%list
    /\ stock_transaction_items d' = (stock_transaction_items d ++ entries)%list
    /\ map st_id headers = map sti_stock_transaction_id entries
    /\ map (fun it => (sti_material_id it, sti_quantity it)) entries = demand
    /\ Forall (fun h => st_stock_type_id h = "STT002" /\ st_employee_id h = None) headers.

(** The demand of an order, row by row: for each line, each BOM row of its
    product with [used_quantity * quantity]. *)
Definition order_demand (d : DB) (items_in : list order_line) : list (string * Z) :=
  flat_map (fun line =>
    map (fun pm => (pm_material_id pm, pm_used_quantity pm * ol_quantity line))
        (bom_of (ol_product_id line) d)) items_in.

(** The database a fulfilled order commits, for the customer [customer_id]
    and the counter at [n] when the transaction begins. *)
Definition fulfilled (data : order_data) (customer_id : string) (n : nat) (d : DB) : DB :=
  with_order_transactions
    (update_where (fun t => String.eqb (ot_id t) (gen_id n))
                  (set_total_amount (0 + order_total d (od_items data))))
    (process_lines (gen_id n) (od_admin_id data) (od_items data) (S n)
       (with_order_transactions (insert
          {| ot_id := gen_id n; ot_customer_id := customer_id;
             ot_status_id := od_status_id data; ot_admin_id := od_admin_id data;
             ot_total_amount := 0 |}) d)).

(** The conditions under which step 3 goes through: every ordered product
    exists and every material of its BOM has a supplier. *)
Definition order_resolves (d : DB) (items_in : list order_line) : Prop :=
  forall line, In line items_in ->
    product_by_id (ol_product_id line) d <> None
    /\ forall pm, In pm (bom_of (ol_product_id line) d) ->
         supplier_of (pm_material_id pm) d <> None.

(** ** Rules for [triple] *)

Lemma triple_ret {A} (P : Conn -> Prop) (a : A) (Q : A -> Conn -> Prop) E :
  (forall c, P c -> Q a c) -> triple P (ret a) Q E.
Proof. intros H c Hc. simpl. auto. Qed.

Lemma triple_raise {A} (P : Conn -> Prop) e (Q : A -> Conn -> Prop) (E : Conn -> Prop) :
  (forall c, P c -> E c) -> triple P (raise e) Q E.
Proof. intros H c Hc. simpl. auto. Qed.

Lemma triple_bind {A B} P (m : M A) (k : A -> M B) Q R E :
  triple P m Q E -> (forall a, triple (Q a) (k a) R E) -> triple P (bind m k) R E.
Proof.
  intros Hm Hk c Hc. unfold bind. specialize (Hm c Hc).
  destruct (m c) as [[a|e] c']; [apply (Hk a c' Hm) | exact Hm].
Qed.

Lemma triple_query {A} P (q : DB -> A) (Q : A -> Conn -> Prop) E :
  (forall c, P c -> Q (q (view c)) c) -> triple P (query q) Q E.
Proof. intros H c Hc. simpl. auto. Qed.

Lemma triple_execute P f (Q : unit -> Conn -> Prop) E :
  (forall c, P c -> Q tt (apply_stmt f c)) -> triple P (execute f) Q E.
Proof. intros H c Hc. simpl. auto. Qed.

Lemma triple_weaken {A} (P P' : Conn -> Prop) (m : M A) (Q Q' : A -> Conn -> Prop) (E E' : Conn -> Prop) :
  triple P' m Q' E' ->
  (forall c, P c -> P' c) -> (forall a c, Q' a c -> Q a c) -> (forall c, E' c -> E c) ->
  triple P m Q E.
Proof.
  intros H HP HQ HE c Hc. specialize (H c (HP c Hc)).
  destruct (m c) as [[a|e] c']; auto.
Qed.

Lemma triple_for_each {X} (I : Conn -> Prop) E (xs : list X) (body : X -> M unit) :
  (forall x, In x xs -> triple I (body x) (fun _ => I) E) ->
  triple I (for_each xs body) (fun _ => I) E.
Proof.
  induction xs as [|x rest IH]; intros Hb.
  - apply triple_ret. auto.
  - simpl. eapply triple_bind.
    + apply Hb. now left.
    + intros u. apply IH. intros y Hy. apply Hb. now right.
Qed.

Lemma triple_for_fold {X S} (I : Conn -> Prop) E (xs : list X) (body : X -> S -> M S) :
  (forall x s, In x xs -> triple I (body x s) (fun _ => I) E) ->
  forall acc, triple I (for_fold xs acc body) (fun _ => I) E.
Proof.
  induction xs as [|x rest IH]; intros Hb acc.
  - apply triple_ret. auto.
  - simpl. eapply triple_bind.
    + apply Hb. now left.
    + intros acc'. apply IH. intros y s Hy. apply Hb. now right.
Qed.


(** ** The connection under a statement *)

Lemma view_apply_stmt f c : view (apply_stmt f c) = f (view c).
Proof. unfold view, apply_stmt. destruct (active c); reflexivity. Qed.

Lemma view_advance c : view (advance c) = view c.
Proof. reflexivity. Qed.

Lemma in_transaction_apply_stmt d0 f c :
  in_transaction d0 c -> in_transaction d0 (apply_stmt f c).
Proof.
  unfold in_transaction, apply_stmt. intros [Hc Ha].
  destruct (active c); simpl; [split; [assumption | discriminate] | contradiction].
Qed.

Lemma in_transaction_advance d0 c :
  in_transaction d0 c -> in_transaction d0 (advance c).
Proof. unfold in_transaction. simpl. auto. Qed.

Lemma sql_begin_idle d n :
  sql_begin (Idle d n) = (Ok tt, {| committed := d; active := Some d; id_counter := n |}).
Proof. reflexivity. Qed.

Lemma sql_rollback_in_transaction d0 c :
  in_transaction d0 c -> sql_rollback c = (Ok tt, Idle d0 (id_counter c)).
Proof.
  unfold in_transaction, sql_rollback, Idle. intros [Hc Ha].
  destruct (active c); [now rewrite Hc | contradiction].
Qed.

(** ** The ledger under one statement *)

Lemma zsum_app l1 l2 : zsum (l1 ++ l2) = zsum l1 + zsum l2.
Proof. unfold zsum. induction l1 as [|x l1 IH]; simpl; [reflexivity | rewrite IH; lia]. Qed.

Lemma ledger_balance_ext d d' material_id :
  stock_transactions d' = stock_transactions d ->
  stock_transaction_items d' = stock_transaction_items d ->
  ledger_balance d' material_id = ledger_balance d material_id.
Proof.
  intros H1 H2. unfold ledger_balance, item_effect. rewrite H1, H2. reflexivity.
Qed.

Lemma ledger_consistent_ext d d' :
  materials d' = materials d ->
  stock_transactions d' = stock_transactions d ->
  stock_transaction_items d' = stock_transaction_items d ->
  ledger_consistent d -> ledger_consistent d'.
Proof.
  intros Hm Ht Hi H m Hin. rewrite Hm in Hin.
  rewrite (ledger_balance_ext d d' _ Ht Hi). auto.
Qed.

Lemma ids_fresh_ext d d' n :
  stock_transactions d' = stock_transactions d ->
  stock_transaction_items d' = stock_transaction_items d ->
  ids_fresh d n -> ids_fresh d' n.
Proof. unfold ids_fresh. intros -> ->. auto. Qed.

Lemma ids_fresh_mono d n n' : (n <= n')%nat -> ids_fresh d n -> ids_fresh d n'.
Proof. unfold ids_fresh. intros Hle H k Hk. apply H. lia. Qed.

Lemma item_effect_new_header d t it :
  String.eqb (st_id t) (sti_stock_transaction_id it) = false ->
  item_effect (with_stock_transactions (insert t) d) it = item_effect d it.
Proof.
  intros Hne. unfold item_effect, insert. simpl.
  rewrite filter_app. simpl. rewrite Hne, app_nil_r. reflexivity.
Qed.

Lemma ledger_balance_new_header d t material_id :
  ~ In (st_id t) (map sti_stock_transaction_id (stock_transaction_items d)) ->
  ledger_balance (with_stock_transactions (insert t) d) material_id
  = ledger_balance d material_id.
Proof.
  intros Hfresh. unfold ledger_balance. simpl. f_equal.
  apply map_ext_in. intros it Hin. apply item_effect_new_header.
  apply filter_In in Hin. destruct Hin as [Hin _].
  destruct (String.eqb_spec (st_id t) (sti_stock_transaction_id it)) as [Heq|]; [|reflexivity].
  exfalso. apply Hfresh. rewrite Heq. now apply in_map.
Qed.

Lemma ledger_balance_new_item d it material_id :
  ledger_balance (with_stock_transaction_items (insert it) d) material_id
  = ledger_balance d material_id
    + (if String.eqb (sti_material_id it) material_id then item_effect d it else 0).
Proof.
  assert (E : forall x, item_effect (with_stock_transaction_items (insert it) d) x
                        = item_effect d x) by reflexivity.
  unfold ledger_balance. rewrite (map_ext _ _ E).
  unfold insert. simpl. rewrite filter_app, map_app, zsum_app. simpl.
  destruct (String.eqb (sti_material_id it) material_id); simpl; lia.
Qed.

Lemma ledger_balance_with_materials f d material_id :
  ledger_balance (with_materials f d) material_id = ledger_balance d material_id.
Proof. reflexivity. Qed.

Lemma item_effect_unique d it t :
  unique_header d (sti_stock_transaction_id it) t ->
  item_effect d it = signed t (sti_quantity it).
Proof.
  unfold unique_header, item_effect. intros ->. simpl. lia.
Qed.

(** One ledger entry under the header [t] together with the matching
    adjustment of the counter keeps the invariant. *)
Lemma ledger_step d tid t material_id quantity (adj : material -> Z) :
  unique_header d tid t ->
  (forall m, adj m = m_current_stock m + signed t quantity) ->
  ledger_consistent d ->
  ledger_consistent
    (with_materials
       (update_where (fun m => String.eqb (m_id m) material_id)
                     (fun m => set_current_stock (adj m) m))
       (with_stock_transaction_items
          (insert {| sti_stock_transaction_id := tid; sti_material_id := material_id;
                     sti_quantity := quantity |}) d)).
Proof.
  intros Hu Hadj Hc m' Hin. simpl in Hin. unfold update_where in Hin.
  apply in_map_iff in Hin. destruct Hin as [m [Hm' Hin]].
  rewrite ledger_balance_with_materials.
  rewrite ledger_balance_new_item.
  rewrite (item_effect_unique d
             {| sti_stock_transaction_id := tid; sti_material_id := material_id;
                sti_quantity := quantity |} t Hu). simpl.
  specialize (Hc m Hin).
  destruct (String.eqb_spec (m_id m) material_id) as [Heq|Hne]; subst m'; simpl.
  - rewrite Heq, String.eqb_refl, Hadj, Hc, Heq. reflexivity.
  - destruct (String.eqb_spec material_id (m_id m)) as [Heq|_]; [now symmetry in Heq|].
    rewrite Hc. lia.
Qed.

Section Ledger.

(** Generated identifiers are pairwise distinct. *)
Hypothesis gen_id_injective : forall i j, gen_id i = gen_id j -> i = j.

Lemma ids_fresh_new_header d n t :
  st_id t = gen_id n -> ids_fresh d n ->
  ids_fresh (with_stock_transactions (insert t) d) (S n).
Proof.
  intros Hid H k Hk. destruct (H k ltac:(lia)) as [H1 H2]. split; [|exact H2].
  simpl. unfold insert. rewrite map_app, in_app_iff. simpl. rewrite Hid.
  intros [Hin | [Heq | []]]; [auto|]. apply gen_id_injective in Heq. lia.
Qed.

Lemma ids_fresh_new_item d n it k0 :
  (k0 < n)%nat -> sti_stock_transaction_id it = gen_id k0 -> ids_fresh d n ->
  ids_fresh (with_stock_transaction_items (insert it) d) n.
Proof.
  intros Hk0 Hid H k Hk. destruct (H k Hk) as [H1 H2]. split; [exact H1|].
  simpl. unfold insert. rewrite map_app, in_app_iff. simpl. rewrite Hid.
  intros [Hin | [Heq | []]]; [auto|]. apply gen_id_injective in Heq. lia.
Qed.

Lemma unique_header_new d n t :
  st_id t = gen_id n -> ids_fresh d n ->
  unique_header (with_stock_transactions (insert t) d) (gen_id n) t.
Proof.
  intros Hid H. unfold unique_header, insert. simpl.
  rewrite filter_app. simpl. rewrite Hid, String.eqb_refl.
  destruct (H n (Nat.le_refl n)) as [H1 _].
  replace (filter _ (stock_transactions d)) with (@nil stock_transaction); [reflexivity|].
  symmetry. induction (stock_transactions d) as [|x l IH]; [reflexivity|].
  simpl in *. destruct (String.eqb_spec (st_id x) (gen_id n)) as [Heq|Hne].
  - exfalso. apply H1. now left.
  - apply IH. intros Hin. apply H1. now right.
Qed.

Lemma ledger_consistent_new_header d n t :
  st_id t = gen_id n -> ids_fresh d n -> ledger_consistent d ->
  ledger_consistent (with_stock_transactions (insert t) d).
Proof.
  intros Hid Hf Hc m Hin. rewrite ledger_balance_new_header; [now apply Hc|].
  rewrite Hid. apply (Hf n (Nat.le_refl n)).
Qed.

(** A consumption: header under ['STT002'], item, decrement. *)
Lemma consume_step d n t material_id quantity :
  st_id t = gen_id n -> is_consumption t = true ->
  ledger_consistent d -> ids_fresh d n ->
  let d' :=
    with_materials
      (update_where (fun m => String.eqb (m_id m) material_id)
                    (fun m => set_current_stock (m_current_stock m - quantity) m))
      (with_stock_transaction_items
         (insert {| sti_stock_transaction_id := gen_id n; sti_material_id := material_id;
                    sti_quantity := quantity |})
         (with_stock_transactions (insert t) d)) in
  ledger_consistent d' /\ ids_fresh d' (S n).
Proof.
  intros Hid Hcons Hc Hf. split.
  - apply (ledger_step _ (gen_id n) t).
    + now apply unique_header_new.
    + intros m. unfold signed. rewrite Hcons. lia.
    + now apply (ledger_consistent_new_header d n).
  - apply (ids_fresh_ext
             (with_stock_transaction_items
                (insert {| sti_stock_transaction_id := gen_id n;
                           sti_material_id := material_id; sti_quantity := quantity |})
                (with_stock_transactions (insert t) d))); [reflexivity | reflexivity |].
    apply (ids_fresh_new_item _ _ _ n); [lia | reflexivity |].
    now apply ids_fresh_new_header.
Qed.

(** A receipt line under the header [t]: item, increment. *)
Lemma receipt_step d n tid t k0 material_id quantity :
  unique_header d tid t -> is_consumption t = false ->
  (k0 < n)%nat -> tid = gen_id k0 ->
  ledger_consistent d -> ids_fresh d n ->
  let d' :=
    with_materials
      (update_where (fun m => String.eqb (m_id m) material_id)
                    (fun m => set_current_stock (m_current_stock m + quantity) m))
      (with_stock_transaction_items
         (insert {| sti_stock_transaction_id := tid; sti_material_id := material_id;
                    sti_quantity := quantity |}) d) in
  ledger_consistent d' /\ ids_fresh d' n /\ unique_header d' tid t.
Proof.
  intros Hu Hrec Hk0 Htid Hc Hf. split; [|split].
  - apply (ledger_step _ tid t); auto.
    intros m. unfold signed. rewrite Hrec. reflexivity.
  - apply (ids_fresh_ext
             (with_stock_transaction_items
                (insert {| sti_stock_transaction_id := tid;
                           sti_material_id := material_id; sti_quantity := quantity |}) d));
      [reflexivity | reflexivity |].
    now apply (ids_fresh_new_item _ _ _ k0).
  - exact Hu.
Qed.

(** ** The invariant along the statements of a transaction *)

Lemma id_counter_apply_stmt f c : id_counter (apply_stmt f c) = id_counter c.
Proof. unfold apply_stmt. destruct (active c); reflexivity. Qed.

Lemma txn_state_apply_stmt d0 f c : txn_state d0 c -> txn_state d0 (apply_stmt f c).
Proof.
  intros [Ht Hf]. split; [now apply in_transaction_apply_stmt|].
  now rewrite id_counter_apply_stmt.
Qed.

Lemma txn_state_advance d0 c : txn_state d0 c -> txn_state d0 (advance c).
Proof.
  intros [Ht Hf]. split; [now apply in_transaction_advance|].
  simpl. apply (ids_fresh_mono d0 (id_counter c)); [lia | exact Hf].
Qed.

Lemma ledger_inv_frame d0 f c :
  (forall d, materials (f d) = materials d) ->
  (forall d, stock_transactions (f d) = stock_transactions d) ->
  (forall d, stock_transaction_items (f d) = stock_transaction_items d) ->
  ledger_inv d0 c -> ledger_inv d0 (apply_stmt f c).
Proof.
  intros Hm Ht Hi [Hs [Hc Hf]]. split; [now apply txn_state_apply_stmt|].
  rewrite view_apply_stmt, id_counter_apply_stmt. split.
  - apply (ledger_consistent_ext (view c)); auto.
  - apply (ids_fresh_ext (view c)); auto.
Qed.

Lemma ledger_inv_advance d0 c : ledger_inv d0 c -> ledger_inv d0 (advance c).
Proof.
  intros [Hs [Hc Hf]]. split; [now apply txn_state_advance|].
  rewrite view_advance. split; [exact Hc|].
  simpl. apply (ids_fresh_mono (view c) (id_counter c)); [lia | exact Hf].
Qed.

Lemma triple_frame_execute d0 f :
  (forall d, materials (f d) = materials d) ->
  (forall d, stock_transactions (f d) = stock_transactions d) ->
  (forall d, stock_transaction_items (f d) = stock_transaction_items d) ->
  triple (ledger_inv d0) (execute f) (fun _ => ledger_inv d0) (txn_state d0).
Proof. intros Hm Ht Hi. apply triple_execute. intros c. now apply ledger_inv_frame. Qed.

Lemma triple_frame_insert_returning_id d0 mk :
  (forall id d, materials (mk id d) = materials d) ->
  (forall id d, stock_transactions (mk id d) = stock_transactions d) ->
  (forall id d, stock_transaction_items (mk id d) = stock_transaction_items d) ->
  triple (ledger_inv d0) (insert_returning_id mk) (fun _ => ledger_inv d0) (txn_state d0).
Proof.
  intros Hm Ht Hi c Hc. unfold insert_returning_id.
  apply ledger_inv_advance. apply ledger_inv_frame; auto.
Qed.

Lemma triple_precheck (I E : Conn -> Prop) items_in :
  triple I (precheck items_in) (fun _ => I) E.
Proof.
  unfold precheck. apply triple_for_fold. intros item reqs _.
  apply triple_bind with (Q := fun _ => I).
  - apply triple_query. intros c Hc. exact Hc.
  - intros rows. apply triple_ret. auto.
Qed.

Lemma triple_consume_materials d0 admin_id quantity rows :
  triple (ledger_inv d0) (consume_materials admin_id quantity rows)
         (fun _ => ledger_inv d0) (txn_state d0).
Proof.
  unfold consume_materials. apply triple_for_each. intros pm _ c Hc.
  unfold consume_material, bind, query.
  destruct (material_by_id (pm_material_id pm) (view c)) as [m|]; [|apply Hc].
  destruct (truthy_id (m_supplier_id m)) as [supplier_id|]; [|apply Hc].
  unfold insert_returning_id, execute.
  destruct Hc as [Hs [Hc Hf]].
  split.
  - repeat first [apply txn_state_apply_stmt | apply txn_state_advance]. exact Hs.
  - rewrite !view_apply_stmt, view_advance, view_apply_stmt.
    rewrite !id_counter_apply_stmt. simpl id_counter. rewrite id_counter_apply_stmt.
    apply consume_step; auto.
Qed.

Lemma triple_process_order_items d0 transaction_id admin_id items_in total :
  triple (ledger_inv d0) (process_order_items transaction_id admin_id items_in total)
         (fun _ => ledger_inv d0) (txn_state d0).
Proof.
  unfold process_order_items. apply triple_for_fold. intros item acc _.
  unfold process_order_item.
  apply triple_bind with (Q := fun _ => ledger_inv d0).
  { apply triple_query. auto. }
  intros [p|]; [|apply triple_raise; now intros c [Hs _]].
  apply triple_bind with (Q := fun _ => ledger_inv d0).
  { apply triple_query. auto. }
  intros rows.
  apply triple_bind with (Q := fun _ => ledger_inv d0).
  { now apply triple_consume_materials. }
  intros _.
  apply triple_bind with (Q := fun _ => ledger_inv d0).
  { apply triple_frame_execute; reflexivity. }
  intros _. apply triple_ret. auto.
Qed.

Lemma con_commit_ledger_inv d0 c :
  ledger_inv d0 c -> quiescent_consistent (snd (con_commit c)) /\ fst (con_commit c) = Ok tt.
Proof.
  intros [[[_ Ha] _] [Hc Hf]]. unfold con_commit, view in *.
  destruct (active c) as [w|]; [|contradiction]. simpl in *.
  split; [split; [reflexivity | split; assumption] | reflexivity].
Qed.

Lemma triple_order_body d0 data customer_id :
  triple (ledger_inv d0) (order_body data customer_id)
         (fun _ => quiescent_consistent) (txn_state d0).
Proof.
  unfold order_body.
  apply triple_bind with (Q := fun _ => ledger_inv d0).
  { apply triple_precheck. }
  intros reqs. destruct (lacking_materials reqs) as [|l ls].
  2:{ apply triple_raise. now intros c [Hs _]. }
  apply triple_bind with (Q := fun _ => ledger_inv d0).
  { apply triple_frame_insert_returning_id; reflexivity. }
  intros transaction_id.
  apply triple_bind with (Q := fun _ => ledger_inv d0).
  { apply triple_process_order_items. }
  intros total_amount.
  apply triple_bind with (Q := fun _ => ledger_inv d0).
  { apply triple_frame_execute; reflexivity. }
  intros _.
  apply triple_bind with (Q := fun _ => quiescent_consistent).
  { intros c Hc. destruct (con_commit_ledger_inv d0 c Hc) as [Hq Hr].
    destruct (con_commit c) as [[[]|e] c']; simpl in *; [exact Hq | discriminate]. }
  intros _. apply triple_ret. auto.
Qed.

(** A [try] block that opens a transaction and whose handler rolls back and
    raises again, run on a quiescent connection. *)
Lemma try_rollback_idle {A} (body : M A) d n (Q : A -> Conn -> Prop) :
  triple (ledger_inv d) body Q (txn_state d) ->
  ledger_consistent d -> ids_fresh d n ->
  match try_except (sql_begin ;; body) (fun e => sql_rollback ;; raise e) (Idle d n) with
  | (Ok a, c') => Q a c'
  | (Raise _, c') => exists n', c' = Idle d n' /\ ids_fresh d n'
  end.
Proof.
  intros Hb Hc Hf. unfold try_except, bind. rewrite sql_begin_idle.
  assert (Hinv : ledger_inv d {| committed := d; active := Some d; id_counter := n |}).
  { unfold ledger_inv, txn_state, in_transaction. simpl.
    split; [split; [split; [reflexivity | discriminate] | exact Hf] | split; assumption]. }
  specialize (Hb _ Hinv).
  destruct (body _) as [[a|e] c']; [exact Hb|].
  destruct Hb as [Ht Hf'].
  rewrite (sql_rollback_in_transaction d c' Ht). simpl. eauto.
Qed.

Lemma triple_receive_lines d0 tid t items_in :
  triple (receipt_inv d0 tid t) (receive_lines tid items_in)
         (fun _ => receipt_inv d0 tid t) (txn_state d0).
Proof.
  unfold receive_lines. apply triple_for_each. intros item _ c Hc.
  unfold bind, execute.
  destruct Hc as [[Hs [Hc Hf]] [Hu [Hrec [k0 [Hk0 Htid]]]]].
  assert (Hstep := receipt_step (view c) (id_counter c) tid t k0
                     (sl_material_id item) (sl_quantity item) Hu Hrec Hk0 Htid Hc Hf).
  destruct Hstep as [Hc' [Hf' Hu']].
  unfold receipt_inv, ledger_inv.
  rewrite !view_apply_stmt, !id_counter_apply_stmt.
  split; [split; [now repeat apply txn_state_apply_stmt | split; assumption]
        | split; [assumption | split; [assumption | exists k0; auto]]].
Qed.

Lemma receipt_inv_header d0 c t :
  st_id t = gen_id (id_counter c) -> is_consumption t = false ->
  ledger_inv d0 c ->
  receipt_inv d0 (gen_id (id_counter c)) t
    (advance (apply_stmt (with_stock_transactions (insert t)) c)).
Proof.
  intros Hid Hrec [Hs [Hc Hf]]. unfold receipt_inv, ledger_inv.
  rewrite view_advance, view_apply_stmt. simpl id_counter.
  rewrite id_counter_apply_stmt.
  split; [split; [|split]|split; [|split]].
  - apply txn_state_advance. now apply txn_state_apply_stmt.
  - now apply (ledger_consistent_new_header (view c) (id_counter c)).
  - now apply ids_fresh_new_header.
  - now apply unique_header_new.
  - exact Hrec.
  - exists (id_counter c). split; [lia | reflexivity].
Qed.

Lemma triple_resolve_supplier data (P E : Conn -> Prop) :
  (forall c f, P c -> P (advance (apply_stmt (with_suppliers f) c))) ->
  (forall c, P c -> E c) ->
  triple P (resolve_supplier data) (fun _ => P) E.
Proof.
  intros Hins Hst. unfold resolve_supplier.
  destruct (truthy_id (sd_supplier_id data)) as [given|].
  { apply triple_ret. auto. }
  destruct (sd_supplier data) as [supplier|]; [|apply triple_raise; auto].
  apply triple_bind with (Q := fun _ => P).
  { apply triple_query. auto. }
  intros [existing|]; [apply triple_raise; auto|].
  intros c Hc. unfold insert_returning_id. apply Hins. exact Hc.
Qed.

Lemma triple_resolve_stock_type_any data (P E : Conn -> Prop) :
  (forall c, P c -> E c) ->
  triple P (resolve_stock_type data) (fun _ => P) E.
Proof.
  intros HE. unfold resolve_stock_type.
  destruct (truthy_id (sd_stock_type_id data)) as [given|].
  { apply triple_ret. auto. }
  apply triple_bind with (Q := fun _ => P).
  { apply triple_query. auto. }
  intros [t|]; [apply triple_ret | apply triple_raise]; auto.
Qed.

Lemma triple_resolve_stock_type d0 data :
  (forall ty, recorded_stock_type data d0 = Some ty -> ty <> "STT002") ->
  triple (fun c => ledger_inv d0 c /\ stock_types (view c) = stock_types d0)
         (resolve_stock_type data)
         (fun ty c => ledger_inv d0 c /\ ty <> "STT002") (txn_state d0).
Proof.
  intros Hty. unfold resolve_stock_type, recorded_stock_type in *.
  destruct (truthy_id (sd_stock_type_id data)) as [given|].
  { apply triple_ret. intros c [Hc _]. split; [exact Hc | now apply Hty]. }
  intros c [Hc Hst]. unfold bind, query. rewrite Hst.
  destruct (fetchone _ (stock_types d0)) as [t|]; simpl.
  - split; [exact Hc | now apply Hty].
  - apply Hc.
Qed.

Lemma triple_stock_body d0 data :
  (forall ty, recorded_stock_type data d0 = Some ty -> ty <> "STT002") ->
  triple (fun c => ledger_inv d0 c /\ stock_types (view c) = stock_types d0)
         (stock_body data) (fun _ => quiescent_consistent) (txn_state d0).
Proof.
  intros Hty. unfold stock_body.
  apply triple_bind
    with (Q := fun _ c => ledger_inv d0 c /\ stock_types (view c) = stock_types d0).
  { apply triple_resolve_supplier.
    - intros c f [Hc Hst]. split.
      + apply ledger_inv_advance. now apply ledger_inv_frame.
      + rewrite view_advance, view_apply_stmt. exact Hst.
    - now intros c [[Hs _] _]. }
  intros supplier_id.
  apply triple_bind with (Q := fun ty c => ledger_inv d0 c /\ ty <> "STT002").
  { now apply triple_resolve_stock_type. }
  intros ty.
  apply triple_bind with (Q := fun _ c => ledger_inv d0 c /\ ty <> "STT002").
  { destruct (negb _ && negb _).
    - apply triple_raise. now intros c [[Hs _] _].
    - apply triple_ret. auto. }
  intros _.
  apply triple_bind
    with (Q := fun tid c => exists t, receipt_inv d0 tid t c).
  { intros c [Hc Hne]. unfold insert_returning_id. eexists.
    apply receipt_inv_header; [reflexivity | | exact Hc].
    unfold is_consumption. simpl. now apply String.eqb_neq. }
  intros tid.
  apply triple_bind with (Q := fun _ c => exists t, receipt_inv d0 tid t c).
  { intros c [t Hc]. assert (H := triple_receive_lines d0 tid t (sd_items data) c Hc).
    destruct (receive_lines tid (sd_items data) c) as [[u|e] c']; [now exists t | exact H]. }
  intros _.
  apply triple_bind with (Q := fun _ => quiescent_consistent).
  { intros c [t [Hc _]]. destruct (con_commit_ledger_inv d0 c Hc) as [Hq Hr].
    destruct (con_commit c) as [[[]|e] c']; simpl in *; [exact Hq | discriminate]. }
  intros _. apply triple_ret. auto.
Qed.

(** [stock_materials] on a quiescent, consistent connection leaves a
    quiescent, consistent connection, whether it returns or raises. *)
Lemma stock_materials_consistent data d n :
  (forall ty, recorded_stock_type data d = Some ty -> ty <> "STT002") ->
  ledger_consistent d -> ids_fresh d n ->
  quiescent_consistent (snd (stock_materials data (Idle d n))).
Proof.
  intros Hty Hc Hf. unfold stock_materials, try_except, bind.
  rewrite sql_begin_idle.
  assert (Hinv : ledger_inv d {| committed := d; active := Some d; id_counter := n |}
                 /\ stock_types (view {| committed := d; active := Some d; id_counter := n |})
                    = stock_types d).
  { unfold ledger_inv, txn_state, in_transaction. simpl.
    split; [split; [split; [split; [reflexivity | discriminate] | exact Hf] | split; assumption]
           | reflexivity]. }
  assert (Hb := triple_stock_body d data Hty _ Hinv).
  destruct (stock_body data _) as [[a|e] c']; [exact Hb|].
  destruct Hb as [Ht Hf'].
  rewrite (sql_rollback_in_transaction d c' Ht). simpl.
  split; [reflexivity | split; assumption].
Qed.

(** The same for [create_order_transaction]. *)
Lemma create_order_transaction_consistent data d n :
  ledger_consistent d -> ids_fresh d n ->
  quiescent_consistent (snd (create_order_transaction data (Idle d n))).
Proof.
  intros Hc Hf. unfold create_order_transaction.
  assert (Hrun : forall customer_id d' n',
            ledger_consistent d' -> ids_fresh d' n' ->
            quiescent_consistent
              (snd (try_except (sql_begin ;; order_body data customer_id)
                               (fun e => sql_rollback ;; raise e) (Idle d' n')))).
  { intros customer_id d' n' Hc' Hf'.
    assert (H := try_rollback_idle (order_body data customer_id) d' n'
                   (fun _ => quiescent_consistent)
                   (triple_order_body d' data customer_id) Hc' Hf').
    destruct (try_except _ _ _) as [[a|e] c']; [exact H|].
    destruct H as [n'' [-> Hf'']]. split; [reflexivity | split; assumption]. }
  unfold bind at 1. unfold resolve_customer.
  destruct (truthy_id (od_customer_id data)) as [given|].
  { simpl. now apply Hrun. }
  destruct (od_customer data) as [customer_data|].
  - unfold insert_returning_id.
    match goal with
    | |- context [advance (apply_stmt ?f (Idle d n))] =>
        change (advance (apply_stmt f (Idle d n))) with (Idle (f d) (S n))
    end.
    apply Hrun.
    + now apply (ledger_consistent_ext d).
    + apply (ids_fresh_ext d); [reflexivity | reflexivity |].
      apply (ids_fresh_mono d n); [lia | exact Hf].
  - simpl. split; [reflexivity | split; assumption].
Qed.

End Ledger.

(** ** Bill of materials: inserting lines *)

Lemma for_each_app {X} (xs ys : list X) (body : X -> M unit) c :
  for_each (xs ++ ys) body c
  = match for_each xs body c with
    | (Ok _, c') => for_each ys body c'
    | (Raise e, c') => (Raise e, c')
    end.
Proof.
  revert c. induction xs as [|x xs IH]; intros c; simpl; [reflexivity|].
  unfold bind. destruct (body x c) as [[u|e] c1]; [apply IH | reflexivity].
Qed.

Lemma add_product_material_existing product_id material c :
  bom_line_exists product_id (bi_material_id material) (view c) = true ->
  add_product_material product_id material c = (Ok tt, c).
Proof. intros H. unfold add_product_material, bind, query. now rewrite H. Qed.

Lemma add_product_material_given_cost product_id material cost c :
  bom_line_exists product_id (bi_material_id material) (view c) = false ->
  bi_unit_cost material = Some cost ->
  add_product_material product_id material c
  = (Ok tt, apply_stmt (with_product_materials (insert
       {| pm_product_id := product_id; pm_material_id := bi_material_id material;
          pm_used_quantity := bi_used_quantity material; pm_unit_cost := cost |})) c).
Proof.
  intros H Hcost. unfold add_product_material, bind, query. now rewrite H, Hcost.
Qed.

Lemma add_product_material_default_cost product_id material m c :
  bom_line_exists product_id (bi_material_id material) (view c) = false ->
  bi_unit_cost material = None ->
  material_by_id (bi_material_id material) (view c) = Some m ->
  add_product_material product_id material c
  = (Ok tt, apply_stmt (with_product_materials (insert
       {| pm_product_id := product_id; pm_material_id := bi_material_id material;
          pm_used_quantity := bi_used_quantity material;
          pm_unit_cost := m_material_cost m |})) c).
Proof.
  intros H Hcost Hm. unfold add_product_material, bind, query. now rewrite H, Hcost, Hm.
Qed.

Lemma add_product_material_unresolved product_id material c :
  bom_line_exists product_id (bi_material_id material) (view c) = false ->
  bi_unit_cost material = None ->
  material_by_id (bi_material_id material) (view c) = None ->
  add_product_material product_id material c
  = (Raise (ValueError ("Material with ID '" ++ bi_material_id material ++ "' not found.")), c).
Proof.
  intros H Hcost Hm. unfold add_product_material, bind, query. now rewrite H, Hcost, Hm.
Qed.

Lemma find_none_filter {R} (f : R -> bool) l : find f l = None -> filter f l = [].
Proof.
  induction l as [|x l IH]; simpl; [reflexivity|].
  destruct (f x); [discriminate | exact IH].
Qed.

Lemma find_app_some {R} (f : R -> bool) l1 l2 :
  is_some (find f l1) = true -> is_some (find f (l1 ++ l2)) = true.
Proof.
  induction l1 as [|x l IH]; simpl; [discriminate|].
  destruct (f x); [reflexivity | exact IH].
Qed.

Lemma bom_line_exists_insert product_id material_id row d :
  bom_line_exists product_id material_id d = true ->
  bom_line_exists product_id material_id (with_product_materials (insert row) d) = true.
Proof. unfold bom_line_exists, fetchone, insert. simpl. apply find_app_some. Qed.

Lemma bom_line_exists_inserted product_id material_id used cost d :
  bom_line_exists product_id material_id
    (with_product_materials (insert
       {| pm_product_id := product_id; pm_material_id := material_id;
          pm_used_quantity := used; pm_unit_cost := cost |}) d) = true.
Proof.
  unfold bom_line_exists, fetchone, insert. simpl.
  induction (product_materials d) as [|x l IH]; simpl.
  - now rewrite !String.eqb_refl.
  - destruct (_ && _); [reflexivity | exact IH].
Qed.

(** One pass of the loop body: the connection stays quiescent, lines that
    exist keep existing, and on success the line of the material exists. *)
Lemma add_product_material_idle product_id material d n :
  exists r d', add_product_material product_id material (Idle d n) = (r, Idle d' n)
    /\ (forall x, bom_line_exists product_id x d = true -> bom_line_exists product_id x d' = true)
    /\ (r = Ok tt -> bom_line_exists product_id (bi_material_id material) d' = true).
Proof.
  destruct (bom_line_exists product_id (bi_material_id material) d) eqn:Hex.
  { exists (Ok tt), d. rewrite add_product_material_existing by exact Hex. auto. }
  destruct (bi_unit_cost material) as [cost|] eqn:Hcost.
  { rewrite (add_product_material_given_cost _ _ cost) by assumption.
    eexists (Ok tt), _. split; [reflexivity|]. split.
    - intros x. apply bom_line_exists_insert.
    - intros _. apply bom_line_exists_inserted. }
  destruct (material_by_id (bi_material_id material) d) as [m|] eqn:Hm.
  - rewrite (add_product_material_default_cost _ _ m) by assumption.
    eexists (Ok tt), _. split; [reflexivity|]. split.
    + intros x. apply bom_line_exists_insert.
    + intros _. apply bom_line_exists_inserted.
  - rewrite add_product_material_unresolved by assumption.
    eexists _, d. split; [reflexivity|]. split; [auto | discriminate].
Qed.

Lemma add_loop_idle product_id materials_in : forall d n,
  exists r d', for_each materials_in (add_product_material product_id) (Idle d n) = (r, Idle d' n)
    /\ (forall x, bom_line_exists product_id x d = true -> bom_line_exists product_id x d' = true)
    /\ (r = Ok tt -> forall m, In m materials_in ->
          bom_line_exists product_id (bi_material_id m) d' = true).
Proof.
  induction materials_in as [|m ms IH]; intros d n.
  - exists (Ok tt), d. simpl. split; [reflexivity|]. split; [auto | intros _ m []].
  - simpl. unfold bind.
    destruct (add_product_material_idle product_id m d n) as [r [d1 [Hrun [Hmono Hline]]]].
    rewrite Hrun. destruct r as [[]|e].
    + destruct (IH d1 n) as [r2 [d2 [Hrun2 [Hmono2 Hlines2]]]].
      exists r2, d2. split; [exact Hrun2|]. split; [auto|].
      intros Hr m' [<-|Hin]; [apply Hmono2, Hline; reflexivity | now apply Hlines2].
    + exists (Raise e), d1. split; [reflexivity|]. split; [auto | discriminate].
Qed.

Lemma add_product_materials_single_skip product_id material d n :
  bom_line_exists product_id (bi_material_id material) d = true ->
  add_product_materials {| bd_product_id := product_id; bd_materials := [material] |} (Idle d n)
  = (Ok tt, Idle d n).
Proof.
  intros Hex. unfold add_product_materials. simpl. unfold bind.
  rewrite add_product_material_existing by exact Hex. reflexivity.
Qed.

Lemma add_product_material_insert product_id material cost d n :
  bom_line_exists product_id (bi_material_id material) d = false ->
  match bi_unit_cost material with
  | Some given => cost = given
  | None => option_map m_material_cost (material_by_id (bi_material_id material) d) = Some cost
  end ->
  add_product_material product_id material (Idle d n)
  = (Ok tt, Idle (with_product_materials (insert
       {| pm_product_id := product_id; pm_material_id := bi_material_id material;
          pm_used_quantity := bi_used_quantity material; pm_unit_cost := cost |}) d) n).
Proof.
  intros Hex Hcost. destruct (bi_unit_cost material) as [given|] eqn:Hgiven.
  - subst cost. now rewrite (add_product_material_given_cost _ _ given).
  - destruct (material_by_id (bi_material_id material) d) as [m|] eqn:Hm; [|discriminate].
    simpl in Hcost. injection Hcost as <-.
    now rewrite (add_product_material_default_cost _ _ m).
Qed.

(** C5. Inserting a BOM line is idempotent by skipping: a line of a pair
    (product, material) that is not yet present is inserted, with the unit
    cost given or else copied from the material's cost at that moment; after
    that exactly one row of the pair exists; adding the pair again, in a
    second call or later in the same call, with whatever quantity or cost,
    changes nothing; and in any database a call for a pair that already has
    a line is a no-op. *)
Theorem c5_bom_insert_skips_existing_pair d n product_id material cost :
  bom_line_exists product_id (bi_material_id material) d = false ->
  match bi_unit_cost material with
  | Some given => cost = given
  | None => option_map m_material_cost (material_by_id (bi_material_id material) d) = Some cost
  end ->
  let row := {| pm_product_id := product_id; pm_material_id := bi_material_id material;
                pm_used_quantity := bi_used_quantity material; pm_unit_cost := cost |} in
  let d1 := with_product_materials (insert row) d in
  add_product_materials {| bd_product_id := product_id; bd_materials := [material] |} (Idle d n)
    = (Ok tt, Idle d1 n)
  /\ filter (fun r => String.eqb (pm_product_id r) product_id
                      && String.eqb (pm_material_id r) (bi_material_id material))
            (product_materials d1) = [row]
  /\ (forall again, bi_material_id again = bi_material_id material ->
        add_product_materials {| bd_product_id := product_id; bd_materials := [again] |} (Idle d1 n)
          = (Ok tt, Idle d1 n)
        /\ add_product_materials
             {| bd_product_id := product_id; bd_materials := [material; again] |} (Idle d n)
           = (Ok tt, Idle d1 n))
  /\ (forall d' n' any,
        bom_line_exists product_id (bi_material_id any) d' = true ->
        add_product_materials {| bd_product_id := product_id; bd_materials := [any] |} (Idle d' n')
          = (Ok tt, Idle d' n')).
Proof.
  intros Hex Hcost row d1.
  assert (Hins := add_product_material_insert product_id material cost d n Hex Hcost).
  fold row in Hins. fold d1 in Hins.
  assert (Hnow : forall again, bi_material_id again = bi_material_id material ->
                   bom_line_exists product_id (bi_material_id again) d1 = true).
  { intros again ->. apply bom_line_exists_inserted. }
  split; [|split; [|split]].
  - unfold add_product_materials. simpl. unfold bind. rewrite Hins. reflexivity.
  - unfold d1, insert. simpl. rewrite filter_app. simpl.
    rewrite !String.eqb_refl. simpl.
    unfold bom_line_exists, fetchone in Hex.
    destruct (find _ (product_materials d)) eqn:Hfind; [discriminate|].
    now rewrite (find_none_filter _ _ Hfind).
  - intros again Hsame. split.
    + apply add_product_materials_single_skip. now apply Hnow.
    + unfold add_product_materials. simpl. unfold bind. rewrite Hins.
      rewrite add_product_material_existing by (now apply Hnow). reflexivity.
  - intros d' n' any. apply add_product_materials_single_skip.
Qed.

(** C10. A call of [add_product_materials] with several materials is not
    atomic: when the materials [earlier] can all be processed and the next
    one has no unit cost and an identifier that does not resolve, the call
    raises [ValueError] and leaves the connection exactly as the successful
    call on [earlier] alone leaves it: quiescent, with the line of every
    earlier material in the committed database, which therefore differs
    from the database before the call as soon as one of them was new. *)
Theorem c10_add_product_materials_not_atomic d n product_id earlier bad rest c1 :
  add_product_materials {| bd_product_id := product_id; bd_materials := earlier |} (Idle d n)
    = (Ok tt, c1) ->
  bom_line_exists product_id (bi_material_id bad) (committed c1) = false ->
  bi_unit_cost bad = None ->
  material_by_id (bi_material_id bad) (committed c1) = None ->
  add_product_materials
    {| bd_product_id := product_id; bd_materials := earlier ++ bad :: rest |} (Idle d n)
    = (Raise (ValueError ("Material with ID '" ++ bi_material_id bad ++ "' not found.")), c1)
  /\ active c1 = None
  /\ (forall m, In m earlier ->
        bom_line_exists product_id (bi_material_id m) (committed c1) = true)
  /\ (forall m, In m earlier ->
        bom_line_exists product_id (bi_material_id m) d = false -> committed c1 <> d).
Proof.
  unfold add_product_materials. simpl. unfold bind.
  destruct (add_loop_idle product_id earlier d n) as [r [d1 [Hrun [Hmono Hlines]]]].
  intros Hok. rewrite Hrun in Hok. destruct r as [[]|e]; [|discriminate].
  simpl in Hok. injection Hok as <-. simpl committed.
  intros Hex Hcost Hm.
  assert (Hall := Hlines eq_refl).
  split; [|split; [reflexivity | split; [exact Hall|]]].
  - rewrite for_each_app, Hrun. simpl. unfold bind.
    rewrite add_product_material_unresolved by assumption. reflexivity.
  - intros m Hin Hnew Heq. specialize (Hall m Hin). rewrite Heq in Hall. congruence.
Qed.

(** ** Order status *)



Lemma order_by_id_after_update transaction_id (set : order_transaction -> order_transaction) d :
  (forall t, ot_id (set t) = ot_id t) ->
  order_by_id transaction_id d <> None ->
  order_by_id transaction_id
    (with_order_transactions
       (update_where (fun t => String.eqb (ot_id t) transaction_id) set) d)
  <> None.
Proof.
  intros Hset. unfold order_by_id, fetchone. simpl.
  induction (order_transactions d) as [|t l IH]; simpl; [auto|].
  destruct (String.eqb (ot_id t) transaction_id) eqn:Hid; simpl.
  - rewrite Hset, Hid. discriminate.
  - rewrite Hid. exact IH.
Qed.

Lemma order_by_id_inserted t d :
  order_by_id (ot_id t) (with_order_transactions (insert t) d) <> None.
Proof.
  unfold order_by_id, fetchone, insert. simpl.
  induction (order_transactions d) as [|x l IH]; simpl.
  - rewrite String.eqb_refl. discriminate.
  - destruct (String.eqb (ot_id x) (ot_id t)); [discriminate | exact IH].
Qed.

Lemma update_order_status_run transaction_id new_status_code c :
  update_order_status transaction_id new_status_code c
  = match status_by_code new_status_code (view c) with
    | None => (Ok (StatusError "Status code not found."), c)
    | Some status =>
        match order_by_id transaction_id (view c) with
        | None => (Ok (StatusError "Transaction ID not found."), c)
        | Some _ =>
            (Ok StatusSuccess,
             apply_stmt (with_order_transactions
               (update_where (fun t => String.eqb (ot_id t) transaction_id)
                             (set_status_id (os_id status)))) c)
        end
    end.
Proof.
  unfold update_order_status, bind, query.
  destruct (status_by_code new_status_code (view c)); [|reflexivity].
  destruct (order_by_id transaction_id (view c)); reflexivity.
Qed.





(** ** Stock receiving in closed form *)

Lemma apply_stmt_compose f g c :
  apply_stmt g (apply_stmt f c) = apply_stmt (fun d => g (f d)) c.
Proof. unfold apply_stmt. destruct (active c); reflexivity. Qed.

Lemma apply_stmt_ext f g c : (forall d, f d = g d) -> apply_stmt f c = apply_stmt g c.
Proof. intros H. unfold apply_stmt. destruct (active c); now rewrite H. Qed.

Lemma receive_lines_run stock_transaction_id items_in : forall c,
  receive_lines stock_transaction_id items_in c
  = (Ok tt, apply_stmt (fun d => fold_left (receive_line stock_transaction_id) items_in d) c).
Proof.
  unfold receive_lines.
  induction items_in as [|item rest IH]; intros c; simpl.
  - unfold ret. f_equal. unfold apply_stmt. destruct c as [d [w|] n]; reflexivity.
  - unfold bind, execute. rewrite IH. f_equal.
    rewrite !apply_stmt_compose. reflexivity.
Qed.

Lemma receive_items_table stock_transaction_id items_in : forall d,
  stock_transaction_items (fold_left (receive_line stock_transaction_id) items_in d)
  = (stock_transaction_items d
     ++ map (fun item => {| sti_stock_transaction_id := stock_transaction_id;
                            sti_material_id := sl_material_id item;
                            sti_quantity := sl_quantity item |}) items_in)%list.
Proof.
  induction items_in as [|item rest IH]; intros d; simpl.
  - now rewrite app_nil_r.
  - rewrite IH. simpl. unfold insert. now rewrite <- app_assoc.
Qed.

Lemma receive_headers_table stock_transaction_id items_in : forall d,
  stock_transactions (fold_left (receive_line stock_transaction_id) items_in d)
  = stock_transactions d.
Proof.
  induction items_in as [|item rest IH]; intros d; simpl; [reflexivity|].
  now rewrite IH.
Qed.

Lemma receive_materials_table stock_transaction_id items_in : forall d,
  materials (fold_left (receive_line stock_transaction_id) items_in d)
  = map (fun m => set_current_stock
                    (m_current_stock m + received_quantity (m_id m) items_in) m)
        (materials d).
Proof.
  induction items_in as [|item rest IH]; intros d; simpl.
  - rewrite <- (map_id (materials d)) at 1. apply map_ext. intros [a b c0 e f g].
    unfold set_current_stock, received_quantity. simpl. f_equal. lia.
  - rewrite IH. simpl. unfold update_where. rewrite map_map. apply map_ext.
    intros [a b c0 e f g]. unfold received_quantity. simpl.
    destruct (String.eqb_spec a (sl_material_id item)) as [->|Hne].
    + rewrite String.eqb_refl. unfold set_current_stock. simpl. f_equal. lia.
    + destruct (String.eqb_spec (sl_material_id item) a) as [Heq|_]; [now symmetry in Heq|].
      reflexivity.
Qed.

Lemma resolve_supplier_given data c supplier_id :
  truthy_id (sd_supplier_id data) = Some supplier_id ->
  resolve_supplier data c = (Ok supplier_id, c).
Proof. intros H. unfold resolve_supplier. now rewrite H. Qed.

Lemma resolve_stock_type_run data c stock_type_id :
  recorded_stock_type data (view c) = Some stock_type_id ->
  resolve_stock_type data c = (Ok stock_type_id, c).
Proof.
  unfold resolve_stock_type, recorded_stock_type.
  destruct (truthy_id (sd_stock_type_id data)) as [given|].
  - intros H. injection H as ->. reflexivity.
  - unfold bind, query. destruct (fetchone _ (stock_types (view c))) as [t|]; simpl.
    + intros H. injection H as ->. reflexivity.
    + discriminate.
Qed.

(** With the supplier given, the stock type resolved and an actor present,
    [stock_materials] succeeds, whatever the lines are. *)
Lemma stock_materials_success data d n supplier_id stock_type_id :
  truthy_id (sd_supplier_id data) = Some supplier_id ->
  recorded_stock_type data d = Some stock_type_id ->
  negb (is_some (truthy_id (sd_admin_id data)))
    && negb (is_some (truthy_id (sd_employee_id data))) = false ->
  stock_materials data (Idle d n)
  = (Ok {| sr_transaction_id := gen_id n; sr_message := "Materials successfully stocked." |},
     Idle (fold_left (receive_line (gen_id n)) (sd_items data)
             (with_stock_transactions (insert
                {| st_id := gen_id n; st_stock_type_id := stock_type_id;
                   st_supplier_id := supplier_id; st_admin_id := sd_admin_id data;
                   st_employee_id := sd_employee_id data |}) d))
          (S n)).
Proof.
  intros Hsup Hty Hactor.
  unfold stock_materials, try_except, bind at 1. rewrite sql_begin_idle.
  unfold stock_body, bind at 1.
  rewrite (resolve_supplier_given data _ supplier_id Hsup).
  unfold bind at 1.
  rewrite (resolve_stock_type_run data
             {| committed := d; active := Some d; id_counter := n |} stock_type_id Hty).
  unfold bind at 1. rewrite Hactor.
  unfold ret at 1. unfold bind at 1. unfold insert_returning_id.
  unfold bind at 1. rewrite receive_lines_run. reflexivity.
Qed.

(** Without an actor the body of [stock_materials] raises inside its
    transaction. *)
Lemma stock_body_no_actor data d :
  truthy_id (sd_admin_id data) = None -> truthy_id (sd_employee_id data) = None ->
  triple (in_transaction d) (stock_body data) (fun _ _ => False) (in_transaction d).
Proof.
  intros Ha He. unfold stock_body.
  apply triple_bind with (Q := fun _ => in_transaction d).
  { apply triple_resolve_supplier; [|auto].
    intros c f Hc. now apply in_transaction_advance, in_transaction_apply_stmt. }
  intros supplier_id.
  apply triple_bind with (Q := fun _ => in_transaction d).
  { apply triple_resolve_stock_type_any. auto. }
  intros stock_type_id. rewrite Ha, He. simpl.
  apply triple_bind with (Q := fun _ _ => False).
  { apply triple_raise. auto. }
  intros _ c [].
Qed.

(** C7, as the code has it. The actor check of [stock_materials] asks for at
    least one of [admin_id] and [employee_id]: a call with neither raises and
    leaves the committed database as it was, with no transaction open, and
    the exception is the [ValueError] of the actor check when the supplier is
    given and the stock type resolves; a call with one of them or with both,
    a given supplier and a resolved stock type succeeds, and its ledger
    header records [admin_id] and [employee_id] as they were passed. *)
Theorem c7_stock_materials_requires_some_actor data d n :
  (truthy_id (sd_admin_id data) = None -> truthy_id (sd_employee_id data) = None ->
     (exists e n', stock_materials data (Idle d n) = (Raise e, Idle d n'))
     /\ (forall supplier_id stock_type_id,
           truthy_id (sd_supplier_id data) = Some supplier_id ->
           recorded_stock_type data d = Some stock_type_id ->
           stock_materials data (Idle d n)
           = (Raise (ValueError "Either admin_id or employee_id must be provided."), Idle d n)))
  /\ (forall supplier_id stock_type_id,
        truthy_id (sd_admin_id data) <> None \/ truthy_id (sd_employee_id data) <> None ->
        truthy_id (sd_supplier_id data) = Some supplier_id ->
        recorded_stock_type data d = Some stock_type_id ->
        exists c', stock_materials data (Idle d n)
                   = (Ok {| sr_transaction_id := gen_id n;
                            sr_message := "Materials successfully stocked." |}, c')
          /\ active c' = None
          /\ stock_transactions (committed c')
             = (stock_transactions d
                ++ [{| st_id := gen_id n; st_stock_type_id := stock_type_id;
                       st_supplier_id := supplier_id; st_admin_id := sd_admin_id data;
                       st_employee_id := sd_employee_id data |}])%list).
Proof.
  split.
  - intros Ha He. split.
    + assert (Hb := stock_body_no_actor data d Ha He
                      {| committed := d; active := Some d; id_counter := n |}).
      unfold stock_materials, try_except, bind at 1. rewrite sql_begin_idle.
      destruct (stock_body data _) as [[a|e] c'].
      * exfalso. apply Hb. split; [reflexivity | discriminate].
      * assert (Ht : in_transaction d c') by (apply Hb; split; [reflexivity | discriminate]).
        unfold bind. rewrite (sql_rollback_in_transaction d c' Ht). simpl.
        exists e, (id_counter c'). reflexivity.
    + intros supplier_id stock_type_id Hsup Hty.
      unfold stock_materials, try_except, bind at 1. rewrite sql_begin_idle.
      unfold stock_body, bind at 1.
      rewrite (resolve_supplier_given data _ supplier_id Hsup).
      unfold bind at 1.
      rewrite (resolve_stock_type_run data
                 {| committed := d; active := Some d; id_counter := n |} stock_type_id Hty).
      unfold bind at 1. rewrite Ha, He. reflexivity.
  - intros supplier_id stock_type_id Hactor Hsup Hty.
    rewrite (stock_materials_success data d n supplier_id stock_type_id Hsup Hty).
    + eexists. split; [reflexivity|]. split; [reflexivity|].
      simpl. now rewrite receive_headers_table.
    + destruct (truthy_id (sd_admin_id data)), (truthy_id (sd_employee_id data));
        try reflexivity. destruct Hactor as [H|H]; now elim H.
Qed.

Lemma consume_materials_single admin_id quantity pm c m supplier_id :
  material_by_id (pm_material_id pm) (view c) = Some m ->
  truthy_id (m_supplier_id m) = Some supplier_id ->
  consume_materials admin_id quantity [pm] c
  = (Ok tt, advance (apply_stmt
       (consume_line (gen_id (id_counter c)) supplier_id admin_id (pm_material_id pm)
                     (pm_used_quantity pm * quantity)) c)).
Proof.
  intros Hm Hs. unfold consume_materials. simpl. unfold bind at 1.
  unfold consume_material. unfold bind at 1, query. rewrite Hm, Hs.
  unfold bind at 1, insert_returning_id. unfold bind, execute, ret.
  f_equal. unfold advance. simpl.
  rewrite !id_counter_apply_stmt.
  unfold apply_stmt, consume_line. destruct (active c); reflexivity.
Qed.

(** C8, as the code has it. No line quantity is checked for its sign.
    [stock_materials], with the supplier given, the stock type resolved and
    an actor present, accepts any lines: it writes one ledger item per line
    with the quantity as passed and adds to the [current_stock] of every
    material the quantities of its lines, positive, zero or negative.  The
    consumption step of [create_order_transaction], for a BOM row whose
    material has a supplier, writes a ledger entry of
    [used_quantity * quantity] and subtracts it from [current_stock],
    whatever the sign of the ordered quantity. *)
Theorem c8_quantities_are_not_validated :
  (forall data d n supplier_id stock_type_id,
     truthy_id (sd_supplier_id data) = Some supplier_id ->
     recorded_stock_type data d = Some stock_type_id ->
     negb (is_some (truthy_id (sd_admin_id data)))
       && negb (is_some (truthy_id (sd_employee_id data))) = false ->
     exists c',
       stock_materials data (Idle d n)
       = (Ok {| sr_transaction_id := gen_id n;
                sr_message := "Materials successfully stocked." |}, c')
       /\ active c' = None
       /\ stock_transaction_items (committed c')
          = (stock_transaction_items d
             ++ map (fun item => {| sti_stock_transaction_id := gen_id n;
                                    sti_material_id := sl_material_id item;
                                    sti_quantity := sl_quantity item |}) (sd_items data))%list
       /\ materials (committed c')
          = map (fun m => set_current_stock
                            (m_current_stock m + received_quantity (m_id m) (sd_items data)) m)
                (materials d))
  /\ (forall admin_id quantity pm c m supplier_id,
        material_by_id (pm_material_id pm) (view c) = Some m ->
        truthy_id (m_supplier_id m) = Some supplier_id ->
        exists c',
          consume_materials admin_id quantity [pm] c = (Ok tt, c')
          /\ stock_transaction_items (view c')
             = (stock_transaction_items (view c)
                ++ [{| sti_stock_transaction_id := gen_id (id_counter c);
                       sti_material_id := pm_material_id pm;
                       sti_quantity := pm_used_quantity pm * quantity |}])%list
          /\ materials (view c')
             = update_where (fun m => String.eqb (m_id m) (pm_material_id pm))
                 (fun m => set_current_stock
                             (m_current_stock m - pm_used_quantity pm * quantity) m)
                 (materials (view c))).
Proof.
  split.
  - intros data d n supplier_id stock_type_id Hsup Hty Hactor.
    rewrite (stock_materials_success data d n supplier_id stock_type_id Hsup Hty Hactor).
    eexists. split; [reflexivity|]. split; [reflexivity|]. simpl. split.
    + now rewrite receive_items_table.
    + now rewrite receive_materials_table.
  - intros admin_id quantity pm c m supplier_id Hm Hs.
    rewrite (consume_materials_single admin_id quantity pm c m supplier_id Hm Hs).
    eexists. split; [reflexivity|].
    rewrite view_advance, view_apply_stmt. split; reflexivity.
Qed.

(** C3, as the code has it. From a quiescent connection whose committed
    database satisfies the ledger-counter invariant (every material's
    [current_stock] is the sum of its receipts minus the sum of its
    consumptions), [create_order_transaction] always, and [stock_materials]
    whenever the stock type it records is not the consumption type
    ['STT002'], end in a quiescent connection whose committed database
    satisfies the invariant again, whether the call returns or raises: each
    ledger row and its adjustment of the counter are committed together or
    not at all. *)
Theorem c3_ledger_counter_invariant_preserved d n :
  (forall i j, gen_id i = gen_id j -> i = j) ->
  ledger_consistent d -> ids_fresh d n ->
  (forall data,
     (forall ty, recorded_stock_type data d = Some ty -> ty <> "STT002") ->
     quiescent_consistent (snd (stock_materials data (Idle d n))))
  /\ (forall data, quiescent_consistent (snd (create_order_transaction data (Idle d n)))).
Proof.
  intros Hinj Hc Hf. split.
  - intros data Hty. now apply stock_materials_consistent.
  - intros data. now apply create_order_transaction_consistent.
Qed.

(** ** Products without a bill of materials *)

Lemma bom_join_empty {R} product_id (row : product_material -> material -> item -> R) d :
  bom_of product_id d = [] -> bom_join product_id row d = [].
Proof. unfold bom_join. now intros ->. Qed.

Lemma precheck_empty items_in c :
  (forall line, In line items_in -> bom_of (ol_product_id line) (view c) = []) ->
  precheck items_in c = (Ok [], c).
Proof.
  unfold precheck. induction items_in as [|line rest IH]; intros H; [reflexivity|].
  simpl. unfold bind at 1. unfold bind at 1, query.
  rewrite bom_join_empty by (apply H; now left). simpl.
  apply IH. intros l Hl. apply H. now right.
Qed.

Lemma process_order_item_empty transaction_id admin_id line total c p :
  bom_of (ol_product_id line) (view c) = [] ->
  product_by_id (ol_product_id line) (view c) = Some p ->
  process_order_item transaction_id admin_id line total c
  = (Ok (total + ol_quantity line * p_unit_price p),
     apply_stmt (with_order_items (insert (order_item_of transaction_id (view c) line))) c).
Proof.
  intros Hbom Hp. unfold process_order_item, order_item_of.
  unfold bind at 1, query. rewrite Hp.
  unfold bind at 1. rewrite Hbom. reflexivity.
Qed.

Lemma process_order_items_empty transaction_id admin_id items_in : forall c total,
  (forall line, In line items_in ->
     bom_of (ol_product_id line) (view c) = []
     /\ product_by_id (ol_product_id line) (view c) <> None) ->
  exists total',
    process_order_items transaction_id admin_id items_in total c
    = (Ok total',
       apply_stmt (with_order_items (fun t =>
         (t ++ map (order_item_of transaction_id (view c)) items_in)%list)) c).
Proof.
  unfold process_order_items.
  induction items_in as [|line rest IH]; intros c total H.
  - exists total. simpl. unfold ret. f_equal.
    unfold apply_stmt, with_order_items. destruct c as [[] [[]|] k]; simpl;
      now rewrite app_nil_r.
  - destruct (H line (or_introl eq_refl)) as [Hbom Hprod].
    destruct (product_by_id (ol_product_id line) (view c)) as [p|] eqn:Hp; [|now elim Hprod].
    simpl. unfold bind.
    rewrite (process_order_item_empty transaction_id admin_id line total c p Hbom Hp).
    set (c1 := apply_stmt _ c).
    assert (Hview : view c1
                    = with_order_items (insert (order_item_of transaction_id (view c) line))
                        (view c)).
    { unfold c1. apply view_apply_stmt. }
    destruct (IH c1 (total + ol_quantity line * p_unit_price p)) as [total' Hrun].
    { intros l Hl. rewrite Hview. apply H. now right. }
    exists total'. rewrite Hrun, Hview. f_equal. unfold c1. rewrite apply_stmt_compose.
    apply apply_stmt_ext. intros d0.
    unfold with_order_items, insert. simpl. now rewrite <- app_assoc.
Qed.

Lemma resolve_customer_given data c customer_id :
  truthy_id (od_customer_id data) = Some customer_id ->
  resolve_customer data c = (Ok customer_id, c).
Proof. intros H. unfold resolve_customer. now rewrite H. Qed.

(** C6, as the code has it. A product without BOM lines is not an error:
    [get_product_materials_by_product_id] answers with the empty list, and
    an order with a known customer whose lines are all for existing products
    without BOM lines is admitted and fulfilled: it returns the new order's
    identifier, leaves no transaction open, writes the order header and one
    order item per line, and changes no material and no ledger row. *)
Theorem c6_empty_bom_is_not_an_error :
  (forall product_id c,
     bom_of product_id (view c) = [] ->
     get_product_materials_by_product_id product_id c = (Ok [], c))
  /\ (forall data d n customer_id,
        truthy_id (od_customer_id data) = Some customer_id ->
        (forall line, In line (od_items data) ->
           bom_of (ol_product_id line) d = []
           /\ product_by_id (ol_product_id line) d <> None) ->
        exists c',
          create_order_transaction data (Idle d n)
          = (Ok {| or_transaction_id := gen_id n;
                   or_message := "Order successfully placed." |}, c')
          /\ active c' = None
          /\ materials (committed c') = materials d
          /\ stock_transactions (committed c') = stock_transactions d
          /\ stock_transaction_items (committed c') = stock_transaction_items d
          /\ order_items (committed c')
             = (order_items d ++ map (order_item_of (gen_id n) d) (od_items data))%list
          /\ order_by_id (gen_id n) (committed c') <> None).
Proof.
  split.
  - intros product_id c Hbom. unfold get_product_materials_by_product_id, query.
    now rewrite bom_join_empty.
  - intros data d n customer_id Hcust Hlines.
    unfold create_order_transaction, bind at 1.
    rewrite (resolve_customer_given data _ customer_id Hcust).
    unfold try_except, bind at 1. rewrite sql_begin_idle.
    unfold order_body, bind at 1.
    rewrite precheck_empty by (intros line Hl; now apply Hlines).
    change (lacking_materials []) with (@nil string). cbv beta iota.
    unfold bind at 1, insert_returning_id.
    set (c1 := advance (apply_stmt _ _)).
    destruct (process_order_items_empty (gen_id n) (od_admin_id data) (od_items data) c1 0)
      as [total' Hrun].
    { intros line Hl. apply (Hlines line Hl). }
    simpl id_counter. unfold bind at 1. rewrite Hrun.
    unfold bind, execute, con_commit, ret, c1. simpl.
    eexists. split; [reflexivity|]. simpl.
    repeat (split; [reflexivity|]).
    apply (order_by_id_after_update (gen_id n) (set_total_amount total'));
      [reflexivity|].
    apply (order_by_id_inserted
             {| ot_id := gen_id n; ot_customer_id := customer_id;
                ot_status_id := od_status_id data; ot_admin_id := od_admin_id data;
                ot_total_amount := 0 |} d).
Qed.

(** ** What a failing call leaves behind *)

Ltac in_txn :=
  repeat first [apply in_transaction_apply_stmt | apply in_transaction_advance];
  assumption.

Lemma txn_execute d0 f :
  triple (in_transaction d0) (execute f) (fun _ => in_transaction d0) (in_transaction d0).
Proof. apply triple_execute. intros c Hc. in_txn. Qed.

Lemma txn_insert_returning_id d0 mk :
  triple (in_transaction d0) (insert_returning_id mk)
         (fun _ => in_transaction d0) (in_transaction d0).
Proof. intros c Hc. unfold insert_returning_id. in_txn. Qed.

Lemma txn_consume_materials d0 admin_id quantity rows :
  triple (in_transaction d0) (consume_materials admin_id quantity rows)
         (fun _ => in_transaction d0) (in_transaction d0).
Proof.
  unfold consume_materials. apply triple_for_each. intros pm _ c Hc.
  unfold consume_material, bind, query.
  destruct (material_by_id (pm_material_id pm) (view c)) as [m|]; [|exact Hc].
  destruct (truthy_id (m_supplier_id m)) as [supplier_id|]; [|exact Hc].
  unfold insert_returning_id, execute. in_txn.
Qed.

Lemma txn_process_order_items d0 transaction_id admin_id items_in total :
  triple (in_transaction d0) (process_order_items transaction_id admin_id items_in total)
         (fun _ => in_transaction d0) (in_transaction d0).
Proof.
  unfold process_order_items. apply triple_for_fold. intros item acc _.
  unfold process_order_item.
  apply triple_bind with (Q := fun _ => in_transaction d0).
  { apply triple_query. auto. }
  intros [p|]; [|apply triple_raise; auto].
  apply triple_bind with (Q := fun _ => in_transaction d0).
  { apply triple_query. auto. }
  intros rows.
  apply triple_bind with (Q := fun _ => in_transaction d0).
  { apply txn_consume_materials. }
  intros _.
  apply triple_bind with (Q := fun _ => in_transaction d0).
  { apply txn_execute. }
  intros _. apply triple_ret. auto.
Qed.

Lemma txn_order_body d0 data customer_id :
  triple (in_transaction d0) (order_body data customer_id)
         (fun _ _ => True) (in_transaction d0).
Proof.
  unfold order_body.
  apply triple_bind with (Q := fun _ => in_transaction d0).
  { apply triple_precheck. }
  intros reqs. destruct (lacking_materials reqs) as [|l ls]; [|apply triple_raise; auto].
  apply triple_bind with (Q := fun _ => in_transaction d0).
  { apply txn_insert_returning_id. }
  intros transaction_id.
  apply triple_bind with (Q := fun _ => in_transaction d0).
  { apply txn_process_order_items. }
  intros total_amount.
  apply triple_bind with (Q := fun _ => in_transaction d0).
  { apply txn_execute. }
  intros _.
  apply triple_bind with (Q := fun _ _ => True).
  { intros c Hc. unfold con_commit. now destruct (active c). }
  intros _. apply triple_ret. auto.
Qed.

Lemma txn_stock_body d0 data :
  triple (in_transaction d0) (stock_body data) (fun _ _ => True) (in_transaction d0).
Proof.
  unfold stock_body.
  apply triple_bind with (Q := fun _ => in_transaction d0).
  { apply triple_resolve_supplier; [|auto]. intros c f Hc. in_txn. }
  intros supplier_id.
  apply triple_bind with (Q := fun _ => in_transaction d0).
  { apply triple_resolve_stock_type_any. auto. }
  intros stock_type_id.
  apply triple_bind with (Q := fun _ => in_transaction d0).
  { destruct (negb _ && negb _); [apply triple_raise | apply triple_ret]; auto. }
  intros _.
  apply triple_bind with (Q := fun _ => in_transaction d0).
  { apply txn_insert_returning_id. }
  intros tid.
  apply triple_bind with (Q := fun _ => in_transaction d0).
  { unfold receive_lines. apply triple_for_each. intros item _.
    apply triple_bind with (Q := fun _ => in_transaction d0); [apply txn_execute|].
    intros _. apply txn_execute. }
  intros _.
  apply triple_bind with (Q := fun _ _ => True).
  { intros c Hc. unfold con_commit. now destruct (active c). }
  intros _. apply triple_ret. auto.
Qed.

(** A [try] block that opens a transaction on a quiescent connection: when
    its body raises, the handler's [ROLLBACK] restores the committed
    database. *)
Lemma try_rollback_restores {A} (body : M A) d n e c' :
  triple (in_transaction d) body (fun _ _ => True) (in_transaction d) ->
  try_except (sql_begin ;; body) (fun e => sql_rollback ;; raise e) (Idle d n) = (Raise e, c') ->
  exists n', c' = Idle d n'.
Proof.
  intros Hb. unfold try_except, bind at 1. rewrite sql_begin_idle.
  specialize (Hb {| committed := d; active := Some d; id_counter := n |}
                 ltac:(split; [reflexivity | discriminate])).
  destruct (body _) as [[a|e0] c1]; [discriminate|].
  unfold bind. rewrite (sql_rollback_in_transaction d c1 Hb). simpl.
  intros H. injection H as _ <-. eauto.
Qed.

(** When [stock_materials] raises, nothing it wrote is committed. *)
Lemma stock_materials_failure_restores data d n e c' :
  stock_materials data (Idle d n) = (Raise e, c') -> exists n', c' = Idle d n'.
Proof. apply try_rollback_restores. apply txn_stock_body. Qed.

(** When [create_order_transaction] raises, everything it wrote after
    [BEGIN] is rolled back; the customer row inserted before [BEGIN], if
    any, is the one thing that stays. *)
Lemma create_order_transaction_failure_keeps_customer data d n e c' :
  create_order_transaction data (Idle d n) = (Raise e, c') ->
  exists n',
    (c' = Idle d n')
    \/ (truthy_id (od_customer_id data) = None
        /\ exists row, c' = Idle (with_customers (insert row) d) n').
Proof.
  unfold create_order_transaction, bind at 1, resolve_customer.
  destruct (truthy_id (od_customer_id data)) as [given|].
  { unfold ret at 1. intros H.
    destruct (try_rollback_restores _ d n e c' (txn_order_body d data given) H) as [n' ->].
    eauto. }
  destruct (od_customer data) as [customer_data|].
  - unfold insert_returning_id.
    match goal with
    | |- context [advance (apply_stmt ?f (Idle d n))] =>
        change (advance (apply_stmt f (Idle d n))) with (Idle (f d) (S n))
    end.
    intros H.
    destruct (try_rollback_restores _ _ _ e c' (txn_order_body _ data (gen_id n)) H)
      as [n' ->].
    exists n'. right. split; [reflexivity|]. eauto.
  - unfold raise. intros H. injection H as _ <-. eauto.
Qed.

(** ** The pre-check keeps the last demand of a material *)

Lemma dict_get_adjust_set {V} (k : string) (v : V) (f : V -> V) (d : pydict V) :
  dict_get k (dict_adjust k f (dict_set k v d)) = Some (f v).
Proof.
  induction d as [|[k' v'] rest IH]; simpl.
  - now rewrite !String.eqb_refl.
  - destruct (String.eqb k' k) eqn:Hk; simpl.
    + now rewrite !String.eqb_refl.
    + now rewrite !Hk.
Qed.

(** Whatever [material_requirements] held for the material, after one joined
    row its [needed] is the demand of that row alone. *)
Lemma note_requirement_resets quantity material_requirements material_id used_qty
    current_stock item_name unit_ :
  dict_get material_id
    (note_requirement quantity material_requirements
       (material_id, used_qty, current_stock, item_name, unit_))
  = Some {| r_needed := used_qty * quantity; r_available := current_stock;
            r_item_name := item_name; r_unit := unit_ |}.
Proof.
  unfold note_requirement. rewrite dict_get_adjust_set. reflexivity.
Qed.

(** Every entry whose [needed] exceeds its [available] is reported. *)
Lemma lacking_entries_complete material_requirements v :
  In v (dict_values material_requirements) -> r_needed v > r_available v ->
  In (format_lacking v) (lacking_materials material_requirements).
Proof.
  intros Hin Hgt. unfold lacking_materials, lacking_entries.
  apply in_map, filter_In. split; [exact Hin|].
  unfold Z.gtb. now rewrite Hgt.
Qed.

(** ** Rows an [UPDATE] or [DELETE] does not touch *)

Lemma rowcount_zero_iff {R} (cond : R -> bool) l :
  Nat.eqb (rowcount cond l) 0 = true <-> find cond l = None.
Proof.
  unfold rowcount. induction l as [|x l IH]; simpl; [tauto|].
  destruct (cond x); simpl; [split; discriminate | exact IH].
Qed.

Lemma update_where_untouched {R} (cond : R -> bool) set l :
  find cond l = None -> update_where cond set l = l.
Proof.
  intros H. unfold update_where. rewrite <- (map_id l) at 2.
  apply map_ext_in. intros r Hin. now rewrite (find_none _ _ H r Hin).
Qed.

Lemma delete_where_untouched {R} (cond : R -> bool) l :
  find cond l = None -> delete_where cond l = l.
Proof.
  intros H. unfold delete_where. induction l as [|x l IH]; simpl; [reflexivity|].
  simpl in H. destruct (cond x); [discriminate|]. simpl. now rewrite IH.
Qed.

Lemma delete_where_gone {R} (cond : R -> bool) l : find cond (delete_where cond l) = None.
Proof.
  unfold delete_where. induction l as [|x l IH]; simpl; [reflexivity|].
  destruct (cond x) eqn:Hx; simpl; [exact IH | now rewrite Hx].
Qed.

Lemma delete_where_others {R} (cond keep : R -> bool) l :
  (forall r, keep r = true -> cond r = false) ->
  filter keep (delete_where cond l) = filter keep l.
Proof.
  intros H. unfold delete_where. induction l as [|x l IH]; simpl; [reflexivity|].
  destruct (cond x) eqn:Hx; simpl.
  - destruct (keep x) eqn:Hk; [rewrite (H x Hk) in Hx; discriminate | exact IH].
  - destruct (keep x); now rewrite IH.
Qed.

(** ** Customers and suppliers: duplicates and unknown identifiers *)

Lemma find_app_none_hit {R} (f : R -> bool) l x :
  find f l = None -> f x = true -> find f (l ++ [x]) = Some x.
Proof.
  intros Hl Hx. induction l as [|y l IH]; simpl in *; [now rewrite Hx|].
  destruct (f y); [discriminate | now apply IH].
Qed.

Lemma add_customer_run py_lower data d n :
  add_customer py_lower data (Idle d n)
  = match fetchone
            (fun c => String.eqb (c_firstname c) (py_title (py_strip (ci_firstname data)))
                      && String.eqb (c_lastname c) (py_title (py_strip (ci_lastname data)))
                      && (String.eqb (c_contact_number c) (py_strip (ci_contact_number data))
                          || String.eqb (c_email c) (py_lower (py_strip (ci_email data)))))
            (customers d) with
    | Some _ => (Ok {| success := false; message := "Customer already exists." |}, Idle d n)
    | None =>
        (Ok {| success := true; message := "Customer added successfully." |},
         Idle (with_customers (insert
                 {| c_id := gen_id n;
                    c_firstname := py_title (py_strip (ci_firstname data));
                    c_lastname := py_title (py_strip (ci_lastname data));
                    c_contact_number := py_strip (ci_contact_number data);
                    c_email := py_lower (py_strip (ci_email data));
                    c_address := py_strip (ci_address data) |}) d) (S n))
    end.
Proof.
  unfold add_customer, bind, query. change (view (Idle d n)) with d.
  now destruct (fetchone _ (customers d)).
Qed.

Lemma add_supplier_run py_lower data d n :
  add_supplier py_lower data (Idle d n)
  = match fetchone
            (fun s => String.eqb (s_firstname s) (py_title (py_strip (si_firstname data)))
                      && String.eqb (s_lastname s) (py_title (py_strip (si_lastname data)))
                      && (String.eqb (s_contact_number s) (py_strip (si_contact_number data))
                          || String.eqb (s_email s) (py_lower (py_strip (si_email data)))))
            (suppliers d) with
    | Some _ => (Ok {| success := false; message := "Supplier already exists." |}, Idle d n)
    | None =>
        (Ok {| success := true; message := "Supplier added successfully." |},
         Idle (with_suppliers (insert
                 {| s_id := gen_id n;
                    s_firstname := py_title (py_strip (si_firstname data));
                    s_lastname := py_title (py_strip (si_lastname data));
                    s_contact_name := py_title (py_strip (si_contact_name data));
                    s_contact_number := py_strip (si_contact_number data);
                    s_email := py_lower (py_strip (si_email data));
                    s_address := py_strip (si_address data) |}) d) (S n))
    end.
Proof.
  unfold add_supplier, bind, query. change (view (Idle d n)) with d.
  now destruct (fetchone _ (suppliers d)).
Qed.

(** X6. [add_customer] never raises and never stores the same person twice:
    it either refuses ("Customer already exists.", nothing changes) or
    appends one row with the normalised fields, and in both cases a second
    call with the same data is refused and changes nothing. *)
Theorem x6_add_customer_refuses_duplicates py_lower data d n :
  exists r1 d1 n1,
    add_customer py_lower data (Idle d n) = (Ok r1, Idle d1 n1)
    /\ ((r1 = {| success := false; message := "Customer already exists." |}
         /\ d1 = d /\ n1 = n)
        \/ (r1 = {| success := true; message := "Customer added successfully." |}
            /\ n1 = S n
            /\ d1 = with_customers (insert
                 {| c_id := gen_id n;
                    c_firstname := py_title (py_strip (ci_firstname data));
                    c_lastname := py_title (py_strip (ci_lastname data));
                    c_contact_number := py_strip (ci_contact_number data);
                    c_email := py_lower (py_strip (ci_email data));
                    c_address := py_strip (ci_address data) |}) d))
    /\ add_customer py_lower data (Idle d1 n1)
       = (Ok {| success := false; message := "Customer already exists." |}, Idle d1 n1).
Proof.
  rewrite add_customer_run.
  destruct (fetchone _ (customers d)) as [c|] eqn:Hfind.
  - eexists _, d, n. split; [reflexivity|]. split; [now left|].
    now rewrite add_customer_run, Hfind.
  - eexists _, _, _. split; [reflexivity|]. split; [right; repeat split|].
    rewrite add_customer_run. unfold with_customers at 1, insert at 1. simpl customers.
    unfold fetchone in *. erewrite find_app_none_hit; [reflexivity | exact Hfind |].
    simpl. now rewrite !String.eqb_refl.
Qed.

(** X7. [add_supplier] likewise: it refuses ("Supplier already exists.") or
    appends one normalised row, and a second call with the same data is
    always refused and changes nothing. *)
Theorem x7_add_supplier_refuses_duplicates py_lower data d n :
  exists r1 d1 n1,
    add_supplier py_lower data (Idle d n) = (Ok r1, Idle d1 n1)
    /\ ((r1 = {| success := false; message := "Supplier already exists." |}
         /\ d1 = d /\ n1 = n)
        \/ (r1 = {| success := true; message := "Supplier added successfully." |}
            /\ n1 = S n
            /\ d1 = with_suppliers (insert
                 {| s_id := gen_id n;
                    s_firstname := py_title (py_strip (si_firstname data));
                    s_lastname := py_title (py_strip (si_lastname data));
                    s_contact_name := py_title (py_strip (si_contact_name data));
                    s_contact_number := py_strip (si_contact_number data);
                    s_email := py_lower (py_strip (si_email data));
                    s_address := py_strip (si_address data) |}) d))
    /\ add_supplier py_lower data (Idle d1 n1)
       = (Ok {| success := false; message := "Supplier already exists." |}, Idle d1 n1).
Proof.
  rewrite add_supplier_run.
  destruct (fetchone _ (suppliers d)) as [c|] eqn:Hfind.
  - eexists _, d, n. split; [reflexivity|]. split; [now left|].
    now rewrite add_supplier_run, Hfind.
  - eexists _, _, _. split; [reflexivity|]. split; [right; repeat split|].
    rewrite add_supplier_run. unfold with_suppliers at 1, insert at 1. simpl suppliers.
    unfold fetchone in *. erewrite find_app_none_hit; [reflexivity | exact Hfind |].
    simpl. now rewrite !String.eqb_refl.
Qed.

Lemma with_customers_same d l : l = customers d -> with_customers (fun _ => l) d = d.
Proof. intros ->. now destruct d. Qed.

Lemma with_suppliers_same d l : l = suppliers d -> with_suppliers (fun _ => l) d = d.
Proof. intros ->. now destruct d. Qed.

(** X8. Updating or deleting a customer or a supplier never fails and never
    reports an unknown identifier: when no row has the identifier the
    database is left exactly as it was.  An update keeps the identifiers and
    the order of the rows; a delete leaves no row with the identifier and is
    idempotent; both leave the rows of other identifiers untouched. *)
Theorem x8_contact_update_delete_silent_on_unknown_id py_lower id customer_data supplier_data d n :
  (exists d', update_customer py_lower id customer_data (Idle d n) = (Ok tt, Idle d' n)
     /\ map c_id (customers d') = map c_id (customers d)
     /\ filter (fun c => negb (String.eqb (c_id c) id)) (customers d')
        = filter (fun c => negb (String.eqb (c_id c) id)) (customers d)
     /\ (find (fun c => String.eqb (c_id c) id) (customers d) = None -> d' = d))
  /\ (exists d', delete_customer id (Idle d n) = (Ok tt, Idle d' n)
        /\ find (fun c => String.eqb (c_id c) id) (customers d') = None
        /\ customers d' = filter (fun c => negb (String.eqb (c_id c) id)) (customers d)
        /\ (find (fun c => String.eqb (c_id c) id) (customers d) = None -> d' = d)
        /\ delete_customer id (Idle d' n) = (Ok tt, Idle d' n))
  /\ (exists d', update_supplier py_lower id supplier_data (Idle d n) = (Ok tt, Idle d' n)
        /\ map s_id (suppliers d') = map s_id (suppliers d)
        /\ filter (fun s => negb (String.eqb (s_id s) id)) (suppliers d')
           = filter (fun s => negb (String.eqb (s_id s) id)) (suppliers d)
        /\ (find (fun s => String.eqb (s_id s) id) (suppliers d) = None -> d' = d))
  /\ (exists d', delete_supplier id (Idle d n) = (Ok tt, Idle d' n)
        /\ find (fun s => String.eqb (s_id s) id) (suppliers d') = None
        /\ suppliers d' = filter (fun s => negb (String.eqb (s_id s) id)) (suppliers d)
        /\ (find (fun s => String.eqb (s_id s) id) (suppliers d) = None -> d' = d)
        /\ delete_supplier id (Idle d' n) = (Ok tt, Idle d' n)).
Proof.
  split; [|split; [|split]].
  - eexists. split; [reflexivity|]. simpl. split; [|split].
    + unfold update_where. rewrite map_map. apply map_ext. intros c.
      now destruct (String.eqb (c_id c) id).
    + unfold update_where. induction (customers d) as [|x l IH]; [reflexivity|].
      simpl. destruct (String.eqb (c_id x) id) eqn:Hx; simpl; rewrite Hx; simpl;
        now rewrite IH.
    + intros Hnone. apply with_customers_same. now apply update_where_untouched.
  - eexists. split; [reflexivity|]. simpl. split; [|split; [|split]].
    + apply delete_where_gone.
    + reflexivity.
    + intros Hnone. apply with_customers_same. now apply delete_where_untouched.
    + unfold delete_customer, execute. f_equal. unfold apply_stmt, Idle. simpl. f_equal.
      unfold with_customers. simpl. f_equal.
      apply delete_where_untouched, delete_where_gone.
  - eexists. split; [reflexivity|]. simpl. split; [|split].
    + unfold update_where. rewrite map_map. apply map_ext. intros c.
      now destruct (String.eqb (s_id c) id).
    + unfold update_where. induction (suppliers d) as [|x l IH]; [reflexivity|].
      simpl. destruct (String.eqb (s_id x) id) eqn:Hx; simpl; rewrite Hx; simpl;
        now rewrite IH.
    + intros Hnone. apply with_suppliers_same. now apply update_where_untouched.
  - eexists. split; [reflexivity|]. simpl. split; [|split; [|split]].
    + apply delete_where_gone.
    + reflexivity.
    + intros Hnone. apply with_suppliers_same. now apply delete_where_untouched.
    + unfold delete_supplier, execute. f_equal. unfold apply_stmt, Idle. simpl. f_equal.
      unfold with_suppliers. simpl. f_equal.
      apply delete_where_untouched, delete_where_gone.
Qed.

(** ** Order fulfilment: the loops as functions *)

Lemma run_conn_view f j c : view (run_conn f j c) = f (view c).
Proof. unfold run_conn, view, apply_stmt. now destruct (active c). Qed.

Lemma run_conn_zero c : run_conn (fun d => d) 0 c = c.
Proof.
  unfold run_conn, apply_stmt. destruct c as [d [w|] k]; simpl; now rewrite Nat.add_0_r.
Qed.

Lemma run_conn_step f c : advance (apply_stmt f c) = run_conn f 1 c.
Proof.
  unfold run_conn, advance. simpl. rewrite id_counter_apply_stmt. f_equal. lia.
Qed.

Lemma run_conn_stmt f c : apply_stmt f c = run_conn f 0 c.
Proof.
  unfold run_conn. rewrite Nat.add_0_r. rewrite <- (id_counter_apply_stmt f c).
  now destruct (apply_stmt f c).
Qed.

Lemma run_conn_compose f g i j c :
  run_conn g j (run_conn f i c) = run_conn (fun d => g (f d)) (i + j) c.
Proof.
  unfold run_conn, apply_stmt. destruct (active c); simpl; f_equal; lia.
Qed.

Lemma run_conn_ext f g j c : f (view c) = g (view c) -> run_conn f j c = run_conn g j c.
Proof.
  unfold run_conn, view, apply_stmt. destruct (active c); simpl; now intros ->.
Qed.

Lemma precheck_run items_in : forall acc c,
  for_fold items_in acc (fun item material_requirements =>
    rows <- query (bom_join (ol_product_id item) (fun pm m i =>
      (pm_material_id pm, pm_used_quantity pm, m_current_stock m, i_item_name i,
       m_unit_measurement m))) ;;
    ret (fold_left (note_requirement (ol_quantity item)) rows material_requirements)) c
  = (Ok (requirements_from (view c) items_in acc), c).
Proof.
  induction items_in as [|line rest IH]; intros acc c; [reflexivity|].
  simpl. unfold bind at 1. unfold bind at 1, query, ret at 1. apply IH.
Qed.

Lemma material_by_id_update_stock material_id cond (f : material -> Z) d :
  material_by_id material_id
    (with_materials (update_where cond (fun m => set_current_stock (f m) m)) d)
  = option_map (fun m => if cond m then set_current_stock (f m) m else m)
      (material_by_id material_id d).
Proof.
  unfold material_by_id, fetchone, update_where. simpl.
  induction (materials d) as [|x l IH]; [reflexivity|].
  simpl. destruct (cond x) eqn:Hx; simpl; destruct (String.eqb (m_id x) material_id);
    simpl; try rewrite Hx; auto.
Qed.

Lemma supplier_of_consume_line material_id id s admin_id other amount d :
  supplier_of material_id (consume_line id s admin_id other amount d)
  = supplier_of material_id d.
Proof.
  unfold supplier_of, consume_line.
  rewrite (material_by_id_update_stock material_id
             (fun m => String.eqb (m_id m) other) (fun m => m_current_stock m - amount)).
  unfold material_by_id. simpl.
  destruct (fetchone _ (materials d)) as [m|]; [|reflexivity].
  simpl. now destruct (String.eqb (m_id m) other).
Qed.

Lemma consume_material_run admin_id quantity pm c s :
  supplier_of (pm_material_id pm) (view c) = Some s ->
  consume_material admin_id quantity pm c
  = (Ok tt, run_conn (consume_line (gen_id (id_counter c)) s admin_id (pm_material_id pm)
                        (pm_used_quantity pm * quantity)) 1 c).
Proof.
  unfold supplier_of. intros Hs.
  destruct (material_by_id (pm_material_id pm) (view c)) as [m|] eqn:Hm; [|discriminate].
  assert (H := consume_materials_single admin_id quantity pm c m s Hm Hs).
  unfold consume_materials in H. simpl in H. unfold bind in H.
  destruct (consume_material admin_id quantity pm c) as [[[]|e] c']; [|discriminate].
  unfold ret in H. rewrite H. now rewrite run_conn_step.
Qed.

Lemma consume_materials_run admin_id quantity rows : forall c,
  (forall pm, In pm rows -> supplier_of (pm_material_id pm) (view c) <> None) ->
  consume_materials admin_id quantity rows c
  = (Ok tt, run_conn (consume_rows admin_id quantity rows (id_counter c))
                     (List.length rows) c).
Proof.
  induction rows as [|pm rest IH]; intros c H.
  - simpl. unfold consume_materials. simpl. unfold ret. f_equal. symmetry.
    apply run_conn_zero.
  - unfold consume_materials. simpl for_each. unfold bind.
    destruct (supplier_of (pm_material_id pm) (view c)) as [s|] eqn:Hs;
      [|now elim (H pm (or_introl eq_refl))].
    rewrite (consume_material_run admin_id quantity pm c s Hs).
    fold (consume_materials admin_id quantity rest).
    rewrite IH.
    + f_equal. rewrite run_conn_compose. simpl List.length.
      apply run_conn_ext. simpl. rewrite Hs. now rewrite Nat.add_1_r.
    + intros pm' Hin. rewrite run_conn_view, supplier_of_consume_line.
      apply H. now right.
Qed.

(** The inner loop changes stock levels and appends to the ledger; the bill
    of materials, the products, the orders and the suppliers of the materials
    are as before. *)
Lemma consume_rows_static admin_id quantity rows : forall k d,
  product_materials (consume_rows admin_id quantity rows k d) = product_materials d
  /\ products (consume_rows admin_id quantity rows k d) = products d
  /\ order_items (consume_rows admin_id quantity rows k d) = order_items d
  /\ order_transactions (consume_rows admin_id quantity rows k d) = order_transactions d
  /\ customers (consume_rows admin_id quantity rows k d) = customers d
  /\ (forall material_id,
        supplier_of material_id (consume_rows admin_id quantity rows k d)
        = supplier_of material_id d).
Proof.
  induction rows as [|pm rest IH]; intros k d; simpl.
  - repeat split.
  - destruct (IH (S k)
                (consume_line (gen_id k)
                   (match supplier_of (pm_material_id pm) d with
                    | Some s => s | None => "" end)
                   admin_id (pm_material_id pm) (pm_used_quantity pm * quantity) d))
      as [H1 [H2 [H3 [H4 [H5 H6]]]]].
    rewrite H1, H2, H3, H4, H5. repeat split.
    intros material_id. rewrite H6. apply supplier_of_consume_line.
Qed.

Lemma process_order_item_run transaction_id admin_id line total c p :
  product_by_id (ol_product_id line) (view c) = Some p ->
  (forall pm, In pm (bom_of (ol_product_id line) (view c)) ->
     supplier_of (pm_material_id pm) (view c) <> None) ->
  process_order_item transaction_id admin_id line total c
  = (Ok (total + ol_quantity line * unit_price_of (ol_product_id line) (view c)),
     run_conn (fun d =>
       with_order_items (insert (order_item_of transaction_id (view c) line))
         (consume_rows admin_id (ol_quantity line) (bom_of (ol_product_id line) (view c))
            (id_counter c) d))
       (List.length (bom_of (ol_product_id line) (view c))) c).
Proof.
  intros Hp Hs. unfold process_order_item, unit_price_of, order_item_of.
  unfold bind at 1, query. rewrite Hp.
  unfold bind at 1. unfold bind at 1.
  rewrite (consume_materials_run admin_id (ol_quantity line) _ c Hs).
  unfold bind, execute, ret. f_equal.
  rewrite run_conn_stmt, run_conn_compose. f_equal. lia.
Qed.

Lemma process_order_items_run transaction_id admin_id items_in : forall c total,
  (forall line, In line items_in ->
     product_by_id (ol_product_id line) (view c) <> None
     /\ forall pm, In pm (bom_of (ol_product_id line) (view c)) ->
          supplier_of (pm_material_id pm) (view c) <> None) ->
  process_order_items transaction_id admin_id items_in total c
  = (Ok (total + order_total (view c) items_in),
     run_conn (process_lines transaction_id admin_id items_in (id_counter c))
              (List.length (order_rows (view c) items_in)) c).
Proof.
  unfold process_order_items.
  induction items_in as [|line rest IH]; intros c total H.
  - simpl. unfold ret, order_total. simpl. f_equal; [f_equal; lia|].
    symmetry. apply run_conn_zero.
  - destruct (H line (or_introl eq_refl)) as [Hprod Hsup].
    destruct (product_by_id (ol_product_id line) (view c)) as [p|] eqn:Hp; [|now elim Hprod].
    simpl for_fold. unfold bind.
    rewrite (process_order_item_run transaction_id admin_id line total c p Hp Hsup).
    set (rows := bom_of (ol_product_id line) (view c)).
    set (c1 := run_conn _ (List.length rows) c).
    assert (Hview : view c1
                    = with_order_items (insert (order_item_of transaction_id (view c) line))
                        (consume_rows admin_id (ol_quantity line) rows (id_counter c) (view c))).
    { unfold c1. apply run_conn_view. }
    destruct (consume_rows_static admin_id (ol_quantity line) rows (id_counter c) (view c))
      as [Hpm [Hpr [_ [_ [_ Hsuppl]]]]].
    assert (Hbom : forall product_id, bom_of product_id (view c1) = bom_of product_id (view c)).
    { intros product_id. rewrite Hview. unfold bom_of. simpl. now rewrite Hpm. }
    assert (Hprice : forall product_id,
              product_by_id product_id (view c1) = product_by_id product_id (view c)).
    { intros product_id. rewrite Hview. unfold product_by_id. simpl. now rewrite Hpr. }
    assert (Hsupp : forall material_id,
              supplier_of material_id (view c1) = supplier_of material_id (view c)).
    { intros material_id. rewrite Hview. rewrite <- Hsuppl. reflexivity. }
    rewrite IH.
    + f_equal.
      * f_equal. unfold order_total. simpl. unfold unit_price_of. 
        rewrite (map_ext _ (fun line0 => ol_quantity line0
                                          * match product_by_id (ol_product_id line0) (view c) with
                                            | Some p0 => p_unit_price p0 | None => 0 end)).
        -- lia.
        -- intros l. now rewrite Hprice.
      * unfold c1. rewrite run_conn_compose.
        assert (Hlen : List.length (order_rows (view c1) rest)
                       = List.length (order_rows (view c) rest)).
        { unfold order_rows. f_equal. apply flat_map_ext. intros l. apply Hbom. }
        unfold c1 in Hlen. rewrite Hlen.
        unfold order_rows at 2. simpl flat_map. rewrite length_app.
        fold (order_rows (view c) rest). fold rows.
        apply run_conn_ext. simpl process_lines. reflexivity.
    + intros l Hl. destruct (H l (or_intror Hl)) as [Hpl Hsl]. split.
      * now rewrite Hprice.
      * intros pm Hin. rewrite Hbom in Hin. rewrite Hsupp. now apply Hsl.
Qed.

(** With nothing lacking and every product and supplier resolving, the
    transaction of [create_order_transaction] commits [fulfilled]. *)
Lemma order_transaction_commits data customer_id d n :
  lacking_materials (requirements_from d (od_items data) []) = [] ->
  order_resolves d (od_items data) ->
  try_except (sql_begin ;; order_body data customer_id)
             (fun e => sql_rollback ;; raise e) (Idle d n)
  = (Ok {| or_transaction_id := gen_id n; or_message := "Order successfully placed." |},
     Idle (fulfilled data customer_id n d)
          (S n + List.length (order_rows d (od_items data)))).
Proof.
  intros Hlack Hres. unfold try_except, bind at 1. rewrite sql_begin_idle.
  unfold order_body, bind at 1, precheck. rewrite precheck_run.
  change (view {| committed := d; active := Some d; id_counter := n |}) with d.
  rewrite Hlack. unfold bind at 1, insert_returning_id.
  rewrite run_conn_step. simpl id_counter.
  set (c1 := run_conn _ 1 _).
  assert (Hview : view c1
                  = with_order_transactions (insert
                      {| ot_id := gen_id n; ot_customer_id := customer_id;
                         ot_status_id := od_status_id data; ot_admin_id := od_admin_id data;
                         ot_total_amount := 0 |}) d) by reflexivity.
  unfold bind at 1. rewrite process_order_items_run.
  - rewrite Hview.
    change (order_total (with_order_transactions _ d) (od_items data))
      with (order_total d (od_items data)).
    change (order_rows (with_order_transactions _ d) (od_items data))
      with (order_rows d (od_items data)).
    unfold bind, execute, con_commit, ret, c1, run_conn, apply_stmt, fulfilled, Idle. simpl.
    repeat f_equal; lia.
  - intros line Hl. rewrite Hview. exact (Hres line Hl).
Qed.

(** ** Order fulfilment: what a fulfilled order leaves in the tables *)

Lemma set_current_stock_same m : set_current_stock (m_current_stock m) m = m.
Proof. now destruct m. Qed.

Lemma set_current_stock_twice a b m :
  set_current_stock b (set_current_stock a m) = set_current_stock b m.
Proof. reflexivity. Qed.

Lemma consume_rows_materials admin_id quantity rows : forall k d,
  materials (consume_rows admin_id quantity rows k d)
  = map (fun m => set_current_stock
                    (m_current_stock m
                     - zsum (map (fun pm => pm_used_quantity pm * quantity)
                                 (filter (fun pm => String.eqb (pm_material_id pm) (m_id m)) rows)))
                    m)
        (materials d).
Proof.
  induction rows as [|pm rest IH]; intros k d.
  - simpl. rewrite <- (map_id (materials d)) at 1. apply map_ext. intros m.
    rewrite Z.sub_0_r. symmetry. apply set_current_stock_same.
  - simpl consume_rows. rewrite IH. unfold consume_line. simpl materials.
    unfold update_where. rewrite map_map. apply map_ext. intros m. simpl filter.
    destruct (String.eqb_spec (m_id m) (pm_material_id pm)) as [Heq|Hne].
    + simpl m_id. rewrite Heq, String.eqb_refl. simpl. unfold set_current_stock. simpl.
      f_equal. lia.
    + destruct (String.eqb_spec (pm_material_id pm) (m_id m)) as [Heq|_];
        [now symmetry in Heq | reflexivity].
Qed.

Lemma ledger_grown_refl d : ledger_grown d d [].
Proof.
  exists [], []. rewrite !app_nil_r. repeat split; constructor.
Qed.

Lemma ledger_grown_trans d1 d2 d3 dem1 dem2 :
  ledger_grown d1 d2 dem1 -> ledger_grown d2 d3 dem2 -> ledger_grown d1 d3 (dem1 ++ dem2).
Proof.
  intros [h1 [e1 [Ha [Hb [Hc [Hd He]]]]]] [h2 [e2 [Ha' [Hb' [Hc' [Hd' He']]]]]].
  exists (h1 ++ h2)%list, (e1 ++ e2)%list.
  rewrite Ha', Ha, Hb', Hb, <- !app_assoc, !map_app, Hc, Hc', Hd, Hd'.
  repeat split. now apply Forall_app.
Qed.

Lemma ledger_grown_ext d1 d2 d2' dem :
  stock_transactions d2' = stock_transactions d2 ->
  stock_transaction_items d2' = stock_transaction_items d2 ->
  ledger_grown d1 d2 dem -> ledger_grown d1 d2' dem.
Proof.
  intros H1 H2 [h [e H]]. exists h, e. now rewrite H1, H2.
Qed.

Lemma ledger_grown_ext_left d1 d1' d2 dem :
  stock_transactions d1' = stock_transactions d1 ->
  stock_transaction_items d1' = stock_transaction_items d1 ->
  ledger_grown d1 d2 dem -> ledger_grown d1' d2 dem.
Proof.
  intros H1 H2 [h [e H]]. exists h, e. now rewrite H1, H2.
Qed.

Lemma ledger_grown_consume_line id s admin_id material_id amount d :
  ledger_grown d (consume_line id s admin_id material_id amount d) [(material_id, amount)].
Proof.
  eexists [_], [_]. unfold consume_line, insert. simpl.
  repeat split. constructor; [now split | constructor].
Qed.

Lemma consume_rows_ledger admin_id quantity rows : forall k d,
  ledger_grown d (consume_rows admin_id quantity rows k d)
    (map (fun pm => (pm_material_id pm, pm_used_quantity pm * quantity)) rows).
Proof.
  induction rows as [|pm rest IH]; intros k d.
  - apply ledger_grown_refl.
  - simpl consume_rows. simpl map.
    change ((pm_material_id pm, pm_used_quantity pm * quantity)
            :: map (fun pm0 => (pm_material_id pm0, pm_used_quantity pm0 * quantity)) rest)
      with ([(pm_material_id pm, pm_used_quantity pm * quantity)]
            ++ map (fun pm0 => (pm_material_id pm0, pm_used_quantity pm0 * quantity)) rest)%list.
    eapply ledger_grown_trans; [apply ledger_grown_consume_line | apply IH].
Qed.

Lemma bom_of_ext d d' product_id :
  product_materials d' = product_materials d -> bom_of product_id d' = bom_of product_id d.
Proof. unfold bom_of. now intros ->. Qed.

Lemma aggregated_needed_ext d d' items_in material_id :
  product_materials d' = product_materials d ->
  aggregated_needed d' items_in material_id = aggregated_needed d items_in material_id.
Proof.
  intros H. unfold aggregated_needed. f_equal. apply flat_map_ext. intros line.
  now rewrite (bom_of_ext d d' _ H).
Qed.

Lemma order_demand_ext d d' items_in :
  product_materials d' = product_materials d ->
  order_demand d' items_in = order_demand d items_in.
Proof.
  intros H. unfold order_demand. apply flat_map_ext. intros line.
  now rewrite (bom_of_ext d d' _ H).
Qed.

Lemma order_item_of_ext transaction_id d d' line :
  products d' = products d ->
  order_item_of transaction_id d' line = order_item_of transaction_id d line.
Proof. unfold order_item_of, product_by_id. now intros ->. Qed.

Lemma process_lines_tables transaction_id admin_id items_in : forall k d,
  product_materials (process_lines transaction_id admin_id items_in k d) = product_materials d
  /\ products (process_lines transaction_id admin_id items_in k d) = products d
  /\ order_transactions (process_lines transaction_id admin_id items_in k d)
     = order_transactions d
  /\ customers (process_lines transaction_id admin_id items_in k d) = customers d
  /\ order_items (process_lines transaction_id admin_id items_in k d)
     = (order_items d ++ map (order_item_of transaction_id d) items_in)%list
  /\ materials (process_lines transaction_id admin_id items_in k d)
     = map (fun m => set_current_stock
                       (m_current_stock m - aggregated_needed d items_in (m_id m)) m)
           (materials d)
  /\ ledger_grown d (process_lines transaction_id admin_id items_in k d)
       (order_demand d items_in).
Proof.
  induction items_in as [|line rest IH]; intros k d.
  - simpl. rewrite app_nil_r. repeat split; [|apply ledger_grown_refl].
    rewrite <- (map_id (materials d)) at 1. apply map_ext. intros m.
    unfold aggregated_needed. simpl. rewrite Z.sub_0_r. symmetry.
    apply set_current_stock_same.
  - simpl process_lines.
    set (rows := bom_of (ol_product_id line) d).
    set (d0 := consume_rows admin_id (ol_quantity line) rows k d).
    set (d1 := with_order_items (insert (order_item_of transaction_id d line)) d0).
    destruct (consume_rows_static admin_id (ol_quantity line) rows k d)
      as [Hpm [Hpr [Hoi [Hot [Hcu _]]]]]. fold d0 in Hpm, Hpr, Hoi, Hot, Hcu.
    assert (Hpm1 : product_materials d1 = product_materials d) by exact Hpm.
    assert (Hpr1 : products d1 = products d) by exact Hpr.
    destruct (IH (k + List.length rows)%nat d1) as [H1 [H2 [H3 [H4 [H5 [H6 H7]]]]]].
    rewrite H1, H2, H3, H4, H5, H6.
    split; [exact Hpm1|]. split; [exact Hpr1|]. split; [exact Hot|]. split; [exact Hcu|].
    split; [|split].
    + simpl order_items. rewrite Hoi. unfold insert. rewrite <- app_assoc. simpl.
      f_equal. f_equal. apply map_ext. intros l. now apply order_item_of_ext.
    + simpl materials. unfold d0. rewrite consume_rows_materials, map_map.
      apply map_ext. intros m. simpl m_id. rewrite set_current_stock_twice. simpl.
      rewrite (aggregated_needed_ext d d1 rest (m_id m) Hpm1).
      unfold aggregated_needed at 2. simpl flat_map. rewrite zsum_app.
      fold (aggregated_needed d rest (m_id m)). fold rows.
      f_equal. lia.
    + unfold order_demand. simpl flat_map. fold (order_demand d rest). fold rows.
      eapply ledger_grown_trans.
      * apply (ledger_grown_ext d d0 d1); [reflexivity | reflexivity |].
        apply consume_rows_ledger.
      * rewrite <- (order_demand_ext d d1 rest Hpm1). exact H7.
Qed.

Lemma fulfilled_tables data customer_id n d :
  materials (fulfilled data customer_id n d)
  = map (fun m => set_current_stock
                    (m_current_stock m - aggregated_needed d (od_items data) (m_id m)) m)
        (materials d)
  /\ ledger_grown d (fulfilled data customer_id n d) (order_demand d (od_items data))
  /\ order_items (fulfilled data customer_id n d)
     = (order_items d ++ map (order_item_of (gen_id n) d) (od_items data))%list
  /\ In {| ot_id := gen_id n; ot_customer_id := customer_id;
           ot_status_id := od_status_id data; ot_admin_id := od_admin_id data;
           ot_total_amount := order_total d (od_items data) |}
        (order_transactions (fulfilled data customer_id n d))
  /\ product_materials (fulfilled data customer_id n d) = product_materials d
  /\ products (fulfilled data customer_id n d) = products d
  /\ customers (fulfilled data customer_id n d) = customers d.
Proof.
  unfold fulfilled.
  set (d1 := with_order_transactions _ d).
  destruct (process_lines_tables (gen_id n) (od_admin_id data) (od_items data) (S n) d1)
    as [H1 [H2 [H3 [H4 [H5 [H6 H7]]]]]].
  simpl. rewrite H1, H2, H3, H4, H5, H6. repeat split.
  - apply (ledger_grown_ext d
             (process_lines (gen_id n) (od_admin_id data) (od_items data) (S n) d1));
      [reflexivity | reflexivity |].
    apply (ledger_grown_ext_left d1 d); [reflexivity | reflexivity |]. exact H7.
  - unfold update_where. apply in_map_iff.
    exists {| ot_id := gen_id n; ot_customer_id := customer_id;
              ot_status_id := od_status_id data; ot_admin_id := od_admin_id data;
              ot_total_amount := 0 |}.
    simpl. rewrite String.eqb_refl. split; [reflexivity|].
    unfold insert. apply in_or_app. right. now left.
Qed.

(** X9. A fulfilled order deducts the whole demand.  For a known customer,
    when the pre-check finds nothing lacking, every ordered product exists
    and every material of its BOM has a supplier, [create_order_transaction]
    returns the new order's identifier with no transaction left open; the
    [current_stock] of every material has gone down by the aggregated demand
    of the order for it; the ledger has grown by one consumption header and
    one item per order line and BOM row, with [used_quantity * quantity];
    one order item per line is stored at the product's price; and the order
    header carries the customer, the status, the admin and the sum of
    [quantity * unit_price]. *)
Theorem x9_fulfilled_order_deducts_aggregated_demand data customer_id d n :
  truthy_id (od_customer_id data) = Some customer_id ->
  lacking_materials (requirements_from d (od_items data) []) = [] ->
  order_resolves d (od_items data) ->
  exists c',
    create_order_transaction data (Idle d n)
    = (Ok {| or_transaction_id := gen_id n; or_message := "Order successfully placed." |}, c')
    /\ active c' = None
    /\ materials (committed c')
       = map (fun m => set_current_stock
                         (m_current_stock m - aggregated_needed d (od_items data) (m_id m)) m)
             (materials d)
    /\ ledger_grown d (committed c') (order_demand d (od_items data))
    /\ order_items (committed c')
       = (order_items d ++ map (order_item_of (gen_id n) d) (od_items data))%list
    /\ In {| ot_id := gen_id n; ot_customer_id := customer_id;
             ot_status_id := od_status_id data; ot_admin_id := od_admin_id data;
             ot_total_amount := order_total d (od_items data) |}
          (order_transactions (committed c'))
    /\ product_materials (committed c') = product_materials d
    /\ products (committed c') = products d
    /\ customers (committed c') = customers d.
Proof.
  intros Hcust Hlack Hres.
  unfold create_order_transaction, bind at 1.
  rewrite (resolve_customer_given data _ customer_id Hcust).
  rewrite (order_transaction_commits data customer_id d n Hlack Hres).
  eexists. split; [reflexivity|]. split; [reflexivity|]. simpl committed.
  apply fulfilled_tables.
Qed.

(** X10. A walk-in order creates its customer and links the order to it.
    With no [customer_id] but customer data, nothing lacking and everything
    resolving, the call appends one customer row with the normalised fields
    and the first generated identifier, and the order header it commits has
    that identifier as [customer_id]; stock and ledger move as for a known
    customer. *)
Theorem x10_walk_in_order_links_new_customer data customer_data d n :
  truthy_id (od_customer_id data) = None ->
  od_customer data = Some customer_data ->
  lacking_materials (requirements_from d (od_items data) []) = [] ->
  order_resolves d (od_items data) ->
  exists c',
    create_order_transaction data (Idle d n)
    = (Ok {| or_transaction_id := gen_id (S n);
             or_message := "Order successfully placed." |}, c')
    /\ active c' = None
    /\ customers (committed c')
       = (customers d
          ++ [{| c_id := gen_id n;
                 c_firstname := py_title (py_strip (ci_firstname customer_data));
                 c_lastname := py_title (py_strip (ci_lastname customer_data));
                 c_contact_number := py_strip (ci_contact_number customer_data);
                 c_email := py_strip (ci_email customer_data);
                 c_address := py_title (py_strip (ci_address customer_data)) |}])%list
    /\ In {| ot_id := gen_id (S n); ot_customer_id := gen_id n;
             ot_status_id := od_status_id data; ot_admin_id := od_admin_id data;
             ot_total_amount := order_total d (od_items data) |}
          (order_transactions (committed c'))
    /\ materials (committed c')
       = map (fun m => set_current_stock
                         (m_current_stock m - aggregated_needed d (od_items data) (m_id m)) m)
             (materials d).
Proof.
  intros Hnone Hdata Hlack Hres.
  unfold create_order_transaction, bind at 1, resolve_customer.
  rewrite Hnone, Hdata. unfold insert_returning_id.
  match goal with
  | |- context [advance (apply_stmt ?f (Idle d n))] =>
      change (advance (apply_stmt f (Idle d n))) with (Idle (f d) (S n));
      set (d0 := f d)
  end.
  change (id_counter (Idle d n)) with n.
  rewrite (order_transaction_commits data (gen_id n) d0 (S n)); [|exact Hlack | exact Hres].
  eexists. split; [reflexivity|]. split; [reflexivity|]. simpl committed.
  destruct (fulfilled_tables data (gen_id n) (S n) d0) as [Hm [_ [_ [Hin [_ [_ Hc]]]]]].
  rewrite Hc, Hm. repeat split. exact Hin.
Qed.

(** ** Order fulfilment: the ways an order fails *)

Lemma for_fold_app {X S} (xs ys : list X) (body : X -> S -> M S) : forall acc c,
  for_fold (xs ++ ys) acc body c
  = match for_fold xs acc body c with
    | (Ok acc', c') => for_fold ys acc' body c'
    | (Raise e, c') => (Raise e, c')
    end.
Proof.
  induction xs as [|x xs IH]; intros acc c; simpl; [reflexivity|].
  unfold bind. destruct (body x acc c) as [[acc'|e] c1]; [apply IH | reflexivity].
Qed.

Lemma in_transaction_run_conn d0 f j c :
  in_transaction d0 c -> in_transaction d0 (run_conn f j c).
Proof.
  unfold in_transaction, run_conn, apply_stmt. intros [Hc Ha].
  destruct (active c); simpl; [split; [assumption | discriminate] | contradiction].
Qed.

Lemma process_lines_supplier_of transaction_id admin_id items_in : forall k d material_id,
  supplier_of material_id (process_lines transaction_id admin_id items_in k d)
  = supplier_of material_id d.
Proof.
  induction items_in as [|line rest IH]; intros k d material_id; [reflexivity|].
  simpl process_lines. rewrite IH.
  destruct (consume_rows_static admin_id (ol_quantity line)
              (bom_of (ol_product_id line) d) k d) as [_ [_ [_ [_ [_ H]]]]].
  rewrite <- (H material_id). reflexivity.
Qed.

(** The connection after [BEGIN], the header and the lines [before]. *)
Lemma order_lines_before data customer_id d n before :
  order_resolves d before ->
  let c0 := {| committed := d; active := Some d; id_counter := n |} in
  let c1 := run_conn (with_order_transactions (insert
              {| ot_id := gen_id n; ot_customer_id := customer_id;
                 ot_status_id := od_status_id data; ot_admin_id := od_admin_id data;
                 ot_total_amount := 0 |})) 1 c0 in
  exists total c2,
    process_order_items (gen_id n) (od_admin_id data) before 0 c1 = (Ok total, c2)
    /\ in_transaction d c2
    /\ id_counter c2 = (S n + List.length (order_rows d before))%nat
    /\ products (view c2) = products d
    /\ product_materials (view c2) = product_materials d
    /\ (forall material_id, supplier_of material_id (view c2) = supplier_of material_id d).
Proof.
  intros Hres c0 c1.
  assert (Hview : view c1 = with_order_transactions (insert
              {| ot_id := gen_id n; ot_customer_id := customer_id;
                 ot_status_id := od_status_id data; ot_admin_id := od_admin_id data;
                 ot_total_amount := 0 |}) d) by reflexivity.
  eexists _, _. split.
  { apply process_order_items_run. intros line Hl. rewrite Hview. exact (Hres line Hl). }
  rewrite run_conn_view, Hview.
  destruct (process_lines_tables (gen_id n) (od_admin_id data) before (id_counter c1)
              (with_order_transactions (insert
                 {| ot_id := gen_id n; ot_customer_id := customer_id;
                    ot_status_id := od_status_id data; ot_admin_id := od_admin_id data;
                    ot_total_amount := 0 |}) d)) as [H1 [H2 _]].
  split; [|split; [|split; [exact H2 | split; [exact H1|]]]].
  - apply in_transaction_run_conn. unfold c1. apply in_transaction_run_conn.
    split; [reflexivity | discriminate].
  - simpl. change (order_rows (with_order_transactions _ d) before) with (order_rows d before).
    lia.
  - intros material_id. now rewrite process_lines_supplier_of.
Qed.

Lemma order_rejected data customer_id d n :
  lacking_materials (requirements_from d (od_items data) []) <> [] ->
  try_except (sql_begin ;; order_body data customer_id)
             (fun e => sql_rollback ;; raise e) (Idle d n)
  = (Raise (HTTPException 400
              (formatted_message (lacking_materials (requirements_from d (od_items data) [])))),
     Idle d n).
Proof.
  intros Hlack. unfold try_except, bind at 1. rewrite sql_begin_idle.
  unfold order_body, bind at 1, precheck. rewrite precheck_run.
  change (view {| committed := d; active := Some d; id_counter := n |}) with d.
  destruct (lacking_materials (requirements_from d (od_items data) [])) as [|l ls];
    [now elim Hlack | reflexivity].
Qed.

Lemma order_apply_raises data customer_id d n e c2 :
  lacking_materials (requirements_from d (od_items data) []) = [] ->
  process_order_items (gen_id n) (od_admin_id data) (od_items data) 0
    (run_conn (with_order_transactions (insert
       {| ot_id := gen_id n; ot_customer_id := customer_id;
          ot_status_id := od_status_id data; ot_admin_id := od_admin_id data;
          ot_total_amount := 0 |})) 1
       {| committed := d; active := Some d; id_counter := n |})
  = (Raise e, c2) ->
  in_transaction d c2 ->
  try_except (sql_begin ;; order_body data customer_id)
             (fun e => sql_rollback ;; raise e) (Idle d n)
  = (Raise e, Idle d (id_counter c2)).
Proof.
  intros Hlack Hrun Htxn. unfold try_except, bind at 1. rewrite sql_begin_idle.
  unfold order_body, bind at 1, precheck. rewrite precheck_run.
  change (view {| committed := d; active := Some d; id_counter := n |}) with d.
  rewrite Hlack. unfold bind at 1, insert_returning_id. rewrite run_conn_step.
  simpl id_counter. unfold bind at 1. rewrite Hrun.
  unfold bind. now rewrite (sql_rollback_in_transaction d c2 Htxn).
Qed.

(** X11. The ways [create_order_transaction] refuses an order, each leaving
    the committed database as it was.  Without [customer_id] and customer
    data it raises [ValueError] before anything else.  For a known customer:
    when the pre-check finds an entry lacking it raises [HTTPException] 400
    whose detail lists every lacking entry; when nothing is lacking and the
    first line that does not resolve names an unknown product it raises
    [ValueError] "Product ID ... not found."; when that line's product
    exists and the first material of its BOM without a supplier is reached
    it raises [ValueError] "No supplier found for material ID ...".  In the
    last two cases the header and the ledger rows already written for the
    earlier lines are rolled back. *)
Theorem x11_order_refusals_leave_database_unchanged data d n :
  (truthy_id (od_customer_id data) = None -> od_customer data = None ->
     create_order_transaction data (Idle d n)
     = (Raise (ValueError "Either customer_id or customer data must be provided."), Idle d n))
  /\ (forall customer_id, truthy_id (od_customer_id data) = Some customer_id ->
        (lacking_materials (requirements_from d (od_items data) []) <> [] ->
           create_order_transaction data (Idle d n)
           = (Raise (HTTPException 400
                       (formatted_message
                          (lacking_materials (requirements_from d (od_items data) [])))),
              Idle d n))
        /\ (forall before line after,
              lacking_materials (requirements_from d (od_items data) []) = [] ->
              od_items data = (before ++ line :: after)%list ->
              order_resolves d before ->
              (product_by_id (ol_product_id line) d = None ->
                 exists n',
                   create_order_transaction data (Idle d n)
                   = (Raise (ValueError ("Product ID " ++ ol_product_id line ++ " not found.")),
                      Idle d n'))
              /\ (forall rows_before pm rows_after,
                    product_by_id (ol_product_id line) d <> None ->
                    bom_of (ol_product_id line) d = (rows_before ++ pm :: rows_after)%list ->
                    (forall r, In r rows_before -> supplier_of (pm_material_id r) d <> None) ->
                    supplier_of (pm_material_id pm) d = None ->
                    exists n',
                      create_order_transaction data (Idle d n)
                      = (Raise (ValueError ("No supplier found for material ID "
                                            ++ pm_material_id pm ++ ".")),
                         Idle d n')))).
Proof.
  split.
  { intros Hnone Hdata. unfold create_order_transaction, bind, resolve_customer.
    now rewrite Hnone, Hdata. }
  intros customer_id Hcust.
  assert (Hstart : create_order_transaction data (Idle d n)
                   = try_except (sql_begin ;; order_body data customer_id)
                       (fun e => sql_rollback ;; raise e) (Idle d n)).
  { unfold create_order_transaction, bind at 1.
    now rewrite (resolve_customer_given data _ customer_id Hcust). }
  rewrite Hstart. clear Hstart.
  split; [apply order_rejected|].
  intros before line after Hlack Hitems Hres.
  destruct (order_lines_before data customer_id d n before Hres)
    as [total [c2 [Hrun [Htxn [Hcount [Hprod [Hpm Hsup]]]]]]].
  split.
  - intros Hnone. exists (id_counter c2).
    apply (order_apply_raises data customer_id d n _ c2 Hlack); [|exact Htxn].
    unfold process_order_items in *. rewrite Hitems, for_fold_app, Hrun.
    simpl for_fold. unfold bind at 1.
    unfold process_order_item at 1. unfold bind at 1, query.
    unfold product_by_id in *. now rewrite Hprod, Hnone.
  - intros rows_before pm rows_after Hsome Hbom Hbefore Hnone.
    destruct (product_by_id (ol_product_id line) d) as [p|] eqn:Hp; [|now elim Hsome].
    assert (Hp2 : product_by_id (ol_product_id line) (view c2) = Some p).
    { unfold product_by_id in *. now rewrite Hprod. }
    assert (Hbom2 : bom_of (ol_product_id line) (view c2)
                    = (rows_before ++ pm :: rows_after)%list).
    { rewrite <- Hbom. now apply bom_of_ext. }
    set (c3 := run_conn (consume_rows (od_admin_id data) (ol_quantity line) rows_before
                           (id_counter c2)) (List.length rows_before) c2).
    assert (Hsup3 : supplier_of (pm_material_id pm) (view c3) = None).
    { unfold c3. rewrite run_conn_view.
      destruct (consume_rows_static (od_admin_id data) (ol_quantity line) rows_before
                  (id_counter c2) (view c2)) as [_ [_ [_ [_ [_ H]]]]].
      now rewrite H, Hsup. }
    assert (Hraise : consume_material (od_admin_id data) (ol_quantity line) pm c3
                     = (Raise (ValueError ("No supplier found for material ID "
                                           ++ pm_material_id pm ++ ".")), c3)).
    { unfold consume_material, bind, query. unfold supplier_of in Hsup3.
      destruct (material_by_id (pm_material_id pm) (view c3)) as [m|]; [|reflexivity].
      now rewrite Hsup3. }
    exists (id_counter c3).
    apply (order_apply_raises data customer_id d n _ c3 Hlack);
      [|exact (in_transaction_run_conn d _ _ c2 Htxn)].
    unfold process_order_items in *. rewrite Hitems, for_fold_app, Hrun.
    simpl for_fold. unfold bind at 1.
    unfold process_order_item at 1. unfold bind at 1, query. rewrite Hp2.
    unfold bind at 1. unfold bind at 1. rewrite Hbom2.
    unfold consume_materials. rewrite for_each_app.
    fold (consume_materials (od_admin_id data) (ol_quantity line) rows_before).
    rewrite consume_materials_run
      by (intros r Hr; rewrite Hsup; now apply Hbefore).
    fold c3. simpl for_each. unfold bind at 1. now rewrite Hraise.
Qed.

(** ** Stock receiving: the supplier and the refusals *)

(** X13. The refusals of [stock_materials] that concern the supplier and the
    stock type.  Without a supplier identifier and without supplier details
    it raises; with details whose contact name, stripped and title-cased,
    equals that of a supplier row up to [LOWER], it raises and adds no row;
    with no stock type given and no type of code ['STT001'] in the table it
    raises.  With details of a new supplier and no actor at all it raises
    after the supplier row was inserted, and the rollback takes that row
    away again: only the identifier drawn for it is used up.  In each case
    the committed database is the one before the call and no transaction is
    left open. *)
Theorem x13_stock_materials_refusals_restore_the_database data d n :
  (truthy_id (sd_supplier_id data) = None -> sd_supplier data = None ->
     stock_materials data (Idle d n)
     = (Raise (ValueError "Either supplier_id or supplier details must be provided."),
        Idle d n))
  /\ (forall supplier existing,
        truthy_id (sd_supplier_id data) = None -> sd_supplier data = Some supplier ->
        fetchone (fun s => String.eqb (sql_lower (s_contact_name s))
                             (sql_lower (py_title (py_strip (si_contact_name supplier)))))
                 (suppliers d) = Some existing ->
        stock_materials data (Idle d n)
        = (Raise (ValueError ("Supplier with contact name '"
                              ++ py_title (py_strip (si_contact_name supplier))
                              ++ "' already exists.")),
           Idle d n))
  /\ (forall supplier_id,
        truthy_id (sd_supplier_id data) = Some supplier_id ->
        recorded_stock_type data d = None ->
        stock_materials data (Idle d n)
        = (Raise (ValueError "Stock type 'STT001' not found in stock_types table."),
           Idle d n))
  /\ (forall supplier stock_type_id,
        truthy_id (sd_supplier_id data) = None -> sd_supplier data = Some supplier ->
        fetchone (fun s => String.eqb (sql_lower (s_contact_name s))
                             (sql_lower (py_title (py_strip (si_contact_name supplier)))))
                 (suppliers d) = None ->
        recorded_stock_type data d = Some stock_type_id ->
        truthy_id (sd_admin_id data) = None -> truthy_id (sd_employee_id data) = None ->
        stock_materials data (Idle d n)
        = (Raise (ValueError "Either admin_id or employee_id must be provided."),
           Idle d (S n))).
Proof.
  split; [|split; [|split]].
  - intros Hid Hsup.
    unfold stock_materials, try_except, bind at 1. rewrite sql_begin_idle.
    unfold stock_body, bind at 1, resolve_supplier. now rewrite Hid, Hsup.
  - intros supplier existing Hid Hsup Hex.
    unfold stock_materials, try_except, bind at 1. rewrite sql_begin_idle.
    unfold stock_body, bind at 1, resolve_supplier. rewrite Hid, Hsup.
    unfold bind at 1, query.
    change (view {| committed := d; active := Some d; id_counter := n |}) with d.
    now rewrite Hex.
  - intros supplier_id Hid Hty.
    unfold stock_materials, try_except, bind at 1. rewrite sql_begin_idle.
    unfold stock_body, bind at 1.
    rewrite (resolve_supplier_given data _ supplier_id Hid).
    unfold bind at 1, resolve_stock_type.
    unfold recorded_stock_type in Hty.
    destruct (truthy_id (sd_stock_type_id data)) as [given|]; [discriminate|].
    unfold bind at 1, query.
    change (view {| committed := d; active := Some d; id_counter := n |}) with d.
    destruct (fetchone _ (stock_types d)); [discriminate | reflexivity].
  - intros supplier stock_type_id Hid Hsup Hex Hty Ha He.
    unfold stock_materials, try_except, bind at 1. rewrite sql_begin_idle.
    unfold stock_body, bind at 1, resolve_supplier. rewrite Hid, Hsup.
    unfold bind at 1, query.
    change (view {| committed := d; active := Some d; id_counter := n |}) with d.
    rewrite Hex. unfold insert_returning_id.
    unfold bind at 1.
    match goal with
    | |- context [resolve_stock_type data ?c] =>
        rewrite (resolve_stock_type_run data c stock_type_id Hty)
    end.
    unfold bind at 1. rewrite Ha, He. reflexivity.
Qed.

(** X14. A receipt that brings its own supplier.  With supplier details
    whose contact name matches no supplier row, the stock type resolved and
    an actor present, [stock_materials] succeeds: the supplier row, with
    its names and address stripped and title-cased and its number and email
    stripped, the ledger header that points to it, the ledger items and the
    increments are committed together, and the reply carries the identifier
    of the header, drawn after that of the supplier. *)
Theorem x14_receipt_creates_its_supplier data supplier stock_type_id d n :
  truthy_id (sd_supplier_id data) = None -> sd_supplier data = Some supplier ->
  fetchone (fun s => String.eqb (sql_lower (s_contact_name s))
                       (sql_lower (py_title (py_strip (si_contact_name supplier)))))
           (suppliers d) = None ->
  recorded_stock_type data d = Some stock_type_id ->
  negb (is_some (truthy_id (sd_admin_id data)))
    && negb (is_some (truthy_id (sd_employee_id data))) = false ->
  exists d',
    stock_materials data (Idle d n)
    = (Ok {| sr_transaction_id := gen_id (S n);
             sr_message := "Materials successfully stocked." |},
       Idle d' (S (S n)))
    /\ suppliers d'
       = (suppliers d
          ++ [{| s_id := gen_id n;
                 s_firstname := py_title (py_strip (si_firstname supplier));
                 s_lastname := py_title (py_strip (si_lastname supplier));
                 s_contact_name := py_title (py_strip (si_contact_name supplier));
                 s_contact_number := py_strip (si_contact_number supplier);
                 s_email := py_strip (si_email supplier);
                 s_address := py_title (py_strip (si_address supplier)) |}])%list
    /\ stock_transactions d'
       = (stock_transactions d
          ++ [{| st_id := gen_id (S n); st_stock_type_id := stock_type_id;
                 st_supplier_id := gen_id n; st_admin_id := sd_admin_id data;
                 st_employee_id := sd_employee_id data |}])%list
    /\ stock_transaction_items d'
       = (stock_transaction_items d
          ++ map (fun item => {| sti_stock_transaction_id := gen_id (S n);
                                 sti_material_id := sl_material_id item;
                                 sti_quantity := sl_quantity item |}) (sd_items data))%list
    /\ materials d'
       = map (fun m => set_current_stock
                         (m_current_stock m + received_quantity (m_id m) (sd_items data)) m)
             (materials d)
    /\ product_materials d' = product_materials d /\ products d' = products d
    /\ customers d' = customers d /\ order_transactions d' = order_transactions d
    /\ order_items d' = order_items d.
Proof.
  intros Hid Hsup Hex Hty Hactor.
  unfold stock_materials, try_except, bind at 1. rewrite sql_begin_idle.
  unfold stock_body, bind at 1, resolve_supplier. rewrite Hid, Hsup.
  unfold bind at 1, query.
  change (view {| committed := d; active := Some d; id_counter := n |}) with d.
  rewrite Hex. unfold insert_returning_id at 1.
  unfold bind at 1.
  match goal with
  | |- context [resolve_stock_type data ?c] =>
      rewrite (resolve_stock_type_run data c stock_type_id Hty)
  end.
  unfold bind at 1. rewrite Hactor.
  unfold ret at 1. unfold bind at 1. unfold insert_returning_id.
  unfold bind at 1. rewrite receive_lines_run.
  eexists. split; [reflexivity|].
  rewrite receive_items_table, receive_headers_table, receive_materials_table.
  simpl. repeat split.
  all: induction (sd_items data) as [|item rest IH] using rev_ind;
    [reflexivity | rewrite fold_left_app; simpl; exact IH].
Qed.

(** ** Failures, whatever their cause *)

(** X15. Whenever [stock_materials] raises, for whatever reason, the
    committed database is the one before the call and no transaction is
    left open; whenever [create_order_transaction] raises, the same holds
    up to the one customer row it inserts before [BEGIN] when it is given
    customer data instead of a customer identifier. *)
Theorem x15_failed_calls_commit_nothing_after_begin d n :
  (forall data e c',
     stock_materials data (Idle d n) = (Raise e, c') -> exists n', c' = Idle d n')
  /\ (forall data e c',
        create_order_transaction data (Idle d n) = (Raise e, c') ->
        exists n',
          (c' = Idle d n')
          \/ (truthy_id (od_customer_id data) = None
              /\ exists row, c' = Idle (with_customers (insert row) d) n')).
Proof.
  split.
  - intros data e c'. apply stock_materials_failure_restores.
  - intros data e c'. apply create_order_transaction_failure_keeps_customer.
Qed.

(** ** A new order and its status *)

Lemma find_in_some {R} (f : R -> bool) x l : In x l -> f x = true -> find f l <> None.
Proof.
  intros Hin Hx. induction l as [|y l IH]; simpl; [contradiction|].
  destruct (f y) eqn:Hy; [discriminate|].
  destruct Hin as [->|Hin]; [congruence | auto].
Qed.

Lemma consume_rows_statuses admin_id quantity rows : forall k d,
  order_statuses (consume_rows admin_id quantity rows k d) = order_statuses d.
Proof.
  induction rows as [|pm rest IH]; intros k d; [reflexivity|].
  simpl. now rewrite IH.
Qed.

Lemma process_lines_statuses transaction_id admin_id items_in : forall k d,
  order_statuses (process_lines transaction_id admin_id items_in k d) = order_statuses d.
Proof.
  induction items_in as [|line rest IH]; intros k d; [reflexivity|].
  simpl. rewrite IH. simpl. apply consume_rows_statuses.
Qed.

(** X16. An order that [create_order_transaction] has just placed can be
    moved to any status whose code exists: [update_order_status] on the
    returned identifier succeeds, the order then carries the identifier of
    that status with its customer, admin and total as placed, and stock,
    ledger and order items stay as the order left them. *)
Theorem x16_placed_order_takes_any_existing_status data customer_id new_status_code status d n :
  truthy_id (od_customer_id data) = Some customer_id ->
  lacking_materials (requirements_from d (od_items data) []) = [] ->
  order_resolves d (od_items data) ->
  status_by_code new_status_code d = Some status ->
  exists c' c'',
    create_order_transaction data (Idle d n)
    = (Ok {| or_transaction_id := gen_id n; or_message := "Order successfully placed." |}, c')
    /\ update_order_status (gen_id n) new_status_code c' = (Ok StatusSuccess, c'')
    /\ active c'' = None
    /\ In {| ot_id := gen_id n; ot_customer_id := customer_id;
             ot_status_id := os_id status; ot_admin_id := od_admin_id data;
             ot_total_amount := order_total d (od_items data) |}
          (order_transactions (committed c''))
    /\ materials (committed c'') = materials (committed c')
    /\ stock_transactions (committed c'') = stock_transactions (committed c')
    /\ stock_transaction_items (committed c'') = stock_transaction_items (committed c')
    /\ order_items (committed c'') = order_items (committed c').
Proof.
  intros Hcust Hlack Hres Hstatus.
  unfold create_order_transaction, bind at 1.
  rewrite (resolve_customer_given data _ customer_id Hcust).
  rewrite (order_transaction_commits data customer_id d n Hlack Hres).
  destruct (fulfilled_tables data customer_id n d) as [_ [_ [_ [Hin _]]]].
  eexists _, _. split; [reflexivity|].
  rewrite update_order_status_run.
  change (view (Idle (fulfilled data customer_id n d)
                  (S n + List.length (order_rows d (od_items data)))))
    with (fulfilled data customer_id n d).
  assert (Hst : status_by_code new_status_code (fulfilled data customer_id n d) = Some status).
  { rewrite <- Hstatus. unfold status_by_code, fulfilled. simpl.
    now rewrite process_lines_statuses. }
  rewrite Hst.
  assert (Hord : order_by_id (gen_id n) (fulfilled data customer_id n d) <> None).
  { unfold order_by_id, fetchone. eapply find_in_some; [exact Hin|]. simpl.
    apply String.eqb_refl. }
  destruct (order_by_id (gen_id n) (fulfilled data customer_id n d)); [|now elim Hord].
  split; [reflexivity|]. split; [reflexivity|].
  split; [|repeat split].
  simpl. unfold update_where at 1. apply in_map_iff.
  eexists. split; [|exact Hin]. simpl. rewrite String.eqb_refl. reflexivity.
Qed.

End Timestock.

(** ** The shop: facts used by the examples *)

Lemma demo_id_injective : forall i j, demo_id i = demo_id j -> i = j.
Proof.
  intros i j H. unfold demo_id in H. simpl in H. injection H as H.
  apply (f_equal NilEmpty.uint_of_string) in H. rewrite !NilEmpty.usu in H.
  injection H as H. apply (f_equal Nat.of_uint) in H.
  now rewrite !Unsigned.of_to in H.
Qed.

Lemma shop_ledger_consistent : ledger_consistent shop.
Proof. intros m [<-|[]]. reflexivity. Qed.

Lemma shop_ids_fresh n : ids_fresh demo_id shop n.
Proof.
  intros k _. split; simpl; intros [H|[]]; unfold demo_id in H; simpl in H; discriminate.
Qed.

(** ** Worked examples *)

(** C1. The admission check does not sum the demand of a shared material:
    ordering one A (2 units of M) and one B (3 units of M) with 4 units of M
    in stock, the aggregated demand is 5, yet the pre-check records a need of
    3, the order is admitted and the stock of M ends at -1. *)
Theorem c1_shared_material_demand_not_summed :
  let out := create_order_transaction demo_id as_is as_is order_a_and_b (Idle shop 0) in
  aggregated_needed shop (od_items order_a_and_b) "M" = 5
  /\ map m_current_stock (materials shop) = [4]
  /\ fst (precheck (od_items order_a_and_b) (Idle shop 0))
     = Ok [("M", {| r_needed := 3; r_available := 4; r_item_name := "Steel";
                    r_unit := "pcs" |})]
  /\ fst out = Ok {| or_transaction_id := "T0"; or_message := "Order successfully placed." |}
  /\ map m_current_stock (materials (committed (snd out))) = [-1].
Proof. vm_compute. repeat split. Qed.

(** C2. The customer created for a walk-in order survives the rollback: the
    order for three A is rejected for insufficient stock, the connection is
    quiescent again, and the committed database has a customer row it did not
    have before the call. *)
Theorem c2_customer_row_survives_rollback :
  let out := create_order_transaction demo_id as_is as_is order_walk_in (Idle shop 0) in
  fst out = Raise (HTTPException 400
                     (formatted_message ["Steel (Need: 6 pcs, Available: 4 pcs)"]))
  /\ active (snd out) = None
  /\ customers shop = []
  /\ customers (committed (snd out))
     = [{| c_id := "T0"; c_firstname := "Ana"; c_lastname := "Cruz";
           c_contact_number := "0917"; c_email := "ana@example.com";
           c_address := "Davao" |}]
  /\ committed (snd out) <> shop.
Proof.
  vm_compute. repeat split. intros H. discriminate H.
Qed.

(** C4. The rejection does not list every material in deficit: with B also
    needing 10 units of N (none in stock), the order for one A and one B has
    an aggregated demand of 5 for M against a stock of 4 and of 10 for N
    against 0, and the failure names N only. *)
Theorem c4_rejection_misses_shared_material :
  let out := create_order_transaction demo_id as_is as_is order_a_and_b (Idle shop_two 0) in
  aggregated_needed shop_two (od_items order_a_and_b) "M" = 5
  /\ aggregated_needed shop_two (od_items order_a_and_b) "N" = 10
  /\ map (fun m => (m_id m, m_current_stock m)) (materials shop_two) = [("M", 4); ("N", 0)]
  /\ fst out = Raise (HTTPException 400
                        (formatted_message ["Glue (Need: 10 pcs, Available: 0 pcs)"]))
  /\ committed (snd out) = shop_two.
Proof. vm_compute. repeat split. Qed.

(** Counterexample to C3 as stated: a receipt recorded under the stock type
    ['STT002'] is accepted; the stock of M goes up by 5 while the ledger counts
    the row as a consumption, so the invariant that held before the call does
    not hold after it. *)
Lemma c3_counterexample_receipt_typed_as_consumption :
  let out := stock_materials demo_id as_is as_is as_is
               (receipt_of (Some "STT002") (Some "ADM1") None five_of_m) (Idle shop 0) in
  ledger_consistent shop
  /\ ~ raises out
  /\ active (snd out) = None
  /\ ~ ledger_consistent (committed (snd out)).
Proof.
  split; [exact shop_ledger_consistent|]. split; [|split; [reflexivity|]].
  - intros [e He]. vm_compute in He. discriminate He.
  - intros H. specialize (H (material_row "M" "IM" 9) (or_introl eq_refl)).
    vm_compute in H. discriminate H.
Qed.

(** Counterexample to C6 as stated: P has no BOM lines, reading its
    requirements is not a failure, and the order for two P is fulfilled. *)
Lemma c6_counterexample_order_for_product_without_bom :
  let out := create_order_transaction demo_id as_is as_is order_p (Idle shop 0) in
  bom_of "P" shop = []
  /\ get_product_materials_by_product_id "P" (Idle shop 0) = (Ok [], Idle shop 0)
  /\ ~ raises out
  /\ fst out = Ok {| or_transaction_id := "T0"; or_message := "Order successfully placed." |}
  /\ materials (committed (snd out)) = materials shop.
Proof.
  split; [reflexivity|]. split; [reflexivity|]. split; [|split; reflexivity].
  intros [e He]. vm_compute in He. discriminate He.
Qed.

(** Counterexample to C7 as stated: a receipt with both [admin_id] and
    [employee_id] is not rejected, and its header is written with both. *)
Lemma c7_counterexample_both_actors_accepted :
  let out := stock_materials demo_id as_is as_is as_is
               (receipt_of None (Some "ADM1") (Some "EMP1") five_of_m) (Idle shop 0) in
  ~ raises out
  /\ stock_transactions (committed (snd out))
     = (stock_transactions shop
        ++ [{| st_id := "T0"; st_stock_type_id := "STT001"; st_supplier_id := "S1";
               st_admin_id := Some "ADM1"; st_employee_id := Some "EMP1" |}])%list
  /\ committed (snd out) <> shop.
Proof.
  split; [|split; [reflexivity|]].
  - intros [e He]. vm_compute in He. discriminate He.
  - intros H. apply (f_equal (fun d => List.length (stock_transactions d))) in H.
    vm_compute in H. discriminate H.
Qed.

(** Counterexample to C8 as stated: a receipt line of -5 and an order line of
    -1 are both accepted; each writes its ledger row with the negative
    quantity and moves the stock of M, to -1 and to 6. *)
Lemma c8_counterexample_negative_quantities_accepted :
  let received := stock_materials demo_id as_is as_is as_is
                    (receipt_of None (Some "ADM1") None
                       [{| sl_material_id := "M"; sl_quantity := -5 |}]) (Idle shop 0) in
  let ordered := create_order_transaction demo_id as_is as_is order_minus_one (Idle shop 0) in
  ~ raises received
  /\ stock_transaction_items (committed (snd received))
     = (stock_transaction_items shop
        ++ [{| sti_stock_transaction_id := "T0"; sti_material_id := "M";
               sti_quantity := -5 |}])%list
  /\ map m_current_stock (materials (committed (snd received))) = [-1]
  /\ ~ raises ordered
  /\ stock_transaction_items (committed (snd ordered))
     = (stock_transaction_items shop
        ++ [{| sti_stock_transaction_id := "T1"; sti_material_id := "M";
               sti_quantity := -2 |}])%list
  /\ map m_current_stock (materials (committed (snd ordered))) = [6].
Proof.
  split; [|split; [reflexivity | split; [reflexivity | split; [|split; reflexivity]]]].
  - intros [e He]. vm_compute in He. discriminate He.
  - intros [e He]. vm_compute in He. discriminate He.
Qed.

(** ** The theorems at the shop *)

(** C3 at the shop: a receipt of five M under the default stock type and the
    order for one A and one B both leave a consistent, quiescent connection. *)
Lemma c3_witness_shop :
  quiescent_consistent demo_id
    (snd (stock_materials demo_id as_is as_is as_is
            (receipt_of None (Some "ADM1") None five_of_m) (Idle shop 0)))
  /\ quiescent_consistent demo_id
       (snd (create_order_transaction demo_id as_is as_is order_a_and_b (Idle shop 0))).
Proof.
  destruct (c3_ledger_counter_invariant_preserved demo_id as_is as_is as_is shop 0
              demo_id_injective shop_ledger_consistent (shop_ids_fresh 0)) as [Hr Ho].
  split.
  - apply Hr. intros ty H. vm_compute in H. injection H as <-. discriminate.
  - apply Ho.
Defined.

(** C5 at the shop: P gets its first line for M, at the cost of M. *)
Lemma c5_witness_shop :
  add_product_materials {| bd_product_id := "P"; bd_materials := [p_needs_m] |} (Idle shop 0)
  = (Ok tt, Idle (with_product_materials (insert (bom_row "P" "M" 2)) shop) 0).
Proof.
  exact (proj1 (c5_bom_insert_skips_existing_pair shop 0 "P" p_needs_m 1 eq_refl eq_refl)).
Defined.

(** C6 at the shop: the order for two P. *)
Lemma c6_witness_shop :
  exists c',
    create_order_transaction demo_id as_is as_is order_p (Idle shop 0)
    = (Ok {| or_transaction_id := demo_id 0; or_message := "Order successfully placed." |}, c')
    /\ active c' = None
    /\ materials (committed c') = materials shop.
Proof.
  destruct (proj2 (c6_empty_bom_is_not_an_error demo_id as_is as_is) order_p shop 0%nat "C1"
              eq_refl) as [c' [Hrun [Hact [Hmat _]]]].
  - intros line [<-|[]]. split; [reflexivity | discriminate].
  - exists c'. split; [exact Hrun | split; assumption].
Defined.

(** C7 at the shop: a receipt without any actor. *)
Lemma c7_witness_shop :
  exists e n',
    stock_materials demo_id as_is as_is as_is (receipt_of None None None five_of_m) (Idle shop 0)
    = (Raise e, Idle shop n').
Proof.
  exact (proj1 (proj1 (c7_stock_materials_requires_some_actor demo_id as_is as_is as_is
                         (receipt_of None None None five_of_m) shop 0)
                      eq_refl eq_refl)).
Defined.

(** C8 at the shop: a receipt of five M. *)
Lemma c8_witness_shop :
  exists c',
    stock_materials demo_id as_is as_is as_is
      (receipt_of None (Some "ADM1") None five_of_m) (Idle shop 0)
    = (Ok {| sr_transaction_id := demo_id 0;
             sr_message := "Materials successfully stocked." |}, c')
    /\ active c' = None.
Proof.
  destruct (proj1 (c8_quantities_are_not_validated demo_id as_is as_is as_is)
              (receipt_of None (Some "ADM1") None five_of_m) shop 0%nat "S1" "STT001"
              eq_refl eq_refl eq_refl) as [c' [Hrun [Hact _]]].
  exists c'. split; assumption.
Defined.


(** C10 at the shop: the line for M stays although the unknown material X
    makes the call fail. *)
Lemma c10_witness_shop :
  add_product_materials
    {| bd_product_id := "P"; bd_materials := [p_needs_m; p_needs_unknown] |} (Idle shop 0)
  = (Raise (ValueError "Material with ID 'X' not found."),
     Idle (with_product_materials (insert (bom_row "P" "M" 2)) shop) 0).
Proof.
  exact (proj1 (c10_add_product_materials_not_atomic shop 0 "P" [p_needs_m] p_needs_unknown []
                  (Idle (with_product_materials (insert (bom_row "P" "M" 2)) shop) 0)
                  eq_refl eq_refl eq_refl eq_refl)).
Defined.

(** ** Maintaining the bill of materials *)

Lemma update_product_material_run product_id material_id used cost d n :
  update_product_material product_id material_id used cost (Idle d n)
  = let d' := with_product_materials
                (update_where (bom_pair product_id material_id) (set_bom_values used cost)) d in
    if Nat.eqb (rowcount (bom_pair product_id material_id) (product_materials d)) 0
    then (Raise (ValueError "No matching product-material found to update."), Idle d' n)
    else (Ok tt, Idle d' n).
Proof.
  unfold update_product_material, bind, execute_rowcount.
  change (view (Idle d n)) with d.
  now destruct (Nat.eqb (rowcount (bom_pair product_id material_id) (product_materials d)) 0).
Qed.

Lemma delete_product_material_run product_id material_id d n :
  delete_product_material product_id material_id (Idle d n)
  = let d' := with_product_materials (delete_where (bom_pair product_id material_id)) d in
    if Nat.eqb (rowcount (bom_pair product_id material_id) (product_materials d)) 0
    then (Raise (ValueError "No matching product-material found to delete."), Idle d' n)
    else (Ok tt, Idle d' n).
Proof.
  unfold delete_product_material, bind, execute_rowcount.
  change (view (Idle d n)) with d.
  now destruct (Nat.eqb (rowcount (bom_pair product_id material_id) (product_materials d)) 0).
Qed.

Lemma bom_line_exists_rowcount product_id material_id d :
  Nat.eqb (rowcount (bom_pair product_id material_id) (product_materials d)) 0
  = negb (bom_line_exists product_id material_id d).
Proof.
  unfold bom_line_exists, fetchone. fold (bom_pair product_id material_id).
  destruct (find (bom_pair product_id material_id) (product_materials d)) eqn:Hfind; simpl.
  - destruct (Nat.eqb _ 0) eqn:E; [|reflexivity].
    apply rowcount_zero_iff in E. congruence.
  - now apply rowcount_zero_iff.
Qed.

Lemma bom_line_exists_false product_id material_id d :
  bom_line_exists product_id material_id d = false ->
  find (bom_pair product_id material_id) (product_materials d) = None.
Proof.
  unfold bom_line_exists, fetchone. fold (bom_pair product_id material_id).
  now destruct (find (bom_pair product_id material_id) (product_materials d)).
Qed.

(** X1. [update_product_material] changes the quantity and cost of the rows
    of the pair and nothing else: when no row of the pair exists it raises
    [ValueError] and the database is as before; otherwise it succeeds, every
    row of the pair then carries the new values, the rows keep their order
    and keys, and the rows of other pairs and all other tables are
    untouched. *)
Theorem x1_update_product_material_targets_the_pair product_id material_id used cost d n :
  (bom_line_exists product_id material_id d = false ->
     update_product_material product_id material_id used cost (Idle d n)
     = (Raise (ValueError "No matching product-material found to update."), Idle d n))
  /\ (bom_line_exists product_id material_id d = true ->
        exists d',
          update_product_material product_id material_id used cost (Idle d n)
          = (Ok tt, Idle d' n)
          /\ (forall r, In r (product_materials d') ->
                bom_pair product_id material_id r = true ->
                pm_used_quantity r = used /\ pm_unit_cost r = cost)
          /\ map (fun r => (pm_product_id r, pm_material_id r)) (product_materials d')
             = map (fun r => (pm_product_id r, pm_material_id r)) (product_materials d)
          /\ filter (fun r => negb (bom_pair product_id material_id r)) (product_materials d')
             = filter (fun r => negb (bom_pair product_id material_id r)) (product_materials d)
          /\ with_product_materials (fun _ => product_materials d) d' = d).
Proof.
  rewrite update_product_material_run, bom_line_exists_rowcount. cbv zeta.
  split; intros Hex; rewrite Hex; simpl negb; cbv iota.
  - f_equal. unfold Idle. f_equal.
    assert (Hnone := bom_line_exists_false product_id material_id d Hex).
    destruct d; unfold with_product_materials; simpl in *. f_equal.
    apply update_where_untouched.
    exact Hnone.
  - eexists. split; [reflexivity|]. simpl. split; [|split; [|split]].
    + intros r Hin Hpair. unfold update_where in Hin. apply in_map_iff in Hin.
      destruct Hin as [r' [<- _]].
      destruct (bom_pair product_id material_id r') eqn:Hp; [split; reflexivity|].
      congruence.
    + unfold update_where. rewrite map_map. apply map_ext. intros r.
      now destruct (bom_pair product_id material_id r).
    + unfold update_where. induction (product_materials d) as [|x l IH]; [reflexivity|].
      simpl. destruct (bom_pair product_id material_id x) eqn:Hx; simpl.
      * assert (Hset : bom_pair product_id material_id (set_bom_values used cost x) = true)
          by exact Hx.
        rewrite Hset. simpl. exact IH.
      * rewrite Hx. simpl. now rewrite IH.
    + now destruct d.
Qed.

(** X2. [delete_product_material] removes the rows of the pair and nothing
    else: when no row of the pair exists it raises [ValueError] and the
    database is as before; otherwise it succeeds, no row of the pair is
    left, and the rows of every other pair, in their order, and all other
    tables are untouched. *)
Theorem x2_delete_product_material_targets_the_pair product_id material_id d n :
  (bom_line_exists product_id material_id d = false ->
     delete_product_material product_id material_id (Idle d n)
     = (Raise (ValueError "No matching product-material found to delete."), Idle d n))
  /\ (bom_line_exists product_id material_id d = true ->
        exists d',
          delete_product_material product_id material_id (Idle d n) = (Ok tt, Idle d' n)
          /\ bom_line_exists product_id material_id d' = false
          /\ product_materials d'
             = filter (fun r => negb (bom_pair product_id material_id r)) (product_materials d)
          /\ (forall other_product other_material,
                other_product <> product_id \/ other_material <> material_id ->
                filter (bom_pair other_product other_material) (product_materials d')
                = filter (bom_pair other_product other_material) (product_materials d))
          /\ with_product_materials (fun _ => product_materials d) d' = d).
Proof.
  rewrite delete_product_material_run, bom_line_exists_rowcount. cbv zeta.
  split; intros Hex; rewrite Hex; simpl negb; cbv iota.
  - f_equal. unfold Idle. f_equal.
    assert (Hnone := bom_line_exists_false product_id material_id d Hex).
    destruct d; unfold with_product_materials; simpl in *. f_equal.
    now apply delete_where_untouched.
  - eexists. split; [reflexivity|]. simpl. split; [|split; [|split]].
    + unfold bom_line_exists, fetchone. simpl. fold (bom_pair product_id material_id).
      now rewrite delete_where_gone.
    + reflexivity.
    + intros op om Hother. apply delete_where_others. intros r Hr.
      unfold bom_pair in *.
      apply andb_true_iff in Hr. destruct Hr as [H1 H2].
      apply String.eqb_eq in H1, H2. rewrite H1, H2.
      apply andb_false_iff. destruct Hother as [H|H]; [left | right];
        now apply String.eqb_neq.
    + now destruct d.
Qed.

(** X3. Adding a new BOM line and deleting it again is a round trip: for a
    pair without a line and a material whose cost is given or resolves,
    [add_product_materials] followed by [delete_product_material] returns
    the database to what it was. *)
Theorem x3_add_then_delete_bom_line_round_trip d n product_id material cost :
  bom_line_exists product_id (bi_material_id material) d = false ->
  match bi_unit_cost material with
  | Some given => cost = given
  | None => option_map m_material_cost (material_by_id (bi_material_id material) d) = Some cost
  end ->
  exists c1,
    add_product_materials {| bd_product_id := product_id; bd_materials := [material] |} (Idle d n)
    = (Ok tt, c1)
    /\ bom_line_exists product_id (bi_material_id material) (committed c1) = true
    /\ delete_product_material product_id (bi_material_id material) c1 = (Ok tt, Idle d n).
Proof.
  intros Hex Hcost.
  assert (Hadd := add_product_material_insert product_id material cost d n Hex Hcost).
  eexists. split.
  { unfold add_product_materials. simpl. unfold bind. rewrite Hadd. reflexivity. }
  split.
  - apply bom_line_exists_inserted.
  - rewrite delete_product_material_run, bom_line_exists_rowcount,
      bom_line_exists_inserted. cbv zeta. simpl negb. cbv iota.
    f_equal. unfold Idle. f_equal.
    assert (Hnone := bom_line_exists_false product_id (bi_material_id material) d Hex).
    destruct d; unfold with_product_materials, insert, delete_where; simpl in *. f_equal.
    rewrite filter_app. simpl. unfold bom_pair at 2. simpl. rewrite !String.eqb_refl. simpl.
    rewrite app_nil_r. now apply delete_where_untouched.
Qed.

(** ** Deleting a material *)

Lemma delete_material_run material_id d n :
  delete_material material_id (Idle d n)
  = match material_by_id material_id d with
    | None => (Ok {| success := false; message := "Material not found." |}, Idle d n)
    | Some m =>
        (Ok {| success := true;
               message := "Material and corresponding item deleted successfully." |},
         Idle (with_items (delete_where (fun i => String.eqb (i_id i) (m_item_id m)))
                 (with_materials (delete_where (fun m => String.eqb (m_id m) material_id))
                    (with_stock_transaction_items
                       (delete_where (fun it => String.eqb (sti_material_id it) material_id))
                       (with_product_materials
                          (delete_where (fun r => String.eqb (pm_material_id r) material_id))
                          d)))) n)
    end.
Proof.
  unfold delete_material, try_except, bind, query. change (view (Idle d n)) with d.
  now destruct (material_by_id material_id d).
Qed.

(** X4. [delete_material] never raises.  For an unknown identifier it
    answers "Material not found." and changes nothing.  For a known one it
    answers with success, and afterwards the material, its BOM lines, its
    ledger items and the item row it pointed to are gone, while the rows of
    every other material, the ledger headers, the products, the orders and
    the customers are as before. *)
Theorem x4_delete_material_removes_the_material_only material_id d n :
  (material_by_id material_id d = None ->
     delete_material material_id (Idle d n)
     = (Ok {| success := false; message := "Material not found." |}, Idle d n))
  /\ (forall m, material_by_id material_id d = Some m ->
        exists d',
          delete_material material_id (Idle d n)
          = (Ok {| success := true;
                   message := "Material and corresponding item deleted successfully." |},
             Idle d' n)
          /\ material_by_id material_id d' = None
          /\ filter (fun r => String.eqb (pm_material_id r) material_id) (product_materials d') = []
          /\ filter (fun it => String.eqb (sti_material_id it) material_id)
                    (stock_transaction_items d') = []
          /\ find (fun i => String.eqb (i_id i) (m_item_id m)) (items d') = None
          /\ (forall other, other <> material_id ->
                filter (fun m => String.eqb (m_id m) other) (materials d')
                = filter (fun m => String.eqb (m_id m) other) (materials d)
                /\ filter (fun r => String.eqb (pm_material_id r) other) (product_materials d')
                   = filter (fun r => String.eqb (pm_material_id r) other) (product_materials d)
                /\ filter (fun it => String.eqb (sti_material_id it) other)
                          (stock_transaction_items d')
                   = filter (fun it => String.eqb (sti_material_id it) other)
                            (stock_transaction_items d))
          /\ stock_transactions d' = stock_transactions d
          /\ products d' = products d /\ customers d' = customers d
          /\ suppliers d' = suppliers d /\ order_transactions d' = order_transactions d
          /\ order_items d' = order_items d).
Proof.
  rewrite delete_material_run. split.
  - now intros ->.
  - intros m ->. eexists. split; [reflexivity|]. simpl.
    assert (Hother : forall (other : string) (x : string),
              other <> material_id ->
              String.eqb x other = true -> String.eqb x material_id = false).
    { intros other x Hne Hx. apply String.eqb_eq in Hx. subst x. now apply String.eqb_neq. }
    split; [apply delete_where_gone|].
    split; [apply find_none_filter, delete_where_gone|].
    split; [apply find_none_filter, delete_where_gone|].
    split; [apply delete_where_gone|].
    split; [|repeat split].
    intros other Hne. split; [|split]; apply delete_where_others; intros r Hr;
      now apply (Hother other).
Qed.

(** X5. [delete_material] keeps the ledger-counter invariant: if every
    material's [current_stock] equals its ledger balance before the call, it
    does so after it. *)
Theorem x5_delete_material_keeps_ledger_invariant material_id d n :
  ledger_consistent d ->
  ledger_consistent (committed (snd (delete_material material_id (Idle d n)))).
Proof.
  intros Hc. rewrite delete_material_run.
  destruct (material_by_id material_id d) as [m0|]; [|exact Hc].
  simpl. intros m Hin. simpl in Hin. unfold delete_where in Hin.
  apply filter_In in Hin. destruct Hin as [Hin Hid].
  apply negb_true_iff in Hid. rewrite (Hc m Hin).
  unfold ledger_balance. simpl.
  rewrite (delete_where_others
             (fun it => String.eqb (sti_material_id it) material_id)
             (fun it => String.eqb (sti_material_id it) (m_id m))).
  - reflexivity.
  - intros it Hit. apply String.eqb_eq in Hit. now rewrite Hit.
Qed.

(** ** What the pre-check of an order compares *)

Lemma dict_get_set_other {V} (k k' : string) (v : V) (d : pydict V) :
  k' <> k -> dict_get k (dict_set k' v d) = dict_get k d.
Proof.
  intros Hne. induction d as [|[k0 v0] rest IH]; simpl.
  - destruct (String.eqb_spec k' k); [contradiction | reflexivity].
  - destruct (String.eqb_spec k0 k') as [->|H0]; simpl.
    + destruct (String.eqb_spec k' k); [contradiction | reflexivity].
    + destruct (String.eqb k0 k); [reflexivity | exact IH].
Qed.

Lemma dict_get_adjust_other {V} (k k' : string) (f : V -> V) (d : pydict V) :
  k' <> k -> dict_get k (dict_adjust k' f d) = dict_get k d.
Proof.
  intros Hne. induction d as [|[k0 v0] rest IH]; simpl; [reflexivity|].
  destruct (String.eqb_spec k0 k') as [->|H0]; simpl.
  - destruct (String.eqb_spec k' k); [contradiction | exact IH].
  - destruct (String.eqb k0 k); [reflexivity | exact IH].
Qed.

Lemma dict_keys_set {V} (k : string) (v : V) (d : pydict V) :
  NoDup (map fst d) ->
  NoDup (map fst (dict_set k v d))
  /\ (forall x, In x (map fst (dict_set k v d)) -> x = k \/ In x (map fst d)).
Proof.
  induction d as [|[k0 v0] rest IH]; simpl; intros Hnd.
  - split; [repeat constructor; auto | intros x [H|[]]; auto].
  - inversion Hnd as [|? ? Hnotin Hrest]; subst.
    destruct (String.eqb_spec k0 k) as [->|H0]; simpl.
    + split; [exact Hnd | intros x [H|H]; auto].
    + destruct (IH Hrest) as [IH1 IH2]. split.
      * constructor; [|exact IH1]. intros Hin.
        destruct (IH2 _ Hin) as [H|H]; [now elim H0 | contradiction].
      * intros x [H|H]; [auto|]. destruct (IH2 _ H); auto.
Qed.

Lemma dict_keys_adjust {V} (k : string) (f : V -> V) (d : pydict V) :
  map fst (dict_adjust k f d) = map fst d.
Proof.
  unfold dict_adjust. rewrite map_map. apply map_ext. intros [k0 v0]. simpl.
  destruct (String.eqb k0 k); reflexivity.
Qed.

Lemma note_requirement_keys quantity reqs row :
  NoDup (map fst reqs) -> NoDup (map fst (note_requirement quantity reqs row)).
Proof.
  destruct row as [[[[material_id used] stock] name] unit_]. intros H.
  unfold note_requirement. rewrite dict_keys_adjust. now apply dict_keys_set.
Qed.

Lemma note_requirement_other quantity reqs row k :
  row_material (quantity, row) <> k ->
  dict_get k (note_requirement quantity reqs row) = dict_get k reqs.
Proof.
  destruct row as [[[[material_id used] stock] name] unit_]. simpl. intros Hne.
  unfold note_requirement. now rewrite dict_get_adjust_other, dict_get_set_other.
Qed.

Lemma requirements_from_joined d items_in : forall acc,
  requirements_from d items_in acc
  = fold_left (fun reqs entry => note_requirement (fst entry) reqs (snd entry))
              (joined_rows d items_in) acc.
Proof.
  unfold requirements_from, joined_rows.
  induction items_in as [|line rest IH]; intros acc; [reflexivity|].
  simpl. rewrite fold_left_app, IH. f_equal.
  generalize (bom_join (ol_product_id line)
                (fun pm m i => (pm_material_id pm, pm_used_quantity pm, m_current_stock m,
                                i_item_name i, m_unit_measurement m)) d).
  intros rows. revert acc. induction rows as [|row rows IHr]; intros acc; [reflexivity|].
  simpl. apply IHr.
Qed.

Lemma requirements_last_row rows k :
  let reqs := fold_left (fun reqs entry => note_requirement (fst entry) reqs (snd entry))
                        rows [] in
  NoDup (map fst reqs)
  /\ dict_get k reqs = option_map requirement_of (last_row_for k rows).
Proof.
  induction rows as [|entry rows IH] using rev_ind; simpl.
  - split; [constructor | reflexivity].
  - rewrite fold_left_app. simpl. destruct IH as [Hnd Hget]. split.
    + now apply note_requirement_keys.
    + unfold last_row_for. rewrite rev_app_distr. simpl.
      destruct (String.eqb_spec (row_material entry) k) as [Heq|Hne].
      * destruct entry as [quantity [[[[material_id used] stock] name] unit_]].
        simpl in Heq. subst k. simpl. apply note_requirement_resets.
      * destruct entry as [quantity row]. simpl fst. simpl snd.
        rewrite note_requirement_other by exact Hne. exact Hget.
Qed.

Lemma dict_get_in {V} (k : string) (v : V) (d : pydict V) :
  dict_get k d = Some v -> In v (dict_values d).
Proof.
  induction d as [|[k0 v0] rest IH]; simpl; [discriminate|].
  destruct (String.eqb k0 k); [intros H; injection H as ->; auto | auto].
Qed.

Lemma dict_in_get {V} (v : V) (d : pydict V) :
  NoDup (map fst d) -> In v (dict_values d) -> exists k, dict_get k d = Some v.
Proof.
  induction d as [|[k0 v0] rest IH]; simpl; [intros _ []|].
  intros Hnd [Hv|Hin].
  - subst v0. exists k0. now rewrite String.eqb_refl.
  - inversion Hnd as [|? ? Hnotin Hrest]; subst.
    destruct (IH Hrest Hin) as [k Hk]. exists k.
    destruct (String.eqb_spec k0 k) as [->|_]; [|exact Hk].
    exfalso. apply Hnotin. clear - Hk.
    induction rest as [|[k1 v1] rest IHr]; simpl in *; [discriminate|].
    destruct (String.eqb_spec k1 k); [auto | right; auto].
Qed.

Lemma lacking_none_iff reqs :
  lacking_materials reqs = []
  <-> forall v, In v (dict_values reqs) -> r_needed v <= r_available v.
Proof.
  unfold lacking_materials, lacking_entries.
  induction (dict_values reqs) as [|v l IH]; simpl.
  - split; [intros _ v [] | reflexivity].
  - destruct (Z.gtb_spec (r_needed v) (r_available v)) as [Hgt|Hle]; simpl.
    + split; [discriminate|]. intros H. specialize (H v (or_introl eq_refl)). lia.
    + rewrite IH. split.
      * intros H x [<-|Hx]; auto.
      * intros H x Hx. apply H. auto.
Qed.

(** X12. The pre-check of [create_order_transaction] never fails and leaves
    the connection as it was.  The entry it records for a material is the
    one the last joined row naming the material gives rise to, whatever rows
    came before: [needed] is that row's [used_quantity] times the quantity
    of its order line, not a sum.  No material is reported as lacking
    exactly when, for every material, that last row asks for no more than
    the stock it shows. *)
Theorem x12_precheck_judges_the_last_row_of_a_material items_in c :
  exists material_requirements,
    precheck items_in c = (Ok material_requirements, c)
    /\ (forall material_id,
          dict_get material_id material_requirements
          = option_map requirement_of
              (last_row_for material_id (joined_rows (view c) items_in)))
    /\ (lacking_materials material_requirements = []
        <-> forall material_id entry,
              last_row_for material_id (joined_rows (view c) items_in) = Some entry ->
              r_needed (requirement_of entry) <= r_available (requirement_of entry)).
Proof.
  exists (requirements_from (view c) items_in []).
  split; [unfold precheck; apply precheck_run|].
  rewrite requirements_from_joined.
  split.
  - intros material_id. apply requirements_last_row.
  - rewrite lacking_none_iff. split.
    + intros H material_id entry Hlast. apply H.
      apply (dict_get_in material_id).
      destruct (requirements_last_row (joined_rows (view c) items_in) material_id) as [_ ->].
      now rewrite Hlast.
    + intros H v Hv.
      destruct (requirements_last_row (joined_rows (view c) items_in) "") as [Hnd _].
      destruct (dict_in_get v _ Hnd Hv) as [k Hk].
      destruct (requirements_last_row (joined_rows (view c) items_in) k) as [_ Hget].
      rewrite Hget in Hk.
      destruct (last_row_for k (joined_rows (view c) items_in)) as [entry|] eqn:Hlast;
        [|discriminate].
      simpl in Hk. injection Hk as <-. now apply (H k).
Qed.

(** ** Grouping the bills of materials *)

Lemma dict_get_adjust_same {V} (k : string) (f : V -> V) (d : pydict V) :
  dict_get k (dict_adjust k f d) = option_map f (dict_get k d).
Proof.
  induction d as [|[k0 v0] rest IH]; simpl; [reflexivity|].
  destruct (String.eqb k0 k) eqn:Hk; simpl; now rewrite Hk.
Qed.

Lemma dict_get_set_same {V} (k : string) (v : V) (d : pydict V) :
  dict_get k (dict_set k v d) = Some v.
Proof.
  induction d as [|[k0 v0] rest IH]; simpl.
  - now rewrite String.eqb_refl.
  - destruct (String.eqb k0 k) eqn:Hk; simpl; [now rewrite String.eqb_refl | now rewrite Hk].
Qed.

Lemma dict_get_none_keys {V} (k : string) (d : pydict V) :
  dict_get k d = None <-> ~ In k (map fst d).
Proof.
  induction d as [|[k0 v0] rest IH]; simpl; [tauto|].
  destruct (String.eqb_spec k0 k) as [->|Hne].
  - split; [discriminate | intros H; elim H; auto].
  - rewrite IH. tauto.
Qed.

Lemma dict_set_new_keys {V} (k : string) (v : V) (d : pydict V) :
  dict_get k d = None -> map fst (dict_set k v d) = (map fst d ++ [k])%list.
Proof.
  induction d as [|[k0 v0] rest IH]; simpl; [reflexivity|].
  destruct (String.eqb k0 k); [discriminate|]. intros H. simpl. now rewrite IH.
Qed.

Lemma dict_in_get_key {V} (k : string) (v : V) (d : pydict V) :
  NoDup (map fst d) -> In (k, v) d -> dict_get k d = Some v.
Proof.
  induction d as [|[k0 v0] rest IH]; simpl; [intros _ []|].
  intros Hnd [Heq|Hin].
  - injection Heq as -> ->. now rewrite String.eqb_refl.
  - inversion Hnd as [|? ? Hnotin Hrest]; subst.
    destruct (String.eqb_spec k0 k) as [->|_]; [|auto].
    elim Hnotin. apply in_map_iff. now exists (k, v).
Qed.

(** One pass of the loop, read through [dict_get] and the keys. *)
Lemma group_row_get grouped row :
  let prod_id := gr_product_id row in
  let before :=
    match dict_get prod_id grouped with
    | Some g => g
    | None => {| gp_product_id := None; gp_product_name := None; gp_materials := [] |}
    end in
  dict_get prod_id (group_row grouped row)
  = Some {| gp_product_id := Some prod_id; gp_product_name := Some (gr_product_name row);
            gp_materials := (gp_materials before ++ [grouped_material_of row])%list |}
  /\ (forall k, k <> prod_id -> dict_get k (group_row grouped row) = dict_get k grouped)
  /\ map fst (group_row grouped row)
     = match dict_get prod_id grouped with
       | Some _ => map fst grouped
       | None => (map fst grouped ++ [prod_id])%list
       end.
Proof.
  intros prod_id before. unfold group_row. fold prod_id.
  set (default := {| gp_product_id := None; gp_product_name := None; gp_materials := [] |}).
  set (g1 := dict_adjust prod_id _ (dict_default prod_id default grouped)).
  assert (H0 : dict_get prod_id (dict_default prod_id default grouped) = Some before).
  { unfold dict_default, before. destruct (dict_get prod_id grouped) eqn:Hg;
      [exact Hg | apply dict_get_set_same]. }
  assert (H1 : dict_get prod_id g1
               = Some {| gp_product_id := Some prod_id;
                         gp_product_name := gp_product_name before;
                         gp_materials := gp_materials before |}).
  { unfold g1. now rewrite dict_get_adjust_same, H0. }
  assert (D1 : dict_default prod_id default g1 = g1).
  { unfold dict_default. now rewrite H1. }
  rewrite D1.
  set (g2 := dict_adjust prod_id _ g1).
  assert (H2 : dict_get prod_id g2
               = Some {| gp_product_id := Some prod_id;
                         gp_product_name := Some (gr_product_name row);
                         gp_materials := gp_materials before |}).
  { unfold g2. now rewrite dict_get_adjust_same, H1. }
  assert (D2 : dict_default prod_id default g2 = g2).
  { unfold dict_default. now rewrite H2. }
  rewrite D2. split; [|split].
  - now rewrite dict_get_adjust_same, H2.
  - intros k Hk.
    rewrite dict_get_adjust_other by congruence. unfold g2.
    rewrite dict_get_adjust_other by congruence. unfold g1.
    rewrite dict_get_adjust_other by congruence. unfold dict_default.
    destruct (dict_get prod_id grouped); [reflexivity|].
    apply dict_get_set_other. congruence.
  - rewrite dict_keys_adjust. unfold g2. rewrite dict_keys_adjust. unfold g1.
    rewrite dict_keys_adjust. unfold dict_default.
    destruct (dict_get prod_id grouped) eqn:Hg; [reflexivity|].
    now apply dict_set_new_keys.
Qed.

(** The entry of a product after the loop over [df]. *)
Lemma grouped_entries df :
  let grouped := fold_left group_row df [] in
  map fst grouped = rev (nodup string_dec (rev (map gr_product_id df)))
  /\ forall product_id,
       dict_get product_id grouped
       = match rows_of_product product_id df with
         | [] => None
         | rows =>
             Some {| gp_product_id := Some product_id;
                     gp_product_name := last (map (fun r => Some (gr_product_name r)) rows) None;
                     gp_materials := map grouped_material_of rows |}
         end.
Proof.
  induction df as [|row df IH] using rev_ind; [split; reflexivity|].
  cbv zeta in *. rewrite fold_left_app. simpl fold_left.
  destruct IH as [Hkeys Hget].
  destruct (group_row_get (fold_left group_row df []) row) as [Hsame [Hother Hk]].
  cbv zeta in *. split.
  - rewrite Hk, map_app, rev_app_distr. simpl.
    destruct (in_dec string_dec (gr_product_id row) (rev (map gr_product_id df)))
      as [Hin|Hnotin].
    + destruct (dict_get (gr_product_id row) (fold_left group_row df [])) eqn:Hg;
        [exact Hkeys|].
      exfalso. apply dict_get_none_keys in Hg. apply Hg. rewrite Hkeys.
      apply in_rev. rewrite rev_involutive. apply nodup_In. exact Hin.
    + destruct (dict_get (gr_product_id row) (fold_left group_row df [])) eqn:Hg.
      * exfalso. apply Hnotin.
        assert (Hin : In (gr_product_id row) (map fst (fold_left group_row df []))).
        { destruct (in_dec string_dec (gr_product_id row)
                      (map fst (fold_left group_row df []))) as [H|H]; [exact H|].
          apply dict_get_none_keys in H. congruence. }
        rewrite Hkeys in Hin. apply in_rev in Hin. now apply nodup_In in Hin.
      * simpl. now rewrite Hkeys.
  - intros product_id. unfold rows_of_product in *. rewrite filter_app. simpl.
    destruct (String.eqb_spec (gr_product_id row) product_id) as [Heq|Hne].
    + subst product_id. rewrite Hsame, Hget.
      destruct (filter _ df) as [|r0 rows] eqn:Hrows.
      * reflexivity.
      * remember (r0 :: rows) as found eqn:Hfound.
        destruct (found ++ [row])%list as [|g l] eqn:Happ.
        { apply app_eq_nil in Happ. destruct Happ; discriminate. }
        change (Some {| gp_product_id := Some (gr_product_id row);
                        gp_product_name := Some (gr_product_name row);
                        gp_materials := (map grouped_material_of found
                                         ++ [grouped_material_of row])%list |}
                = Some {| gp_product_id := Some (gr_product_id row);
                          gp_product_name :=
                            last (map (fun r => Some (gr_product_name r)) (g :: l)) None;
                          gp_materials := map grouped_material_of (g :: l) |}).
        rewrite <- Happ. f_equal. f_equal.
        -- rewrite map_app. symmetry. apply (last_last _ _ None).
        -- now rewrite map_app.
    + rewrite Hother by congruence. rewrite app_nil_r. apply Hget.
Qed.

(** X19. The grouping loop of [get_product_materials_grouped] returns one
    entry per product of the fetched rows, in the order in which the
    products first appear; the entry of a product carries its identifier,
    the name on the last of its rows, and one material per row of the
    product, in row order: no row is lost and no product is split. *)
Theorem x19_grouping_keeps_every_row_once df :
  map gp_product_id (get_product_materials_grouped df)
  = map Some (rev (nodup string_dec (rev (map gr_product_id df))))
  /\ (forall g, In g (get_product_materials_grouped df) ->
        exists product_id,
          gp_product_id g = Some product_id
          /\ In product_id (map gr_product_id df)
          /\ gp_materials g = map grouped_material_of (rows_of_product product_id df)
          /\ gp_product_name g
             = last (map (fun r => Some (gr_product_name r)) (rows_of_product product_id df))
                    None).
Proof.
  unfold get_product_materials_grouped.
  destruct (grouped_entries df) as [Hkeys Hget]. cbv zeta in *.
  assert (Hnd : NoDup (map fst (fold_left group_row df []))).
  { rewrite Hkeys. apply NoDup_rev, NoDup_nodup. }
  assert (Hentry : forall k g, In (k, g) (fold_left group_row df []) ->
            gp_product_id g = Some k
            /\ In k (map gr_product_id df)
            /\ gp_materials g = map grouped_material_of (rows_of_product k df)
            /\ gp_product_name g
               = last (map (fun r => Some (gr_product_name r)) (rows_of_product k df)) None).
  { intros k g Hin. assert (Hk := dict_in_get_key k g _ Hnd Hin).
    rewrite Hget in Hk.
    destruct (rows_of_product k df) as [|r0 rows] eqn:Hrows; [discriminate|].
    injection Hk as <-. simpl gp_product_id. simpl gp_materials. simpl gp_product_name.
    repeat split.
    assert (Hr0 : In r0 (rows_of_product k df)) by (rewrite Hrows; now left).
    unfold rows_of_product in Hr0. apply filter_In in Hr0. destruct Hr0 as [Hr0 Heq].
    apply String.eqb_eq in Heq. subst k. now apply in_map. }
  split.
  - unfold dict_values. rewrite <- Hkeys, !map_map. apply map_ext_in.
    intros [k g] Hin. simpl. now destruct (Hentry k g Hin).
  - intros g Hg. unfold dict_values in Hg. apply in_map_iff in Hg.
    destruct Hg as [[k g'] [Heq Hin]]. simpl in Heq. subst g'.
    exists k. now apply Hentry.
Qed.

(** ** Further examples at the shop *)

Lemma x1_witness_shop :
  update_product_material "P" "M" 1 1 (Idle shop 0)
  = (Raise (ValueError "No matching product-material found to update."), Idle shop 0).
Proof.
  exact (proj1 (x1_update_product_material_targets_the_pair "P" "M" 1 1 shop 0%nat) eq_refl).
Defined.

Lemma x2_witness_shop :
  delete_product_material "P" "M" (Idle shop 0)
  = (Raise (ValueError "No matching product-material found to delete."), Idle shop 0).
Proof.
  exact (proj1 (x2_delete_product_material_targets_the_pair "P" "M" shop 0%nat) eq_refl).
Defined.

Lemma x3_witness_shop :
  exists c1,
    add_product_materials {| bd_product_id := "P"; bd_materials := [p_needs_m] |} (Idle shop 0)
    = (Ok tt, c1)
    /\ bom_line_exists "P" "M" (committed c1) = true
    /\ delete_product_material "P" "M" c1 = (Ok tt, Idle shop 0).
Proof.
  exact (x3_add_then_delete_bom_line_round_trip shop 0%nat "P" p_needs_m 1 eq_refl eq_refl).
Defined.

Lemma x4_witness_shop :
  exists d',
    delete_material "M" (Idle shop 0)
    = (Ok {| success := true;
             message := "Material and corresponding item deleted successfully." |},
       Idle d' 0)
    /\ material_by_id "M" d' = None
    /\ stock_transactions d' = stock_transactions shop.
Proof.
  destruct (proj2 (x4_delete_material_removes_the_material_only "M" shop 0%nat)
              (material_row "M" "IM" 4) eq_refl)
    as [d' [Hrun [Hgone [_ [_ [_ [_ [Hledger _]]]]]]]].
  exists d'. split; [exact Hrun | split; assumption].
Defined.

Lemma x5_witness_shop :
  ledger_consistent (committed (snd (delete_material "M" (Idle shop 0)))).
Proof.
  exact (x5_delete_material_keeps_ledger_invariant "M" shop 0%nat shop_ledger_consistent).
Defined.

Lemma x8_witness_shop :
  exists d', update_customer as_is as_is as_is "C9" ana (Idle shop 0) = (Ok tt, Idle d' 0)
             /\ d' = shop.
Proof.
  destruct (proj1 (x8_contact_update_delete_silent_on_unknown_id as_is as_is as_is
                     "C9" ana acme shop 0%nat)) as [d' [Hrun [_ [_ Hsame]]]].
  exists d'. split; [exact Hrun | apply Hsame; reflexivity].
Defined.

Lemma order_one_a_resolves : order_resolves shop (od_items order_one_a).
Proof.
  intros line [<-|[]]. split; [discriminate|].
  intros pm [<-|[]]. discriminate.
Qed.

Lemma x9_witness_shop :
  exists c',
    create_order_transaction demo_id as_is as_is order_one_a (Idle shop 0)
    = (Ok {| or_transaction_id := demo_id 0; or_message := "Order successfully placed." |}, c')
    /\ active c' = None
    /\ materials (committed c') = [material_row "M" "IM" 2].
Proof.
  destruct (x9_fulfilled_order_deducts_aggregated_demand demo_id as_is as_is
              order_one_a "C1" shop 0%nat eq_refl eq_refl order_one_a_resolves)
    as [c' [Hrun [Hact [Hmat _]]]].
  exists c'. split; [exact Hrun | split; [exact Hact | exact Hmat]].
Defined.

Lemma x10_witness_shop :
  exists c',
    create_order_transaction demo_id as_is as_is order_walk_in_one (Idle shop 0)
    = (Ok {| or_transaction_id := demo_id 1; or_message := "Order successfully placed." |}, c')
    /\ active c' = None
    /\ customers (committed c')
       = [{| c_id := demo_id 0; c_firstname := "Ana"; c_lastname := "Cruz";
             c_contact_number := "0917"; c_email := "ana@example.com";
             c_address := "Davao" |}].
Proof.
  destruct (x10_walk_in_order_links_new_customer demo_id as_is as_is
              order_walk_in_one ana shop 0%nat eq_refl eq_refl eq_refl order_one_a_resolves)
    as [c' [Hrun [Hact [Hcust _]]]].
  exists c'. split; [exact Hrun | split; [exact Hact | exact Hcust]].
Defined.

Lemma x11_witness_shop :
  create_order_transaction demo_id as_is as_is order_nobody (Idle shop 0)
  = (Raise (ValueError "Either customer_id or customer data must be provided."), Idle shop 0).
Proof.
  exact (proj1 (x11_order_refusals_leave_database_unchanged demo_id as_is as_is
                  order_nobody shop 0%nat) eq_refl eq_refl).
Defined.

Lemma x12_witness_shop :
  exists material_requirements,
    precheck (od_items order_a_and_b) (Idle shop 0) = (Ok material_requirements, Idle shop 0)
    /\ dict_get "M" material_requirements
       = Some {| r_needed := 3; r_available := 4; r_item_name := "Steel"; r_unit := "pcs" |}
    /\ lacking_materials material_requirements = [].
Proof.
  destruct (x12_precheck_judges_the_last_row_of_a_material (od_items order_a_and_b)
              (Idle shop 0)) as [reqs [Hrun [Hget Hlack]]].
  exists reqs. split; [exact Hrun|]. split; [exact (Hget "M")|].
  apply Hlack. intros material_id entry Hlast.
  assert (Hrows : joined_rows (view (Idle shop 0)) (od_items order_a_and_b)
                  = [(1, ("M", 2, 4, "Steel", "pcs")); (1, ("M", 3, 4, "Steel", "pcs"))])
    by reflexivity.
  rewrite Hrows in Hlast.
  change (last_row_for material_id
            [(1, ("M", 2, 4, "Steel", "pcs")); (1, ("M", 3, 4, "Steel", "pcs"))])
    with (if String.eqb "M" material_id then Some (1, ("M", 3, 4, "Steel", "pcs"))
          else if String.eqb "M" material_id then Some (1, ("M", 2, 4, "Steel", "pcs"))
          else None) in Hlast.
  destruct (String.eqb "M" material_id).
  - injection Hlast as <-. simpl. lia.
  - discriminate.
Defined.

Lemma x13_witness_shop :
  stock_materials demo_id as_is as_is as_is receipt_from_nobody (Idle shop 0)
  = (Raise (ValueError "Either supplier_id or supplier details must be provided."),
     Idle shop 0)
  /\ stock_materials demo_id as_is as_is as_is (receipt_from_acme None) (Idle shop 0)
     = (Raise (ValueError "Either admin_id or employee_id must be provided."), Idle shop 1).
Proof.
  split.
  - exact (proj1 (x13_stock_materials_refusals_restore_the_database demo_id as_is as_is as_is
                    receipt_from_nobody shop 0%nat) eq_refl eq_refl).
  - exact (proj2 (proj2 (proj2 (x13_stock_materials_refusals_restore_the_database
                                  demo_id as_is as_is as_is (receipt_from_acme None) shop 0%nat)))
             acme "STT001" eq_refl eq_refl eq_refl eq_refl eq_refl eq_refl).
Defined.

Lemma x14_witness_shop :
  exists d',
    stock_materials demo_id as_is as_is as_is (receipt_from_acme (Some "ADM1")) (Idle shop 0)
    = (Ok {| sr_transaction_id := demo_id 1; sr_message := "Materials successfully stocked." |},
       Idle d' 2)
    /\ suppliers d'
       = [{| s_id := demo_id 0; s_firstname := "Al"; s_lastname := "Reyes";
             s_contact_name := "Acme"; s_contact_number := "0918";
             s_email := "acme@example.com"; s_address := "Cebu" |}].
Proof.
  destruct (x14_receipt_creates_its_supplier demo_id as_is as_is as_is
              (receipt_from_acme (Some "ADM1")) acme "STT001" shop 0%nat
              eq_refl eq_refl eq_refl eq_refl eq_refl) as [d' [Hrun [Hsup _]]].
  exists d'. split; [exact Hrun | exact Hsup].
Defined.

Lemma x15_witness_shop :
  exists n',
    snd (stock_materials demo_id as_is as_is as_is (receipt_of None None None five_of_m)
           (Idle shop 0))
    = Idle shop n'.
Proof.
  exact (proj1 (x15_failed_calls_commit_nothing_after_begin demo_id as_is as_is as_is shop 0%nat)
           (receipt_of None None None five_of_m)
           (ValueError "Either admin_id or employee_id must be provided.")
           (snd (stock_materials demo_id as_is as_is as_is
                   (receipt_of None None None five_of_m) (Idle shop 0)))
           eq_refl).
Defined.

Lemma x16_witness_shop :
  exists c' c'',
    create_order_transaction demo_id as_is as_is order_one_a (Idle shop 0)
    = (Ok {| or_transaction_id := demo_id 0; or_message := "Order successfully placed." |}, c')
    /\ update_order_status (demo_id 0) "DONE" c' = (Ok StatusSuccess, c'')
    /\ In {| ot_id := demo_id 0; ot_customer_id := "C1"; ot_status_id := "OS2";
             ot_admin_id := Some "ADM1"; ot_total_amount := 10 |}
          (order_transactions (committed c'')).
Proof.
  destruct (x16_placed_order_takes_any_existing_status demo_id as_is as_is
              order_one_a "C1" "DONE" {| os_id := "OS2"; os_status_code := "DONE" |}
              shop 0%nat eq_refl eq_refl order_one_a_resolves eq_refl)
    as [c' [c'' [Hrun [Hset [_ [Hin _]]]]]].
  exists c', c''. split; [exact Hrun | split; [exact Hset | exact Hin]].
Defined.

Lemma frame_entry_of_a :
  In {| gp_product_id := Some "A"; gp_product_name := Some "Door";
        gp_materials := [grouped_material_of (frame_row "A" "Door" "M");
                         grouped_material_of (frame_row "A" "Door" "N")] |}
     (get_product_materials_grouped frame).
Proof. vm_compute. left. reflexivity. Qed.

Lemma x19_witness_frame :
  exists product_id,
    Some "A" = Some product_id
    /\ In product_id (map gr_product_id frame)
    /\ [grouped_material_of (frame_row "A" "Door" "M");
        grouped_material_of (frame_row "A" "Door" "N")]
       = map grouped_material_of (rows_of_product product_id frame).
Proof.
  destruct (proj2 (x19_grouping_keeps_every_row_once frame)
              {| gp_product_id := Some "A"; gp_product_name := Some "Door";
                 gp_materials := [grouped_material_of (frame_row "A" "Door" "M");
                                  grouped_material_of (frame_row "A" "Door" "N")] |}
              frame_entry_of_a)
    as [product_id [Hid [Hin [Hmat _]]]].
  exists product_id. split; [exact Hid | split; [exact Hin | exact Hmat]].
Defined.
